(** * Batched aggregation pipeline of the participant status logs

    A shallow embedding of the loader ([ingestion/data_loader.py]), of
    the job flows and the two batched analyses of
    [processing/employment_processor.py] (turnover rates and employment
    stability), of the columns that the business and the financial
    processor read, and of the run of [main.py] on the store of
    [database/duckdb_manager.py], followed by the properties of the
    specification that concern them.

    Conventions.
    - A nullable column value is an [option]; [None] is polars' null.
    - Python integers are [Z]; a frame is the list of its rows, and the
      final result frames also carry their column names.
    - Float64 values are modelled by exact rationals ([Q], kept reduced
      with [Qred]); every statement about a mean or a rate is a statement
      about the exact quotient.
    - [group_by] without [maintain_order] returns its groups in an
      unspecified order; the model lists them in a fixed order and the
      theorems below only speak about membership.
    - What lies outside the program is taken as it comes: the file
      system gives, for every file, what the CSV reader makes of it, and
      the database says which of the statements sent to it raises. *)

From Stdlib Require Import ZArith QArith Lia Lqa Ascii String.
From stdpp Require Import base option list gmap strings pretty sorting.

Open Scope Z_scope.

(** ** Python and polars primitives used by the sources *)

Module Py.

(** [len(frame)] *)
Definition len {A} (t : list A) : Z := Z.of_nat (length t).

(** [range(start, stop, step)] for a positive step; the sources only call
    it with the constant step 5_000_000 (Python raises on a zero step
    and counts downwards on a negative one, neither is modelled). *)
Definition range (start stop step : Z) : list Z :=
  if decide (0 < step)
  then (λ i : nat, start + Z.of_nat i * step)
         <$> seq 0 (Z.to_nat ((stop - start + step - 1) `div` step))
  else [].

(** Exceptions that reach [main]: Python's own, those of polars, and any
    other (of the database driver, of the operating system). *)
Inductive Exception :=
| FileNotFoundError (msg : string)
| NoDataError (msg : string)
| ComputeError (msg : string)
| ColumnNotFoundError (name : string)
| ShapeError (msg : string)
| SchemaError (msg : string)
| OtherError (msg : string).

(** A computation that returns or raises. *)
Inductive Result (A : Type) :=
| Ok (a : A)
| Raise (e : Exception).
Arguments Ok {A} a.
Arguments Raise {A} e.

Global Instance Result_bind : MBind Result := λ A B k m,
  match m with
  | Ok a => k a
  | Raise e => Raise e
  end.
Global Instance Result_ret : MRet Result := λ A a, Ok a.

End Py.

Module pl.

(** [frame.slice(offset, length)] for a non-negative offset. *)
Definition slice {A} (t : list A) (offset length : Z) : list A :=
  take (Z.to_nat length) (drop (Z.to_nat offset) t).

(** [frame.unique()] *)
Definition unique `{EqDecision A} (t : list A) : list A := remove_dups t.

(** [frame.group_by(key)]: one group per distinct key, null keys
    included, each group holding the rows of the frame with that key. *)
Definition group_by `{EqDecision K} {A} (key : A → K) (t : list A)
  : list (K * list A) :=
  (λ k, (k, filter (λ r, key r = k) t)) <$> remove_dups (key <$> t).

(** The non-null values of a column. *)
Definition drop_nulls {A} (col : list (option A)) : list A := omap id col.

Definition Qsum (l : list Q) : Q := foldr Qplus 0%Q l.

(** [col.mean()]: the mean of the non-null values, null when there is
    none. *)
Definition mean (col : list (option Q)) : option Q :=
  match drop_nulls col with
  | [] => None
  | v :: vs => Some (Qred (Qsum (v :: vs) / inject_Z (Py.len (v :: vs))))
  end.

(** [col.sum()] on an integer column: nulls are skipped. *)
Definition sum (col : list (option Z)) : Z := foldr Z.add 0 (drop_nulls col).

(** [col.min()] and [col.max()]: nulls are skipped, null when there is
    no value. *)
Definition min (col : list (option Z)) : option Z :=
  match drop_nulls col with
  | [] => None
  | v :: vs => Some (foldr Z.min v vs)
  end.

Definition max (col : list (option Z)) : option Z :=
  match drop_nulls col with
  | [] => None
  | v :: vs => Some (foldr Z.max v vs)
  end.

(** [col.n_unique()]: the number of distinct values, null counting as
    one value. *)
Definition n_unique `{EqDecision A} (col : list (option A)) : Z :=
  Py.len (remove_dups col).

(** A boolean column read as numbers, as [mean] and [sum] do. *)
Definition of_bool (b : bool) : Z := if b then 1 else 0.

(** [a & b] on nullable booleans: false when either side is false, null
    when the other cases have a null side. *)
Definition and_ (a b : option bool) : option bool :=
  match a, b with
  | Some false, _ | _, Some false => Some false
  | Some true, Some true => Some true
  | _, _ => None
  end.

(** The order of [sort] on a nullable integer column: nulls first. *)
Definition compare (x y : option Z) : comparison :=
  match x, y with
  | None, None => Eq
  | None, Some _ => Lt
  | Some _, None => Gt
  | Some a, Some b => a ?= b
  end.

(** The column names of a frame, as far as an expression needs them:
    [col names] is what naming the columns [names] in the frame with the
    columns [columns] does, and polars raises ColumnNotFoundError on the
    first name that the frame does not have. *)
Definition col (columns names : list string) : Py.Result unit :=
  match filter (λ n, n ∉ columns) names with
  | [] => Py.Ok ()
  | n :: _ => Py.Raise (Py.ColumnNotFoundError n)
  end.

(** [frame.select([pl.col(n).alias(a), pl.lit(..).alias(a'), ...])]: the
    columns [names] are read, the frame that results has the columns
    [aliases]. *)
Definition select (columns names aliases : list string)
  : Py.Result (list string) :=
  col columns names;; Py.Ok aliases.

(** [pl.concat([a, b])]: the two frames must have the same columns. *)
Definition vstack (a b : list string) : Py.Result (list string) :=
  if decide (a = b) then Py.Ok a
  else Py.Raise (Py.ShapeError "unable to vstack, column names don't match").

(** [left.join(right, on=keys, how=...)]: both frames need the keys; the
    result has the columns of [left] and the other columns of [right]. *)
Definition join (left right keys : list string) : Py.Result (list string) :=
  col left keys;; col right keys;;
  Py.Ok (left ++ filter (λ c, c ∉ keys) right).

(** A result frame: its column names and its rows. *)
Record DataFrame (R : Type) := { columns : list string; rows : list R }.
Arguments columns {R} _.
Arguments rows {R} _.

(** The library functions whose results the sources take as they come:
    the three string parsers of the loader and the month formatter. *)
Class Casts := {
  (** [str.to_datetime(format="%Y-%m-%dT%H:%M:%SZ", strict=False)]:
      microseconds since the epoch, null when the text does not match *)
  str_to_datetime : string → option Z;
  (** [cast(pl.Int64, strict=False)] on a string *)
  str_to_int64 : string → option Z;
  (** [cast(pl.Float64, strict=False)] on a string *)
  str_to_float64 : string → option Q;
  (** [dt.strftime("%Y-%m")] on a non-null instant *)
  strftime_Ym : Z → string
}.

End pl.

(** ** Data model *)

(** A row of a participant status log file as [scan_csv] delivers it under
    [schema_overrides]: every field is a nullable string. *)
Record RawLog := {
  raw_timestamp : option string;
  raw_currentLocation : option string;
  raw_participantId : option string;
  raw_currentMode : option string;
  raw_hungerStatus : option string;
  raw_sleepStatus : option string;
  raw_apartmentId : option string;
  raw_availableBalance : option string;
  raw_jobId : option string;
  raw_financialStatus : option string;
  raw_dailyFoodBudget : option string;
  raw_weeklyExtraBudget : option string
}.

(** A row of the participant status logs after the type clean-up of the
    loader. *)
Record StatusLog := {
  timestamp : option Z;
  currentLocation : option string;
  participantId : option Z;
  currentMode : option string;
  hungerStatus : option string;
  sleepStatus : option string;
  apartmentId : option Z;
  availableBalance : option Q;
  jobId : option Z;
  financialStatus : option string;
  dailyFoodBudget : option Q;
  weeklyExtraBudget : option Q
}.

(** A frame whose columns are all read as text: its column names and
    its records, a null field being [None]. The frame is rectangular; a
    record that is shorter than the header reads as null beyond its
    end. *)
Record Csv := {
  header : list string;
  records : list (list (option string))
}.

(** [pl.DataFrame()]: no column and no row; what the loader substitutes
    for a missing attribute file. *)
Definition empty_frame : Csv := {| header := []; records := [] |}.

(** The participant status logs after the clean-up: the column names of
    the frame and its rows. A column of [StatusLog] that the frame does
    not have is null in every row. *)
Record LogFrame := {
  log_columns : list string;
  log_rows : list StatusLog
}.

(** A path is the list of its components. The file system maps the path
    of every existing file to what the CSV reader of polars makes of it:
    the frame it parses, which has at least one column, or the exception
    it raises (NoDataError on an empty file, ComputeError on a record
    that it cannot read). *)
Abbreviation Path := (list string).
Abbreviation File := (Py.Result Csv).
Abbreviation FileSystem := (gmap Path File).

(** [models/data_models.py]: the container of all raw frames. *)
Record RawData := {
  participant_status_logs : LogFrame;
  financial_journal : Csv;
  checkin_journal : Csv;
  travel_journal : Csv;
  social_network : Csv;
  participants : Csv;
  jobs : Csv;
  employers : Csv;
  apartments : Csv;
  buildings : Csv;
  restaurants : Csv;
  pubs : Csv;
  schools : Csv
}.

(** ** ingestion/data_loader.py *)

Module DataLoader.

(** The literal list of [is_in(["", "null", "None", None])]. *)
Definition sentinels : list (option string) :=
  [Some EmptyString; Some "null"; Some "None"; None].

(** [col.is_in(values)] on a String column. The list of the source names
    the null itself; whether polars answers true or null for a null
    cell, the cell ends null: on the [then] branch, or through the cast
    of a null. *)
Definition is_in (c : option string) (values : list (option string)) : bool :=
  bool_decide (c ∈ values).

(** The columns that the clean-up names. *)
Definition cleaned_columns : list string :=
  ["timestamp"; "participantId"; "availableBalance"; "dailyFoodBudget";
   "weeklyExtraBudget"; "apartmentId"; "jobId"].

(** A frame by the dtype of the columns that the clean-up names: String,
    as the scan delivers them under [schema_overrides], or Datetime,
    Int64 and Float64, as the clean-up leaves them. *)
Inductive Frame :=
| Strings (df : Csv)
| Typed (df : LogFrame).

(** Does [name] match the pattern [pre*suf]? *)
Definition fnmatch (pre suf name : string) : bool :=
  String.prefix pre name && String.prefix (String.rev suf) (String.rev name).

(** The field of a record under the column called [name]; null when the
    frame has no such column. The clean-up raises on a frame that lacks
    a column it names, so that only the five columns it does not name
    are read this way: such a column is then absent from the cleaned
    frame as well, see [log_columns]. *)
Definition field (h : list string) (rec : list (option string))
    (name : string) : option string :=
  '(i, _) ← list_find (λ c, c = name) h; mjoin (rec !! i).

(** The rows of a frame of String columns. *)
Definition raw_rows (df : Csv) : list RawLog :=
  (λ rec, let col := field (header df) rec in {|
     raw_timestamp := col "timestamp";
     raw_currentLocation := col "currentLocation";
     raw_participantId := col "participantId";
     raw_currentMode := col "currentMode";
     raw_hungerStatus := col "hungerStatus";
     raw_sleepStatus := col "sleepStatus";
     raw_apartmentId := col "apartmentId";
     raw_availableBalance := col "availableBalance";
     raw_jobId := col "jobId";
     raw_financialStatus := col "financialStatus";
     raw_dailyFoodBudget := col "dailyFoodBudget";
     raw_weeklyExtraBudget := col "weeklyExtraBudget"
   |}) <$> records df.

(** [.collect()] on the scanned files: every file is read, and the first
    one that the reader refuses raises. *)
Fixpoint collect (dfs : list File) : Py.Result (list Csv) :=
  match dfs with
  | [] => Py.Ok []
  | f :: dfs' => df ← f; rest ← collect dfs'; Py.Ok (df :: rest)
  end.

(** [pl.concat(dfs, how="vertical_relaxed")]: the frames are stacked in
    order; the relaxation is on the dtypes, and the frames must have the
    same column names in the same order. *)
Definition vertical_relaxed (dfs : list Csv) : Py.Result Csv :=
  match dfs with
  | [] => Py.Raise (Py.OtherError "ValueError: cannot concat empty list")
  | df :: _ =>
      if decide (Forall (λ d, header d = header df) dfs)
      then Py.Ok {| header := header df; records := dfs ≫= records |}
      else Py.Raise (Py.ComputeError "schema names differ")
  end.

Section DataLoader.
Context `{!pl.Casts}.
Variable fs : FileSystem.
Variable input_path : Path.

(** [__init__] *)
Definition datasets_path : Path := input_path ++ ["Datasets"].

(** [cast(pl.Int64, strict=False)] on a String column: the text goes
    through the numeric parser, a null stays null. *)
Definition cast_Int64 (c : option string) : option Z := c ≫= pl.str_to_int64.

(** [pl.when(col.is_in(["", "null", "None", None])).then(None)
       .otherwise(col.cast(pl.Int64, strict=False))] *)
Definition clean_id (c : option string) : option Z :=
  if is_in c sentinels then None else cast_Int64 c.

(** The expressions of the clean-up, row by row; the columns that it
    does not name are kept. *)
Definition clean_row (r : RawLog) : StatusLog := {|
  timestamp := raw_timestamp r ≫= pl.str_to_datetime;
  currentLocation := raw_currentLocation r;
  participantId := raw_participantId r ≫= pl.str_to_int64;
  currentMode := raw_currentMode r;
  hungerStatus := raw_hungerStatus r;
  sleepStatus := raw_sleepStatus r;
  apartmentId := clean_id (raw_apartmentId r);
  availableBalance := raw_availableBalance r ≫= pl.str_to_float64;
  jobId := clean_id (raw_jobId r);
  financialStatus := raw_financialStatus r;
  dailyFoodBudget := raw_dailyFoodBudget r ≫= pl.str_to_float64;
  weeklyExtraBudget := raw_weeklyExtraBudget r ≫= pl.str_to_float64
|}.

Definition clean_types (combined_df : list RawLog) : list StatusLog :=
  clean_row <$> combined_df.

(** [combined_df.with_columns([...])], the clean-up of lines 59 to 80.
    An expression that names a column which the frame does not have
    raises ColumnNotFoundError. The first expression goes through the
    [str] namespace, which polars has for String columns only: on a
    frame whose timestamp is already a Datetime it raises. *)
Definition with_columns (combined_df : Frame) : Py.Result LogFrame :=
  match combined_df with
  | Strings df =>
      match filter (λ c, c ∉ header df) cleaned_columns with
      | [] => Py.Ok {| log_columns := header df;
                       log_rows := clean_types (raw_rows df) |}
      | c :: _ => Py.Raise (Py.ColumnNotFoundError c)
      end
  | Typed _ =>
      Py.Raise (Py.SchemaError "invalid series dtype: expected String, got datetime")
  end.

(** [dir.glob(pre*suf)]: the files of [dir] whose name matches. *)
Definition glob (dir : Path) (pre suf : string) : list (Path * File) :=
  filter (λ pf, match reverse pf.1 with
                | name :: rdir =>
                    bool_decide (reverse rdir = dir) && fnmatch pre suf name
                | [] => false
                end = true)
         (map_to_list fs).

Definition load_participant_status_logs : Py.Result LogFrame :=
  let activity_logs_path := datasets_path ++ ["Activity Logs"] in
  let log_files := glob activity_logs_path "ParticipantStatusLogs" ".csv" in
  match log_files with
  | [] => Py.Raise (Py.FileNotFoundError "No participant status logs found")
  | _ =>
      let dfs := snd <$> log_files in
      combined_df ← collect dfs ≫= vertical_relaxed;
      with_columns (Strings combined_df)
  end.

(** [pl.read_csv(file_path)]: raises when the file does not exist or
    when the reader refuses it. *)
Definition read_csv (file_path : Path) : Py.Result Csv :=
  match fs !! file_path with
  | Some f => f
  | None => Py.Raise (Py.FileNotFoundError "No such file or directory")
  end.

Definition load_financial_journal : Py.Result Csv :=
  read_csv (datasets_path ++ ["Journals"; "FinancialJournal.csv"]).

Definition load_checkin_journal : Py.Result Csv :=
  read_csv (datasets_path ++ ["Journals"; "CheckinJournal.csv"]).

Definition load_travel_journal : Py.Result Csv :=
  read_csv (datasets_path ++ ["Journals"; "TravelJournal.csv"]).

Definition load_social_network : Py.Result Csv :=
  read_csv (datasets_path ++ ["Journals"; "SocialNetwork.csv"]).

Definition attribute_files : list (string * string) :=
  [("participants", "Participants.csv"); ("jobs", "Jobs.csv");
   ("employers", "Employers.csv"); ("apartments", "Apartments.csv");
   ("buildings", "Buildings.csv"); ("restaurants", "Restaurants.csv");
   ("pubs", "Pubs.csv"); ("schools", "Schools.csv")].

(** One turn of the loop of [load_attributes_data]: a file that exists
    is read, one that does not is logged and replaced by an empty
    frame. *)
Definition load_attribute (attributes_path : Path)
    (attributes : gmap string Csv) (nf : string * string)
  : Py.Result (gmap string Csv) :=
  let file_path := attributes_path ++ [nf.2] in
  match fs !! file_path with
  | Some _ => df ← read_csv file_path; Py.Ok (<[nf.1 := df]> attributes)
  | None => Py.Ok (<[nf.1 := empty_frame]> attributes)
  end.

Definition load_attributes_data : Py.Result (gmap string Csv) :=
  let attributes_path := datasets_path ++ ["Attributes"] in
  foldl (λ acc nf, attributes ← acc; load_attribute attributes_path attributes nf)
        (Py.Ok ∅) attribute_files.

(** [attributes[name]]; every name read below was stored by the loop. *)
Definition getitem (attributes : gmap string Csv) (name : string) : Csv :=
  default empty_frame (attributes !! name).

Definition load_all_data : Py.Result RawData :=
  participant_status_logs ← load_participant_status_logs;
  financial_journal ← load_financial_journal;
  checkin_journal ← load_checkin_journal;
  travel_journal ← load_travel_journal;
  social_network ← load_social_network;
  attributes ← load_attributes_data;
  mret {|
    participant_status_logs := participant_status_logs;
    financial_journal := financial_journal;
    checkin_journal := checkin_journal;
    travel_journal := travel_journal;
    social_network := social_network;
    participants := getitem attributes "participants";
    jobs := getitem attributes "jobs";
    employers := getitem attributes "employers";
    apartments := getitem attributes "apartments";
    buildings := getitem attributes "buildings";
    restaurants := getitem attributes "restaurants";
    pubs := getitem attributes "pubs";
    schools := getitem attributes "schools"
  |}.

End DataLoader.
End DataLoader.

(** ** processing/business_processor.py, processing/financial_processor.py

    Of these two processors the model keeps what decides whether
    [process] returns or raises on the frames of the loader: the columns
    that each method names, frame by frame and in the order of the
    source. The values that the methods compute are not modelled. *)

Module BusinessProcessor.

(** [_calculate_business_trends]: the two [select]s, the join of the
    check-ins with the venues, the month and the aggregation. *)
Definition _calculate_business_trends (raw_data : RawData) : Py.Result unit :=
  restaurant_venues ←
    pl.select (header (restaurants raw_data))
      ["restaurantId"; "foodCost"; "maxOccupancy "; "location"; "buildingId"]
      ["venueId"; "venueType"; "cost"; "maxOccupancy"; "location"; "buildingId"];
  pub_venues ←
    pl.select (header (pubs raw_data))
      ["pubId"; "hourlyCost"; "maxOccupancy"; "location"; "buildingId"]
      ["venueId"; "venueType"; "cost"; "maxOccupancy"; "location"; "buildingId"];
  venues ← pl.vstack restaurant_venues pub_venues;
  checkin_data ←
    pl.join (header (checkin_journal raw_data)) venues ["venueId"; "venueType"];
  pl.col checkin_data ["timestamp"];;
  pl.col ("month" :: "date" :: checkin_data)
    ["month"; "venueId"; "venueType"; "participantId"; "cost"; "maxOccupancy"].

Definition _calculate_venue_performance (raw_data : RawData) : Py.Result unit :=
  pl.col (header (checkin_journal raw_data))
    ["venueId"; "venueType"; "participantId"; "timestamp"].

Definition _analyze_customer_patterns (raw_data : RawData) : Py.Result unit :=
  pl.col (header (checkin_journal raw_data))
    ["timestamp"; "venueId"; "venueType"; "participantId"].

Definition _calculate_revenue_indicators (raw_data : RawData) : Py.Result unit :=
  let financial := header (financial_journal raw_data) in
  let checkins := header (checkin_journal raw_data) in
  pl.col financial ["category"; "timestamp"];;
  pl.col ("date" :: financial) ["participantId"; "date"; "category"; "amount"];;
  pl.col checkins ["timestamp"];;
  joined ←
    pl.join ("date" :: checkins) ["participantId"; "date"; "category"; "daily_amount"]
      ["participantId"; "date"];
  pl.col joined ["venueId"; "venueType"; "daily_amount"].

Definition process (raw_data : RawData) : Py.Result unit :=
  _calculate_business_trends raw_data;;
  _calculate_venue_performance raw_data;;
  _analyze_customer_patterns raw_data;;
  _calculate_revenue_indicators raw_data.

End BusinessProcessor.

Module FinancialProcessor.

(** The columns of the trajectories frame: those of the monthly
    snapshots, of the participants joined to them, and the two derived
    ones. *)
Definition _calculate_participant_trajectories (raw_data : RawData)
  : Py.Result (list string) :=
  let status_logs := log_columns (participant_status_logs raw_data) in
  pl.col status_logs ["timestamp"];;
  pl.col ("month" :: "date" :: status_logs)
    ["participantId"; "month"; "availableBalance"; "dailyFoodBudget";
     "weeklyExtraBudget"; "financialStatus"];;
  trajectories ←
    pl.join ["participantId"; "month"; "avg_balance"; "min_balance";
             "max_balance"; "avg_food_budget"; "avg_extra_budget";
             "primary_financial_status"]
      (header (participants raw_data)) ["participantId"];
  pl.col trajectories ["avg_balance"; "participantId"; "avg_food_budget";
                       "avg_extra_budget"];;
  Py.Ok ("balance_change_pct" :: "total_budget" :: trajectories).

Definition _create_financial_groups (raw_data : RawData) : Py.Result unit :=
  trajectories ← _calculate_participant_trajectories raw_data;
  pl.col trajectories
    ["month"; "age"; "educationLevel"; "householdSize"; "haveKids";
     "avg_balance"; "total_budget"; "primary_financial_status"].

Definition _analyze_wage_patterns (raw_data : RawData) : Py.Result unit :=
  let status_logs := log_columns (participant_status_logs raw_data) in
  pl.col status_logs ["jobId"];;
  employment_data ← pl.join status_logs (header (jobs raw_data)) ["jobId"];
  employment_data ←
    pl.join employment_data (header (participants raw_data)) ["participantId"];
  pl.col employment_data ["timestamp"];;
  pl.col ("month" :: employment_data)
    ["month"; "educationLevel"; "age"; "hourlyRate"; "participantId"].

Definition _calculate_cost_living_trends (raw_data : RawData) : Py.Result unit :=
  let financial_journal := header (financial_journal raw_data) in
  let status_logs := log_columns (participant_status_logs raw_data) in
  pl.col financial_journal ["amount"; "timestamp"];;
  pl.col ("month" :: "expense_amount" :: financial_journal)
    ["month"; "category"; "expense_amount"; "participantId"];;
  pl.col status_logs ["apartmentId"];;
  housing ← pl.join status_logs (header (apartments raw_data)) ["apartmentId"];
  pl.col housing ["timestamp"];;
  pl.col ("month" :: housing) ["month"; "rentalCost"; "participantId"].

Definition process (raw_data : RawData) : Py.Result unit :=
  _calculate_participant_trajectories raw_data;;
  _create_financial_groups raw_data;;
  _analyze_wage_patterns raw_data;;
  _calculate_cost_living_trends raw_data.

End FinancialProcessor.

(** ** processing/employment_processor.py *)

(** A row of the [jobs] frame restricted to the two columns that the
    processor selects. *)
Record Job := { job_jobId : Z; job_employerId : Z }.

(** The per-batch tenure frame of the turnover analysis. *)
Module Tenure.
Record row := {
  participantId : option Z;
  jobId : option Z;
  employerId : option Z;
  start_date : option Z;
  end_date : option Z;
  tenure_days : option Z;
  start_month : option string
}.
End Tenure.

(** The final turnover frame. *)
Module Turnover.
Record row := {
  month : option string;
  employerId : option Z;
  new_hires : Z;
  avg_tenure_days : option Q;
  turnover_rate : Q
}.
End Turnover.

(** The per-batch stability frame. *)
Module BatchStability.
Record row := {
  participantId : option Z;
  month : option string;
  employment_rate : option Q;
  job_changes : Z;
  avg_balance : option Q
}.
End BatchStability.

(** The final stability frame. *)
Module Stability.
Record row := {
  participantId : option Z;
  month : option string;
  employment_rate : option Q;
  job_changes : Z;
  avg_balance : option Q;
  stability_score : option Q
}.
End Stability.

(** The job transition frame. *)
Module JobFlow.
Record row := {
  month : option string;
  previous_employer : option Z;
  employerId : option Z;
  transition_count : Z;
  unique_participants : Z
}.
End JobFlow.

(** A row of the employment history: a status log row with the employer
    of its job, the employer of the previous row of the participant and
    the month. *)
Module History.
Record row := {
  log : StatusLog;
  employerId : option Z;
  previous_employer : option Z;
  month : option string
}.
End History.

Module EmploymentProcessor.

(** The constant [batch_size = 5_000_000] of both batched methods. *)
Definition batch_size : Z := 5000000.

(** Microseconds in a day, the divisor of [dt.total_days()]. *)
Definition us_per_day : Z := 86400000000.

(** [jobs.select(["jobId", "employerId"]).to_pandas()
      .set_index('jobId')['employerId'].to_dict()]: a later row
    overwrites an earlier one with the same jobId. *)
Definition jobs_lookup (jobs : list Job) : gmap Z Z :=
  foldl (λ d j, <[job_jobId j := job_employerId j]> d) ∅ jobs.

(** The batch loop header of both methods: for each [batch_start] of
    [range(0, total_records, batch_size)], the pair of [batch_start] and
    [batch_end = min(batch_start + batch_size, total_records)]. *)
Definition batches (total_records batch_size : Z) : list (Z * Z) :=
  (λ batch_start, (batch_start, Z.min (batch_start + batch_size) total_records))
    <$> Py.range 0 total_records batch_size.

(** [status_logs.slice(batch_start, batch_end - batch_start)] for every
    batch, in loop order. *)
Definition batch_logs {A} (status_logs : list A) (batch_size : Z)
  : list (list A) :=
  (λ b, pl.slice status_logs b.1 (b.2 - b.1))
    <$> batches (Py.len status_logs) batch_size.

Section EmploymentProcessor.
Context `{!pl.Casts}.

(** [pl.col("timestamp").dt.strftime("%Y-%m")] *)
Definition month_of (ts : option Z) : option string := pl.strftime_Ym <$> ts.

(** *** _calculate_turnover_rates *)

(** One group of [group_by(["participantId", "jobId", "employerId"])]
    with its aggregates and the two derived columns. *)
Definition tenure_of (k : option Z * option Z * option Z)
    (g : list (option Z * option Z * option Z * option Z)) : Tenure.row :=
  let start_date := pl.min ((λ r, r.1.1.2) <$> g) in
  let end_date := pl.max ((λ r, r.1.1.2) <$> g) in
  {| Tenure.participantId := k.1.1;
     Tenure.jobId := k.1.2;
     Tenure.employerId := k.2;
     Tenure.start_date := start_date;
     Tenure.end_date := end_date;
     Tenure.tenure_days :=
       e ← end_date; s ← start_date; Some ((e - s) `quot` us_per_day);
     Tenure.start_month := month_of start_date |}.

(** The body of the turnover loop on one batch: [None] when the loop
    [continue]s or appends nothing, the appended frame otherwise. A
    [filter] keeps the rows on which its predicate is true, so a null
    comparison (a null [tenure_days]) drops the row. *)
Definition turnover_batch (lookup : gmap Z Z) (batch_logs : list StatusLog)
  : option (list Tenure.row) :=
  let employed_records :=
    pl.unique ((λ r, (participantId r, timestamp r, jobId r))
                 <$> filter (λ r, is_Some (jobId r)) batch_logs) in
  if decide (Py.len employed_records = 0) then None else
  let employment_periods :=
    filter (λ r, is_Some r.2)
           ((λ r, (r, r.2 ≫= (lookup !!.))) <$> employed_records) in
  if decide (Py.len employment_periods = 0) then None else
  let batch_tenure :=
    filter (λ t, (d ← Tenure.tenure_days t; Some (bool_decide (d >= 0)))
                 = Some true)
           ((λ kg, tenure_of kg.1 kg.2)
              <$> pl.group_by (λ r, (r.1.1.1, r.1.2, r.2)) employment_periods) in
  if decide (Py.len batch_tenure > 0) then Some batch_tenure else None.

Definition all_turnover_data (batch_size : Z) (status_logs : list StatusLog)
    (jobs : list Job) : list (list Tenure.row) :=
  omap (turnover_batch (jobs_lookup jobs)) (batch_logs status_logs batch_size).

(** One group of the final [group_by(["start_month", "employerId"])]. *)
Definition turnover_of (k : option string * option Z) (g : list Tenure.row)
  : Turnover.row :=
  let new_hires := Py.len g in
  let short_tenure_count :=
    pl.sum ((λ t, d ← Tenure.tenure_days t; Some (pl.of_bool (bool_decide (d <= 30))))
              <$> g) in
  {| Turnover.month := k.1;
     Turnover.employerId := k.2;
     Turnover.new_hires := new_hires;
     Turnover.avg_tenure_days :=
       pl.mean ((λ t, inject_Z <$> Tenure.tenure_days t) <$> g);
     Turnover.turnover_rate :=
       Qred (inject_Z short_tenure_count / inject_Z new_hires) |}.

Definition calculate_turnover_rates_batched (batch_size : Z)
    (status_logs : list StatusLog) (jobs : list Job)
  : pl.DataFrame Turnover.row :=
  let columns :=
    ["month"; "employerId"; "new_hires"; "avg_tenure_days"; "turnover_rate"] in
  match all_turnover_data batch_size status_logs jobs with
  | [] => {| pl.columns := columns; pl.rows := [] |}
  | all_turnover_data =>
      let combined_tenure := concat all_turnover_data in
      {| pl.columns := columns;
         pl.rows :=
           (λ kg, turnover_of kg.1 kg.2)
             <$> pl.group_by (λ t, (Tenure.start_month t, Tenure.employerId t))
                             combined_tenure |}
  end.

Definition _calculate_turnover_rates :=
  calculate_turnover_rates_batched batch_size.

(** *** _analyze_employment_stability *)

Definition is_employed (r : StatusLog) : bool := bool_decide (is_Some (jobId r)).

(** The grouping key of both phases. *)
Definition stability_key (r : StatusLog) : option Z * option string :=
  (participantId r, month_of (timestamp r)).

(** One group of the per-batch [group_by(["participantId", "month"])]. *)
Definition batch_stability_of (k : option Z * option string)
    (g : list StatusLog) : BatchStability.row :=
  {| BatchStability.participantId := k.1;
     BatchStability.month := k.2;
     BatchStability.employment_rate :=
       pl.mean ((λ r, Some (inject_Z (pl.of_bool (is_employed r)))) <$> g);
     BatchStability.job_changes := pl.n_unique (jobId <$> g);
     BatchStability.avg_balance := pl.mean (availableBalance <$> g) |}.

Definition batch_stability (batch_logs : list StatusLog)
  : list BatchStability.row :=
  filter (λ s, is_Some (BatchStability.employment_rate s))
         ((λ kg, batch_stability_of kg.1 kg.2)
            <$> pl.group_by stability_key batch_logs).

(** The frames appended by the stability loop: a batch whose frame is
    empty appends nothing. *)
Definition all_stability_data (batch_size : Z) (status_logs : list StatusLog)
  : list (list BatchStability.row) :=
  omap (λ b, let s := batch_stability b in
             if decide (Py.len s > 0) then Some s else None)
       (batch_logs status_logs batch_size).

Definition batch_key (s : BatchStability.row) : option Z * option string :=
  (BatchStability.participantId s, BatchStability.month s).

(** One group of the re-aggregation, with the [stability_score] column
    added after it. *)
Definition stability_of (k : option Z * option string)
    (g : list BatchStability.row) : Stability.row :=
  let employment_rate := pl.mean (BatchStability.employment_rate <$> g) in
  {| Stability.participantId := k.1;
     Stability.month := k.2;
     Stability.employment_rate := employment_rate;
     Stability.job_changes :=
       pl.sum ((λ s, Some (BatchStability.job_changes s)) <$> g);
     Stability.avg_balance := pl.mean (BatchStability.avg_balance <$> g);
     Stability.stability_score := employment_rate |}.

Definition analyze_employment_stability_batched (batch_size : Z)
    (status_logs : list StatusLog) : pl.DataFrame Stability.row :=
  match all_stability_data batch_size status_logs with
  | [] =>
      {| pl.columns := ["participantId"; "month"; "employment_rate";
                        "job_changes"; "avg_balance"];
         pl.rows := [] |}
  | all_stability_data =>
      let combined_stability := concat all_stability_data in
      {| pl.columns := ["participantId"; "month"; "employment_rate";
                        "job_changes"; "avg_balance"; "stability_score"];
         pl.rows :=
           filter (λ s, is_Some (Stability.employment_rate s))
                  ((λ kg, stability_of kg.1 kg.2)
                     <$> pl.group_by batch_key combined_stability) |}
  end.

Definition _analyze_employment_stability :=
  analyze_employment_stability_batched batch_size.

(** *** _calculate_job_flows *)

(** [.join(jobs, on="jobId", how="left")] on one row, reduced to the
    employerId column: one row per jobs row with the jobId, or one row
    with a null employerId when there is none. *)
Definition join_jobs (jobs : list Job) (r : StatusLog)
  : list (StatusLog * option Z) :=
  match filter (λ j, Some (job_jobId j) = jobId r) jobs with
  | [] => [(r, None)]
  | js => (λ j, (r, Some (job_employerId j))) <$> js
  end.

(** The order of [.sort(["participantId", "timestamp"])]; rows equal on
    both columns keep their order here (polars leaves it open). *)
Definition history_le (x y : StatusLog * option Z) : Prop :=
  match pl.compare (participantId x.1) (participantId y.1) with
  | Lt => True
  | Gt => False
  | Eq => pl.compare (timestamp x.1) (timestamp y.1) ≠ Gt
  end.

Global Instance history_le_dec x y : Decision (history_le x y).
Proof.
  unfold history_le. destruct (pl.compare _ _); apply _.
Defined.

(** [pl.col("employerId").shift(1).over("participantId")] along the
    frame: the employerId of the closest earlier row of the same
    participant, null for the first row of a participant. [seen] holds
    the rows before [l]. *)
Fixpoint shift_over (seen l : list (StatusLog * option Z))
  : list History.row :=
  match l with
  | [] => []
  | x :: l' =>
      {| History.log := x.1;
         History.employerId := x.2;
         History.previous_employer :=
           last (filter (λ y, participantId y.1 = participantId x.1) seen)
             ≫= snd;
         History.month := month_of (timestamp x.1) |}
        :: shift_over (seen ++ [x]) l'
  end.

Definition employment_history (status_logs : list StatusLog)
    (jobs : list Job) : list History.row :=
  shift_over []
    (merge_sort history_le
       (filter (λ r, is_Some (jobId r)) status_logs ≫= join_jobs jobs)).

(** [(employerId != previous_employer) & previous_employer.is_not_null()] *)
Definition is_transition (h : History.row) : option bool :=
  pl.and_ (e ← History.employerId h; p ← History.previous_employer h;
           Some (bool_decide (e ≠ p)))
          (Some (bool_decide (is_Some (History.previous_employer h)))).

Definition flow_key (h : History.row)
  : option string * option Z * option Z :=
  (History.month h, History.previous_employer h, History.employerId h).

Definition _calculate_job_flows (status_logs : list StatusLog)
    (jobs : list Job) : list JobFlow.row :=
  (λ kg, {| JobFlow.month := kg.1.1.1;
            JobFlow.previous_employer := kg.1.1.2;
            JobFlow.employerId := kg.1.2;
            JobFlow.transition_count := Py.len kg.2;
            JobFlow.unique_participants :=
              pl.n_unique ((λ h, participantId (History.log h)) <$> kg.2) |})
    <$> pl.group_by flow_key
          (filter (λ h, is_transition h = Some true)
                  (employment_history status_logs jobs)).

End EmploymentProcessor.
End EmploymentProcessor.

(** ** main.py and the store it writes to *)

Module Main.

(** The analytical store: its schemas and the tables created in it. *)
Record Store := { schemas : gset string; tables : gset string }.

(** How the process ends: [main] returns, or calls [sys.exit(status)]. *)
Inductive Exit :=
| Returned
| SysExit (status : Z).

(** What [database/duckdb_manager.py] asks of the database, one call at
    a time. *)
Inductive Statement :=
| Connect
| CreateSchema (name : string)
| Register (view : string)
| CreateTable (name : string)
| CreateIndex (name table : string).

(** The store after a statement that completes: [CREATE SCHEMA IF NOT
    EXISTS] and [CREATE OR REPLACE TABLE] leave the name in place, the
    other statements add no schema and no table. *)
Definition effect (s : Statement) (db : Store) : Store :=
  match s with
  | CreateSchema name => {| schemas := schemas db ∪ {[name]}; tables := tables db |}
  | CreateTable name => {| schemas := schemas db; tables := tables db ∪ {[name]} |}
  | Connect | Register _ | CreateIndex _ _ => db
  end.

(** The methods of the manager that [main] calls, and their statements
    in order. *)
Inductive Method :=
| Init
| SaveBusinessData
| SaveFinancialData
| SaveEmploymentData
| GenerateSummaries.

Definition statements (m : Method) : list Statement :=
  match m with
  | Init =>
      [Connect; CreateSchema "business"; CreateSchema "financial";
       CreateSchema "employment"; CreateSchema "summaries"]
  | SaveBusinessData =>
      [Register "business_trends_temp"; Register "venue_performance_temp";
       Register "customer_patterns_temp"; Register "revenue_indicators_temp";
       CreateTable "business.trends"; CreateTable "business.venue_performance";
       CreateTable "business.customer_patterns";
       CreateTable "business.revenue_indicators";
       CreateIndex "idx_business_trends_month" "business.trends";
       CreateIndex "idx_business_trends_venue" "business.trends"]
  | SaveFinancialData =>
      [Register "participant_trajectories_temp"; Register "financial_groups_temp";
       Register "wage_analysis_temp"; Register "cost_living_trends_temp";
       CreateTable "financial.participant_trajectories";
       CreateTable "financial.groups"; CreateTable "financial.wage_analysis";
       CreateTable "financial.cost_living_trends";
       CreateIndex "idx_financial_trajectories_participant"
                   "financial.participant_trajectories";
       CreateIndex "idx_financial_trajectories_month"
                   "financial.participant_trajectories"]
  | SaveEmploymentData =>
      [Register "job_flows_temp"; Register "employer_health_temp";
       Register "turnover_rates_temp"; Register "employment_stability_temp";
       CreateTable "employment.job_flows"; CreateTable "employment.employer_health";
       CreateTable "employment.turnover_rates"; CreateTable "employment.stability";
       CreateIndex "idx_employment_flows_month" "employment.job_flows";
       CreateIndex "idx_employment_health_employer" "employment.employer_health"]
  | GenerateSummaries =>
      [CreateTable "summaries.business_summary";
       CreateTable "summaries.financial_summary";
       CreateTable "summaries.employment_summary";
       CreateTable "summaries.monthly_trends"]
  end.

(** The store that a method leaves when all its statements complete,
    and the tables that it creates. *)
Definition completed (m : Method) (db : Store) : Store :=
  foldl (λ db s, effect s db) db (statements m).

Definition created (stmts : list Statement) : list string :=
  omap (λ s, match s with CreateTable name => Some name | _ => None end) stmts.

Definition DuckDBManager : Store → Store := completed Init.
Definition save_business_data : Store → Store := completed SaveBusinessData.
Definition save_financial_data : Store → Store := completed SaveFinancialData.
Definition save_employment_data : Store → Store := completed SaveEmploymentData.
Definition generate_summaries : Store → Store := completed GenerateSummaries.

(** A step of the run: the store it leaves, and whether it completed or
    raised. *)
Definition Step := Store → Store * Py.Result unit.

(** [a] then [b]; an exception of [a] skips [b]. *)
Definition and_then (a b : Step) : Step := λ db,
  match a db with
  | (db', Py.Ok _) => b db'
  | (db', Py.Raise e) => (db', Py.Raise e)
  end.

(** A step that does not touch the store. *)
Definition compute (m : Py.Result unit) : Step := λ db, (db, m).

Section Main.
Context `{!pl.Casts}.

(** The three processors, each of which returns its metrics or raises;
    their frames are not looked at by the store model. *)
Variable BusinessProcessor_process : RawData → Py.Result unit.
Variable FinancialProcessor_process : RawData → Py.Result unit.
Variable EmploymentProcessor_process : RawData → Py.Result unit.

(** Whether a statement raises is decided by the database (a file that
    is locked or cannot be written, a name that the statement does not
    find): [raises s db] is the exception, if any, that the statement
    [s] raises on the store [db]. *)
Variable raises : Statement → Store → option Py.Exception.

Variable fs : FileSystem.
Variable input_path : Path.

(** The statements of a method, one after the other; each statement
    that completes is committed, and the first that raises ends the
    method. *)
Fixpoint execute (stmts : list Statement) (db : Store) : Store * Py.Result unit :=
  match stmts with
  | [] => (db, Py.Ok ())
  | s :: stmts' =>
      match raises s db with
      | Some e => (db, Py.Raise e)
      | None => execute stmts' (effect s db)
      end
  end.

Definition call (m : Method) : Step := execute (statements m).

(** The body of the [try] block: the store as the block leaves it, and
    whether the block completed or raised. *)
Definition try_block : Step :=
  and_then (call Init) (λ db,
    match DataLoader.load_all_data fs input_path with
    | Py.Raise e => (db, Py.Raise e)
    | Py.Ok raw_data =>
        and_then (compute (BusinessProcessor_process raw_data))
       (and_then (call SaveBusinessData)
       (and_then (compute (FinancialProcessor_process raw_data))
       (and_then (call SaveFinancialData)
       (and_then (compute (EmploymentProcessor_process raw_data))
       (and_then (call SaveEmploymentData)
                 (call GenerateSummaries)))))) db
    end).

(** [main], from the [try] block on: [except Exception] logs the error
    and calls [sys.exit(1)]. The settings read before the block give the
    input path and the database file, which are parameters here. *)
Definition main (db0 : Store) : Store * Exit :=
  match try_block db0 with
  | (db, Py.Ok _) => (db, Returned)
  | (db, Py.Raise e) => (db, SysExit 1)
  end.

End Main.
End Main.

(** ** A concrete reading of the library functions

    The theorems below hold for every [pl.Casts]; this instance is the
    one the examples run on. It reads the decimal notation of integers
    and of fractions without exponent, and the proleptic Gregorian
    calendar for instants. It is narrower than polars, which also reads
    exponents, [inf] and [NaN] as floats and accepts date fields that
    are not padded; the examples use none of these. *)

Module PolarsModel.

Definition digit (a : ascii) : option Z :=
  let n := Z.of_N (Ascii.N_of_ascii a) in
  if decide (48 <= n <= 57) then Some (n - 48) else None.

Fixpoint digits (acc : Z) (s : string) : option Z :=
  match s with
  | EmptyString => Some acc
  | String a s' => d ← digit a; digits (10 * acc + d) s'
  end.

(** One or more decimal digits. *)
Definition natural (s : string) : option Z :=
  match s with
  | EmptyString => None
  | _ => digits 0 s
  end.

Definition signed {A} (neg : A → A) (body : string → option A) (s : string)
  : option A :=
  match s with
  | String "-" s' => neg <$> body s'
  | String "+" s' => body s'
  | _ => body s
  end.

Definition str_to_int64 (s : string) : option Z :=
  z ← signed Z.opp natural s;
  if decide (- 2 ^ 63 <= z < 2 ^ 63) then Some z else None.

Fixpoint split_dot (s : string) : string * option string :=
  match s with
  | EmptyString => (EmptyString, None)
  | String "." s' => (EmptyString, Some s')
  | String a s' => let p := split_dot s' in (String a p.1, p.2)
  end.

Definition decimal (s : string) : option Q :=
  match split_dot s with
  | (i, None) => inject_Z <$> natural i
  | (i, Some f) =>
      n ← natural (i +:+ f);
      Some (Qred (inject_Z n / inject_Z (10 ^ Z.of_nat (String.length f))))
  end.

Definition str_to_float64 : string → option Q := signed Qopp decimal.

Definition days_from_civil (y m d : Z) : Z :=
  let y := if decide (m <= 2) then y - 1 else y in
  let era := y `div` 400 in
  let yoe := y - era * 400 in
  let doy := (153 * (if decide (m > 2) then m - 3 else m + 9) + 2) `div` 5 + d - 1 in
  let doe := yoe * 365 + yoe `div` 4 - yoe `div` 100 + doy in
  era * 146097 + doe - 719468.

(** The year and the month of the day numbered [z] from the epoch. *)
Definition civil_from_days (z : Z) : Z * Z :=
  let z := z + 719468 in
  let era := z `div` 146097 in
  let doe := z - era * 146097 in
  let yoe := (doe - doe `div` 1460 + doe `div` 36524 - doe `div` 146096) `div` 365 in
  let doy := doe - (365 * yoe + yoe `div` 4 - yoe `div` 100) in
  let mp := (5 * doy + 2) `div` 153 in
  let m := if decide (mp < 10) then mp + 3 else mp - 9 in
  let y := yoe + era * 400 in
  (if decide (m <= 2) then y + 1 else y, m).

Definition is_leap (y : Z) : bool :=
  bool_decide (y `mod` 4 = 0 ∧ (y `mod` 100 ≠ 0 ∨ y `mod` 400 = 0)).

Definition days_in_month (y m : Z) : Z :=
  if decide (m = 2) then (if is_leap y then 29 else 28)
  else if decide (m = 4 ∨ m = 6 ∨ m = 9 ∨ m = 11) then 30 else 31.

Definition substring_nat (i n : nat) (s : string) : option Z :=
  natural (String.substring i n s).

(** The exact format [%Y-%m-%dT%H:%M:%SZ], to microseconds. *)
Definition str_to_datetime (s : string) : option Z :=
  if decide (String.length s = 20%nat
             ∧ String.substring 4 1 s = "-" ∧ String.substring 7 1 s = "-"
             ∧ String.substring 10 1 s = "T" ∧ String.substring 13 1 s = ":"
             ∧ String.substring 16 1 s = ":" ∧ String.substring 19 1 s = "Z")
  then
    y ← substring_nat 0 4 s; m ← substring_nat 5 2 s; d ← substring_nat 8 2 s;
    hh ← substring_nat 11 2 s; mm ← substring_nat 14 2 s; ss ← substring_nat 17 2 s;
    if decide (1 <= m <= 12 ∧ 1 <= d <= days_in_month y m
               ∧ hh < 24 ∧ mm < 60 ∧ ss < 60)
    then Some ((((days_from_civil y m d * 24 + hh) * 60 + mm) * 60 + ss) * 1000000)
    else None
  else None.

Definition pad (width : nat) (z : Z) : string :=
  let s := pretty z in
  String.app (string_of_list_ascii (replicate (width - String.length s) "0"%char)) s.

Definition strftime_Ym (us : Z) : string :=
  let ym := civil_from_days (us `div` 86400000000) in
  pad 4 ym.1 +:+ "-" +:+ pad 2 ym.2.

Definition casts : pl.Casts := {|
  pl.str_to_datetime := str_to_datetime;
  pl.str_to_int64 := str_to_int64;
  pl.str_to_float64 := str_to_float64;
  pl.strftime_Ym := strftime_Ym
|}.

End PolarsModel.

(** ** The reference computations named by the specification

    These definitions follow the specification's words, not the source:
    the tables of a single pass over the whole data without a batch loop,
    and the per-group quantities over all the rows of a group. *)

Module SinglePass.
Section SinglePass.
Context `{!pl.Casts}.

(** The rows of the whole dataset that belong to a (participantId, month)
    group. *)
Definition group_rows (k : option Z * option string)
    (status_logs : list StatusLog) : list StatusLog :=
  filter (λ r, EmploymentProcessor.stability_key r = k) status_logs.

(** The mean computed from the total sum and the total count of the
    underlying rows. *)
Definition employment_rate (k : option Z * option string)
    (status_logs : list StatusLog) : option Q :=
  pl.mean ((λ r, Some (inject_Z (pl.of_bool (EmploymentProcessor.is_employed r))))
             <$> group_rows k status_logs).

Definition avg_balance (k : option Z * option string)
    (status_logs : list StatusLog) : option Q :=
  pl.mean (availableBalance <$> group_rows k status_logs).

(** The number of distinct job identifiers observed in the group. *)
Definition distinct_jobs (k : option Z * option string)
    (status_logs : list StatusLog) : Z :=
  Py.len (remove_dups (pl.drop_nulls (jobId <$> group_rows k status_logs))).

(** The stability table of one pass: the aggregation of the whole data
    by (participantId, month), with the stability score. *)
Definition stability (status_logs : list StatusLog) : list Stability.row :=
  (λ kg, let e := employment_rate kg.1 status_logs in
         {| Stability.participantId := kg.1.1;
            Stability.month := kg.1.2;
            Stability.employment_rate := e;
            Stability.job_changes :=
              pl.n_unique (jobId <$> group_rows kg.1 status_logs);
            Stability.avg_balance := avg_balance kg.1 status_logs;
            Stability.stability_score := e |})
    <$> pl.group_by EmploymentProcessor.stability_key status_logs.

(** The turnover table of one pass: the tenure records of the whole
    data, regrouped by (start month, employer). *)
Definition turnover (status_logs : list StatusLog) (jobs : list Job)
  : list Turnover.row :=
  let tenure :=
    default [] (EmploymentProcessor.turnover_batch
                  (EmploymentProcessor.jobs_lookup jobs) status_logs) in
  (λ kg, EmploymentProcessor.turnover_of kg.1 kg.2)
    <$> pl.group_by (λ t, (Tenure.start_month t, Tenure.employerId t)) tenure.

End SinglePass.
End SinglePass.

(** ** Predicates of the statements *)

Section Statements.
Context `{!pl.Casts}.

(** The per-batch aggregates of one (participantId, month) key: one for
    every batch in which the key occurs, computed over the rows of that
    batch that have the key. *)
Definition group_partials (k : option Z * option string) (batch_size : Z)
    (status_logs : list StatusLog) : list BatchStability.row :=
  omap (λ b, match filter (λ r, EmploymentProcessor.stability_key r = k) b with
             | [] => None
             | g => Some (EmploymentProcessor.batch_stability_of k g)
             end)
       (EmploymentProcessor.batch_logs status_logs batch_size).

(** The key of a row of the final stability frame. *)
Definition stability_row_key (row : Stability.row) : option Z * option string :=
  (Stability.participantId row, Stability.month row).

(** A per-batch stability row with the [stability_score] column. *)
Definition with_stability_score (s : BatchStability.row) : Stability.row :=
  {| Stability.participantId := BatchStability.participantId s;
     Stability.month := BatchStability.month s;
     Stability.employment_rate := BatchStability.employment_rate s;
     Stability.job_changes := BatchStability.job_changes s;
     Stability.avg_balance := BatchStability.avg_balance s;
     Stability.stability_score := BatchStability.employment_rate s |}.

(** The grouping keys of the turnover analysis: of a per-batch tenure
    record and of a row of the final frame. *)
Definition tenure_key (t : Tenure.row) : option Z * option Z * option Z :=
  (Tenure.participantId t, Tenure.jobId t, Tenure.employerId t).

Definition turnover_row_key (row : Turnover.row) : option string * option Z :=
  (Turnover.month row, Turnover.employerId row).

(** The rows of a frame with the participant [p] and an absent
    timestamp, and the per-batch aggregates computed over them. *)
Definition absent_rows (p : option Z) (b : list StatusLog) : list StatusLog :=
  filter (λ r, participantId r = p ∧ timestamp r = None) b.

Definition absent_partials (p : option Z) (batch_size : Z)
    (status_logs : list StatusLog) : list BatchStability.row :=
  omap (λ b, match absent_rows p b with
             | [] => None
             | g => Some (EmploymentProcessor.batch_stability_of (p, None) g)
             end)
       (EmploymentProcessor.batch_logs status_logs batch_size).

End Statements.

(** The inputs that the loader reads from fixed paths: the four journals
    and the eight attribute files. *)
Definition journal_paths (input_path : Path) : list Path :=
  (λ f, DataLoader.datasets_path input_path ++ ["Journals"; f])
    <$> ["FinancialJournal.csv"; "CheckinJournal.csv"; "TravelJournal.csv";
         "SocialNetwork.csv"].

Definition attribute_paths (input_path : Path) : list Path :=
  (λ nf, DataLoader.datasets_path input_path ++ ["Attributes"; nf.2])
    <$> DataLoader.attribute_files.

(** No file matches the participant status log pattern. *)
Definition no_status_logs (fs : FileSystem) (input_path : Path) : Prop :=
  DataLoader.glob fs (DataLoader.datasets_path input_path ++ ["Activity Logs"])
                  "ParticipantStatusLogs" ".csv" = [].

(** A required input does not exist. *)
Definition missing_source (fs : FileSystem) (input_path : Path) : Prop :=
  no_status_logs fs input_path
  ∨ ∃ p, p ∈ journal_paths input_path ++ attribute_paths input_path
         ∧ fs !! p = None.


(** [tiles lo hi plan]: the half-open ranges of [plan], in order, are
    non-empty, each starts where the previous one ends, the first starts
    at [lo] and the last ends at [hi]. *)
Fixpoint tiles (lo hi : Z) (plan : list (Z * Z)) : Prop :=
  match plan with
  | [] => lo = hi
  | b :: plan' => b.1 = lo ∧ lo < b.2 ∧ tiles b.2 hi plan'
  end.

(** ** Sample data *)

Module Sample.

Definition log (ts : string) (job : option string) (balance : string)
  : RawLog := {|
  raw_timestamp := Some ts;
  raw_currentLocation := Some "POINT (-2721.35 6862.86)";
  raw_participantId := Some "1";
  raw_currentMode := Some "AtHome";
  raw_hungerStatus := Some "JustAte";
  raw_sleepStatus := Some "Sleeping";
  raw_apartmentId := Some "956";
  raw_availableBalance := Some balance;
  raw_jobId := job;
  raw_financialStatus := Some "Stable";
  raw_dailyFoodBudget := Some "12";
  raw_weeklyExtraBudget := Some "3077.2"
|}.

Definition clean : list RawLog → list StatusLog :=
  DataLoader.clean_types (H := PolarsModel.casts).

(** Three observations of participant 1 in March 2022, all at job 7. *)
Definition same_job : list StatusLog :=
  clean [log "2022-03-01T00:00:00Z" (Some "7") "10";
         log "2022-03-02T00:00:00Z" (Some "7") "20";
         log "2022-03-03T00:00:00Z" (Some "7") "60"].

(** The same three observations, the last one without a job. *)
Definition lost_job : list StatusLog :=
  clean [log "2022-03-01T00:00:00Z" (Some "7") "10";
         log "2022-03-02T00:00:00Z" (Some "7") "20";
         log "2022-03-03T00:00:00Z" None "60"].

Definition jobs : list Job := [{| job_jobId := 7; job_employerId := 379 |}].

(** One observation at job 7 and one without a job, both of participant 1
    in March 2022. *)
Definition employed : StatusLog :=
  DataLoader.clean_row (H := PolarsModel.casts)
    (log "2022-03-01T00:00:00Z" (Some "7") "10").

Definition unemployed : StatusLog :=
  DataLoader.clean_row (H := PolarsModel.casts)
    (log "2022-03-03T00:00:00Z" None "60").

(** Participant 1 at job 7 of employer 379, then at job 9 of employer
    412; participant 2 at job 9 throughout. *)
Definition two_jobs : list Job :=
  [{| job_jobId := 7; job_employerId := 379 |};
   {| job_jobId := 9; job_employerId := 412 |}].

Definition job_change : list StatusLog :=
  clean [log "2022-03-02T00:00:00Z" (Some "9") "20";
         log "2022-03-01T00:00:00Z" (Some "7") "10";
         log "2022-04-01T00:00:00Z" (Some "9") "60";
         log "2022-03-05T00:00:00Z" None "60"].

(** A status log one row longer than a batch of the processor: a full
    batch of the row [r], then the row [r']. *)
Definition batch_and_one (r r' : StatusLog) : list StatusLog :=
  replicate (Z.to_nat EmploymentProcessor.batch_size) r ++ [r'].

Definition march : option Z * option string := (Some 1, Some "2022-03").

(** Two observations of March 2022 whose balance did not parse. *)
Definition no_balance : list StatusLog :=
  clean [log "2022-03-01T00:00:00Z" (Some "7") "n/a";
         log "2022-03-02T00:00:00Z" None "n/a"].

(** An observation of participant 1 at job 7 whose timestamp does not
    parse; three such observations, all at job 7; and the same three,
    the last one without a job. *)
Definition undated : StatusLog :=
  DataLoader.clean_row (H := PolarsModel.casts) (log "yesterday" (Some "7") "10").

Definition undated_same_job : list StatusLog :=
  clean [log "yesterday" (Some "7") "10";
         log "2022-03-02 00:00:00" (Some "7") "20";
         log "03/03/2022" (Some "7") "60"].

Definition undated_lost_job : list StatusLog :=
  clean [log "yesterday" (Some "7") "10";
         log "2022-03-02 00:00:00" (Some "7") "20";
         log "03/03/2022" None "60"].

(** Three raw rows, the last two with a timestamp that does not follow
    the format. *)
Definition bad_timestamps : list RawLog :=
  [log "2022-03-01T00:00:00Z" (Some "7") "10";
   log "2022-03-02 00:00:00" (Some "7") "20";
   log "yesterday" None "60"].


(** A complete input tree, one record per file, and the same tree
    without [Jobs.csv] and without any participant status log. *)
Definition input_path : Path := ["VAST-Challenge-2022"].

Definition status_csv : Csv := {|
  header := ["timestamp"; "currentLocation"; "participantId"; "currentMode";
             "hungerStatus"; "sleepStatus"; "apartmentId"; "availableBalance";
             "jobId"; "financialStatus"; "dailyFoodBudget"; "weeklyExtraBudget"];
  records := [[Some "2022-03-01T00:00:00Z"; Some "POINT (-2721.35 6862.86)";
               Some "1"; Some "AtHome"; Some "JustAte"; Some "Sleeping";
               Some "956"; Some "1768.16"; Some "7"; Some "Stable";
               Some "12"; Some "3077.2"]]
|}.

Definition financial_csv : Csv := {|
  header := ["participantId"; "timestamp"; "category"; "amount"];
  records := [[Some "1"; Some "2022-03-01T12:00:00Z"; Some "Food"; Some "-4.07"]]
|}.

Definition checkin_csv : Csv := {|
  header := ["participantId"; "timestamp"; "venueId"; "venueType"];
  records := [[Some "1"; Some "2022-03-01T12:00:00Z"; Some "445";
               Some "Restaurant"]]
|}.

Definition travel_csv : Csv := {|
  header := ["participantId"; "travelStartTime"; "travelStartLocationId";
             "travelEndTime"; "travelEndLocationId"; "purpose"; "checkInTime";
             "checkOutTime"; "startingBalance"; "endingBalance"];
  records := [[Some "1"; Some "2022-03-01T11:50:00Z"; Some "956";
               Some "2022-03-01T12:00:00Z"; Some "445"; Some "Eating";
               Some "2022-03-01T12:00:00Z"; Some "2022-03-01T12:40:00Z";
               Some "1768.16"; Some "1764.09"]]
|}.

Definition social_csv : Csv := {|
  header := ["timestamp"; "participantIdFrom"; "participantIdTo"];
  records := [[Some "2022-03-01T00:00:00Z"; Some "1"; Some "2"]]
|}.

Definition participants_csv : Csv := {|
  header := ["participantId"; "householdSize"; "haveKids"; "age";
             "educationLevel"; "interestGroup"; "joviality"];
  records := [[Some "1"; Some "3"; Some "TRUE"; Some "36";
               Some "HighSchoolOrCollege"; Some "H"; Some "0.0016"]]
|}.

Definition jobs_csv : Csv := {|
  header := ["jobId"; "employerId"; "hourlyRate"; "startTime"; "endTime";
             "daysToWork"; "educationRequirement"];
  records := [[Some "7"; Some "379"; Some "10"; Some "7:46:00 AM";
               Some "3:46:00 PM"; Some "[Monday,Tuesday]"; Some "HighSchoolOrCollege"]]
|}.

Definition employers_csv : Csv := {|
  header := ["employerId"; "location"; "buildingId"];
  records := [[Some "379"; Some "POINT (-1849.99 1744.60)"; Some "823"]]
|}.

Definition apartments_csv : Csv := {|
  header := ["apartmentId"; "rentalCost"; "maxOccupancy"; "numberOfRooms";
             "location"; "buildingId"];
  records := [[Some "956"; Some "768.16"; Some "2"; Some "4";
               Some "POINT (-2721.35 6862.86)"; Some "340"]]
|}.

Definition buildings_csv : Csv := {|
  header := ["buildingId"; "location"; "buildingType"; "maxOccupancy"; "units"];
  records := [[Some "340"; Some "POLYGON ((-2721 6862, -2700 6862, -2700 6880))";
               Some "Residental"; Some "12"; Some "[956]"]]
|}.

Definition restaurants_csv : Csv := {|
  header := ["restaurantId"; "foodCost"; "maxOccupancy "; "location"; "buildingId"];
  records := [[Some "445"; Some "4.07"; Some "72";
               Some "POINT (632.06 2212.46)"; Some "1009"]]
|}.

Definition pubs_csv : Csv := {|
  header := ["pubId"; "hourlyCost"; "maxOccupancy"; "location"; "buildingId"];
  records := [[Some "442"; Some "8.28"; Some "64";
               Some "POINT (-2208.79 6908.55)"; Some "556"]]
|}.

Definition schools_csv : Csv := {|
  header := ["schoolId"; "monthlyCost"; "maxEnrollment"; "location"; "buildingId"];
  records := [[Some "0"; Some "12.81"; Some "242";
               Some "POINT (-376.75 1607.98)"; Some "662"]]
|}.

Definition logs_path : Path :=
  input_path ++ ["Datasets"; "Activity Logs"; "ParticipantStatusLogs1.csv"].

Definition journal (file : string) : Path :=
  input_path ++ ["Datasets"; "Journals"; file].

Definition attribute (file : string) : Path :=
  input_path ++ ["Datasets"; "Attributes"; file].

Definition jobs_path : Path := attribute "Jobs.csv".

Definition full_fs : FileSystem :=
  list_to_map
    [(logs_path, Py.Ok status_csv);
     (journal "FinancialJournal.csv", Py.Ok financial_csv);
     (journal "CheckinJournal.csv", Py.Ok checkin_csv);
     (journal "TravelJournal.csv", Py.Ok travel_csv);
     (journal "SocialNetwork.csv", Py.Ok social_csv);
     (attribute "Participants.csv", Py.Ok participants_csv);
     (attribute "Jobs.csv", Py.Ok jobs_csv);
     (attribute "Employers.csv", Py.Ok employers_csv);
     (attribute "Apartments.csv", Py.Ok apartments_csv);
     (attribute "Buildings.csv", Py.Ok buildings_csv);
     (attribute "Restaurants.csv", Py.Ok restaurants_csv);
     (attribute "Pubs.csv", Py.Ok pubs_csv);
     (attribute "Schools.csv", Py.Ok schools_csv)].

Definition fs_without_jobs : FileSystem := delete jobs_path full_fs.

Definition fs_without_logs : FileSystem := delete logs_path full_fs.

(** The complete tree with an empty [Jobs.csv], and with a second status
    log file that lacks the [jobId] column. *)
Definition fs_with_empty_jobs : FileSystem :=
  <[jobs_path := Py.Raise (Py.NoDataError "empty CSV")]> full_fs.

Definition status_csv_without_jobId : Csv := {|
  header := ["timestamp"; "currentLocation"; "participantId"; "currentMode";
             "hungerStatus"; "sleepStatus"; "apartmentId"; "availableBalance";
             "financialStatus"; "dailyFoodBudget"; "weeklyExtraBudget"];
  records := [[Some "2022-03-01T00:05:00Z"; Some "POINT (-2721.35 6862.86)";
               Some "1"; Some "AtHome"; Some "JustAte"; Some "Sleeping";
               Some "956"; Some "1768.16"; Some "Stable";
               Some "12"; Some "3077.2"]]
|}.

Definition fs_without_jobId : FileSystem :=
  <[logs_path := Py.Ok status_csv_without_jobId]> full_fs.

(** A store without a table, and a database on which no statement
    raises. *)
Definition new_store : Main.Store := {| Main.schemas := ∅; Main.tables := ∅ |}.

Definition no_fault : Main.Statement → Main.Store → option Py.Exception :=
  λ _ _, None.

End Sample.

(** * Properties *)

(** ** The batch loop *)

(** Membership in a list given by its elements. *)
Ltac in_list :=
  solve [repeat first [apply list_elem_of_here | apply list_elem_of_further]].

Section Batches.
Import EmploymentProcessor.

Lemma range_lookup (stop step : Z) (k : nat) :
  0 < step →
  Py.range 0 stop step !! k =
    if decide (Z.of_nat k * step < stop) then Some (Z.of_nat k * step) else None.
Proof.
  intros Hstep. unfold Py.range. rewrite decide_True by done.
  rewrite list_lookup_fmap.
  replace (stop - 0 + step - 1) with (stop + step - 1) by lia.
  set (q := (stop + step - 1) `div` step).
  assert (step * q <= stop + step - 1 < step * (q + 1)) as [Hq1 Hq2].
  { split; [apply Z.mul_div_le; done|].
    replace (q + 1) with (Z.succ q) by lia. apply Z.mul_succ_div_gt; done. }
  assert (Hn : (k < Z.to_nat q)%nat ↔ Z.of_nat k * step < stop).
  { clearbody q. split; intros Hk; [nia|].
    destruct (decide (0 <= q)); [nia|].
    assert (0 <= Z.of_nat k * step) by nia.
    assert (step * (q + 1) <= 0) by nia. lia. }
  destruct (decide (Z.of_nat k * step < stop)) as [Hlt|Hge].
  - rewrite lookup_seq_lt by (apply Hn; done). simpl. f_equal; lia.
  - rewrite lookup_seq_ge; [done|]. rewrite <- Hn in Hge. lia.
Qed.

Lemma batches_lookup (total_records batch_size : Z) (k : nat) :
  0 < batch_size →
  batches total_records batch_size !! k =
    if decide (Z.of_nat k * batch_size < total_records)
    then Some (Z.of_nat k * batch_size,
               Z.min (Z.of_nat k * batch_size + batch_size) total_records)
    else None.
Proof.
  intros Hpos. unfold batches. rewrite list_lookup_fmap, range_lookup by done.
  by case_decide.
Qed.

Lemma tiles_intro (plan : list (Z * Z)) :
  ∀ lo hi,
    (∀ k b, plan !! k = Some b →
       b.1 < b.2 ∧ match plan !! S k with
                   | Some b' => b'.1 = b.2
                   | None => b.2 = hi
                   end) →
    match plan !! 0%nat with Some b => b.1 = lo | None => lo = hi end →
    tiles lo hi plan.
Proof.
  induction plan as [|b plan IH]; intros lo hi Hstep Hfirst; simpl in *; [done|].
  destruct (Hstep 0%nat b eq_refl) as [Hlt Hnext]. simpl in Hnext.
  split_and!; [done|lia|].
  apply IH; [|done].
  intros k b' Hk. apply (Hstep (S k) b' Hk).
Qed.

Lemma tiles_bounds (plan : list (Z * Z)) :
  ∀ lo hi, tiles lo hi plan →
    lo <= hi ∧ ∀ k b, plan !! k = Some b → lo <= b.1 ∧ b.1 < b.2 ∧ b.2 <= hi.
Proof.
  induction plan as [|b plan IH]; intros lo hi Ht; simpl in Ht.
  - split; [lia|]. intros k b Hk. by rewrite lookup_nil in Hk.
  - destruct Ht as (Hb & Hlt & Ht). destruct (IH _ _ Ht) as [Hle Hin].
    split; [lia|]. intros [|k] b' Hk; simpl in Hk.
    + injection Hk as <-. lia.
    + specialize (Hin _ _ Hk). lia.
Qed.

Lemma tiles_cover (plan : list (Z * Z)) :
  ∀ lo hi, tiles lo hi plan → ∀ i, lo <= i < hi →
    ∃ k b, plan !! k = Some b ∧ b.1 <= i < b.2 ∧
           ∀ k' b', plan !! k' = Some b' → b'.1 <= i < b'.2 → k' = k.
Proof.
  induction plan as [|b plan IH]; intros lo hi Ht i Hi; simpl in Ht; [lia|].
  destruct Ht as (Hb & Hlt & Ht).
  destruct (decide (i < b.2)) as [Hin|Hout].
  - exists 0%nat, b. split_and!; [done|lia|lia|].
    intros [|k'] b' Hk' Hi'; [done|]. simpl in Hk'.
    destruct (tiles_bounds _ _ _ Ht) as [_ Hbd]. specialize (Hbd _ _ Hk'). lia.
  - destruct (IH _ _ Ht i ltac:(lia)) as (k & b0 & Hk & Hi0 & Huniq).
    exists (S k), b0. split_and!; [done|lia|lia|].
    intros [|k'] b' Hk' Hi'; simpl in Hk'.
    + injection Hk' as <-. lia.
    + f_equal. by eapply Huniq.
Qed.

(** C5. For a non-negative number of rows and a positive batch size, the
    ranges of the batch loop tile [0, total_records) in ascending order:
    every row index lies in exactly one range, every range has
    [batch_size] rows but possibly the last, which is shorter and never
    empty; there is no range when there is no row; and equal inputs give
    equal boundaries. *)
Theorem batches_cover_once (total_records batch_size : Z) :
  0 <= total_records → 0 < batch_size →
  let plan := batches total_records batch_size in
  tiles 0 total_records plan
  ∧ (∀ i, 0 <= i < total_records →
       ∃ k b, plan !! k = Some b ∧ b.1 <= i < b.2 ∧
              ∀ k' b', plan !! k' = Some b' → b'.1 <= i < b'.2 → k' = k)
  ∧ (∀ k b, plan !! k = Some b →
       0 < b.2 - b.1 <= batch_size ∧
       ((S k < length plan)%nat → b.2 - b.1 = batch_size))
  ∧ (total_records = 0 → plan = [])
  ∧ (∀ total_records' batch_size',
       total_records' = total_records → batch_size' = batch_size →
       batches total_records' batch_size' = plan).
Proof.
  intros Htotal Hsize plan.
  assert (Htiles : tiles 0 total_records plan).
  { apply tiles_intro.
    - intros k b. subst plan. rewrite !batches_lookup by done.
      case_decide; [|done]. intros [= <-]. simpl. split; [lia|].
      case_decide; simpl; lia.
    - subst plan. rewrite batches_lookup by done. case_decide; simpl; lia. }
  split_and!.
  - done.
  - by apply tiles_cover.
  - intros k b Hk. subst plan. rewrite batches_lookup in Hk by done.
    case_decide; [|done]. injection Hk as <-. simpl. split; [lia|].
    intros Hnext. apply lookup_lt_is_Some_2 in Hnext as [b' Hb'].
    rewrite batches_lookup in Hb' by done. case_decide; [lia|done].
  - intros ->. subst plan. apply (list_eq _ []). intros k.
    rewrite batches_lookup by done. rewrite decide_False by lia. done.
  - by intros ?? -> ->.
Qed.

Lemma batches_cover_once_witness :
  0 <= 11 ∧ 0 < 5 ∧ batches 11 5 = [(0, 5); (5, 10); (10, 11)]
  ∧ tiles 0 11 (batches 11 5).
Proof.
  split_and!; [lia|lia|reflexivity|].
  apply (batches_cover_once 11 5); lia.
Defined.

End Batches.

(** ** Frames: slices, groups and aggregates *)

Section Frames.
Import EmploymentProcessor.

Lemma batches_tiles (total_records batch_size : Z) :
  0 <= total_records → 0 < batch_size →
  tiles 0 total_records (batches total_records batch_size).
Proof.
  intros Htotal Hsize. apply tiles_intro.
  - intros k b. rewrite !batches_lookup by done.
    case_decide; [|done]. intros [= <-]. simpl. split; [lia|].
    case_decide; simpl; lia.
  - rewrite batches_lookup by done. case_decide; simpl; lia.
Qed.

Lemma slices_concat {A} (t : list A) (plan : list (Z * Z)) :
  ∀ lo hi, tiles lo hi plan → 0 <= lo →
    concat ((λ b, pl.slice t b.1 (b.2 - b.1)) <$> plan) = pl.slice t lo (hi - lo).
Proof.
  induction plan as [|b plan IH]; intros lo hi Ht Hlo; simpl in Ht.
  - subst. unfold pl.slice. by rewrite Z.sub_diag.
  - destruct Ht as (<- & Hlt & Ht). rewrite fmap_cons, concat_cons.
    rewrite (IH _ _ Ht) by lia.
    unfold pl.slice.
    replace (Z.to_nat b.2) with (Z.to_nat b.1 + Z.to_nat (b.2 - b.1))%nat by lia.
    rewrite <- drop_drop, take_take_drop. f_equal.
    destruct (tiles_bounds _ _ _ Ht). lia.
Qed.

(** The batches, put end to end, are the frame. *)
Lemma batch_logs_concat {A} (status_logs : list A) (batch_size : Z) :
  0 < batch_size → concat (batch_logs status_logs batch_size) = status_logs.
Proof.
  intros Hsize. unfold batch_logs.
  rewrite (slices_concat _ _ 0 (Py.len status_logs)); [|apply batches_tiles|];
    unfold Py.len; try lia.
  unfold pl.slice. rewrite Z.sub_0_r, Nat2Z.id. simpl. apply firstn_all.
Qed.

Lemma filter_remove_dups_eq `{EqDecision K} (k : K) (l : list K) :
  filter (λ x, x = k) (remove_dups l) = if decide (k ∈ l) then [k] else [].
Proof.
  assert (Hnd : ∀ l' : list K, NoDup l' →
            filter (λ x, x = k) l' = if decide (k ∈ l') then [k] else []).
  { induction 1 as [|x l' Hx Hnd IH]; [done|].
    rewrite filter_cons. destruct (decide (x = k)) as [->|Hne].
    - rewrite IH, decide_False, decide_True by set_solver. done.
    - rewrite IH. destruct (decide (k ∈ l')).
      + rewrite decide_True; [done|set_solver].
      + rewrite decide_False; [done|]. by intros [?|?]%elem_of_cons. }
  rewrite Hnd by apply NoDup_remove_dups.
  destruct (decide (k ∈ l)).
  - rewrite decide_True; [done|]. by apply elem_of_remove_dups.
  - rewrite decide_False; [done|]. by rewrite elem_of_remove_dups.
Qed.

Lemma elem_of_group_by `{EqDecision K} {A} (key : A → K) (t : list A) kg :
  kg ∈ pl.group_by key t ↔
  kg.1 ∈ key <$> t ∧ kg.2 = filter (λ r, key r = kg.1) t.
Proof.
  unfold pl.group_by. rewrite list_elem_of_fmap. split.
  - intros (k & -> & Hk). rewrite elem_of_remove_dups in Hk.
    split; [exact Hk|reflexivity].
  - intros [Hk Hg]. exists kg.1. rewrite elem_of_remove_dups.
    split; [|done]. destruct kg; simpl in *; by subst.
Qed.

Lemma filter_fmap {A B} (f : A → B) (P : B → Prop) `{∀ y, Decision (P y)}
    (l : list A) :
  filter P (f <$> l) = f <$> filter (λ x, P (f x)) l.
Proof.
  induction l as [|x l IH]; [done|].
  rewrite fmap_cons, !filter_cons, IH. by case_decide.
Qed.

(** The groups of one key: at most one, holding the rows of that key. *)
Lemma filter_group_by `{EqDecision K} {A} (key : A → K) (t : list A) (k : K) :
  filter (λ kg, kg.1 = k) (pl.group_by key t) =
    if decide (k ∈ key <$> t) then [(k, filter (λ r, key r = k) t)] else [].
Proof.
  unfold pl.group_by.
  rewrite filter_fmap. simpl.
  rewrite filter_remove_dups_eq. by case_decide.
Qed.

Lemma group_not_nil `{EqDecision K} {A} (key : A → K) (t : list A) (k : K) :
  k ∈ key <$> t → filter (λ r, key r = k) t ≠ [].
Proof.
  intros (r & -> & Hr)%list_elem_of_fmap Hnil.
  assert (r ∈ filter (λ r', key r' = key r) t) as Hin by (by apply list_elem_of_filter).
  rewrite Hnil in Hin. by apply not_elem_of_nil in Hin.
Qed.

Lemma filter_concat {A} (P : A → Prop) `{∀ x, Decision (P x)} (ls : list (list A)) :
  filter P (concat ls) = concat (filter P <$> ls).
Proof.
  induction ls as [|l ls IH]; [done|]. simpl. by rewrite filter_app, IH.
Qed.

Lemma mean_is_Some (col : list (option Q)) :
  col ≠ [] → (∀ x, x ∈ col → is_Some x) → is_Some (pl.mean col).
Proof.
  intros Hne Hall. unfold pl.mean, pl.drop_nulls.
  destruct col as [|x col]; [done|]. simpl.
  destruct (Hall x) as [q ->]; [set_solver|]. simpl. eauto.
Qed.

Lemma mean_all_null (col : list (option Q)) :
  (∀ x, x ∈ col → x = None) → pl.mean col = None.
Proof.
  intros Hall. unfold pl.mean, pl.drop_nulls.
  induction col as [|x col IH]; [done|]. simpl.
  rewrite (Hall x) by set_solver. simpl. apply IH. intros; apply Hall; set_solver.
Qed.

End Frames.

(** ** The stability analysis, batch by batch *)

Section Stability.
Context `{!pl.Casts}.
Import EmploymentProcessor.

Lemma elem_of_concat {A} (x : A) (ls : list (list A)) :
  x ∈ concat ls ↔ ∃ l, l ∈ ls ∧ x ∈ l.
Proof.
  induction ls as [|l ls IH]; simpl.
  - split; [by intros ?%not_elem_of_nil|by intros (? & ?%not_elem_of_nil & _)].
  - rewrite elem_of_app, IH. split.
    + intros [Hx|(l' & Hl' & Hx)]; [exists l|exists l']; split; try done.
      * apply elem_of_cons; by left.
      * apply elem_of_cons; by right.
    + intros (l' & [->|Hl']%elem_of_cons & Hx); [by left|right; eauto].
Qed.

Lemma filter_all {A} (P : A → Prop) `{∀ x, Decision (P x)} (l : list A) :
  (∀ x, x ∈ l → P x) → filter P l = l.
Proof.
  induction l as [|x l IH]; intros Hall; [done|].
  rewrite filter_cons, decide_True by (apply Hall, elem_of_cons; by left).
  f_equal. apply IH. intros y Hy. apply Hall, elem_of_cons; by right.
Qed.

Lemma batch_key_of k (g : list StatusLog) :
  batch_key (batch_stability_of k g) = k.
Proof. by destruct k. Qed.

Lemma batch_employment_rate_is_Some k (g : list StatusLog) :
  g ≠ [] → is_Some (BatchStability.employment_rate (batch_stability_of k g)).
Proof.
  intros Hg. simpl. apply mean_is_Some.
  - by destruct g.
  - intros x (r & -> & _)%list_elem_of_fmap. eauto.
Qed.

(** The filter on [employment_rate] of the first phase keeps every
    group: a group has at least one row, so its rate is not null. *)
Lemma batch_stability_groups (b : list StatusLog) :
  batch_stability b =
    (λ kg, batch_stability_of kg.1 kg.2) <$> pl.group_by stability_key b.
Proof.
  unfold batch_stability. apply filter_all.
  intros s (kg & -> & [Hk ->]%elem_of_group_by)%list_elem_of_fmap.
  apply batch_employment_rate_is_Some. by apply group_not_nil.
Qed.

Lemma filter_key_nil (b : list StatusLog) k :
  k ∉ stability_key <$> b → filter (λ r, stability_key r = k) b = [].
Proof.
  intros Hk. induction b as [|r b IH]; [done|].
  rewrite fmap_cons, not_elem_of_cons in Hk. destruct Hk as [Hne Hk].
  rewrite filter_cons, decide_False by done. by apply IH.
Qed.

Lemma filter_batch_stability (b : list StatusLog) k :
  filter (λ s, batch_key s = k) (batch_stability b) =
    match filter (λ r, stability_key r = k) b with
    | [] => []
    | g => [batch_stability_of k g]
    end.
Proof.
  rewrite batch_stability_groups, filter_fmap.
  rewrite (list_filter_iff _ (λ kg, kg.1 = k)) by (by intros [[??]?]).
  rewrite filter_group_by. case_decide as Hk.
  - pose proof (group_not_nil stability_key b k Hk) as Hne.
    by destruct (filter _ b).
  - by rewrite filter_key_nil.
Qed.

Lemma all_stability_data_concat (batch_size : Z) (status_logs : list StatusLog) :
  concat (all_stability_data batch_size status_logs) =
    concat (batch_stability <$> batch_logs status_logs batch_size).
Proof.
  unfold all_stability_data.
  induction (batch_logs status_logs batch_size) as [|b bs IH]; [done|].
  csimpl. rewrite <- IH. case_decide as Hlen; [done|].
  destruct (batch_stability b); [done|]. unfold Py.len in Hlen. simpl in Hlen. lia.
Qed.

(** The rows of the pool that carry one key are the per-batch aggregates
    of that key. *)
Lemma filter_pool (batch_size : Z) (status_logs : list StatusLog) k :
  filter (λ s, batch_key s = k) (concat (all_stability_data batch_size status_logs))
  = group_partials k batch_size status_logs.
Proof.
  rewrite all_stability_data_concat, filter_concat. unfold group_partials.
  induction (batch_logs status_logs batch_size) as [|b bs IH]; [done|].
  csimpl. rewrite IH, filter_batch_stability.
  by destruct (filter _ b).
Qed.

Lemma pool_keys (batch_size : Z) (status_logs : list StatusLog) k :
  0 < batch_size →
  k ∈ batch_key <$> concat (all_stability_data batch_size status_logs) ↔
  k ∈ stability_key <$> status_logs.
Proof.
  intros Hsize. rewrite all_stability_data_concat.
  rewrite <- (batch_logs_concat status_logs batch_size Hsize) at 2.
  rewrite !list_elem_of_fmap. split.
  - intros (s & -> & (l & (b & -> & Hb)%list_elem_of_fmap & Hs)%elem_of_concat).
    rewrite batch_stability_groups in Hs.
    apply list_elem_of_fmap in Hs as (kg & -> & [Hk _]%elem_of_group_by).
    apply list_elem_of_fmap in Hk as (r & Hkr & Hr).
    exists r. split; [by rewrite batch_key_of|]. apply elem_of_concat. eauto.
  - intros (r & -> & (b & Hb & Hr)%elem_of_concat).
    exists (batch_stability_of (stability_key r)
              (filter (λ r', stability_key r' = stability_key r) b)).
    split; [by rewrite batch_key_of|]. apply elem_of_concat.
    exists (batch_stability b).
    split; [by apply list_elem_of_fmap_2|].
    rewrite batch_stability_groups. apply list_elem_of_fmap.
    exists (stability_key r, filter (λ r', stability_key r' = stability_key r) b).
    split; [done|]. apply elem_of_group_by. split; [|done].
    apply (list_elem_of_fmap_2 stability_key), Hr.
Qed.

Lemma group_partials_rate (batch_size : Z) (status_logs : list StatusLog) k s :
  s ∈ group_partials k batch_size status_logs →
  is_Some (BatchStability.employment_rate s).
Proof.
  unfold group_partials. rewrite list_elem_of_omap. intros (b & _ & Hs).
  destruct (filter _ b) as [|r g] eqn:Hg; [done|]. injection Hs as <-.
  by apply batch_employment_rate_is_Some.
Qed.

(** The final frame, whichever branch returns it: one row per key of
    the pool, and the final filter keeps every row. *)
Lemma stability_rows_pool (batch_size : Z) (status_logs : list StatusLog) :
  pl.rows (analyze_employment_stability_batched batch_size status_logs) =
    (λ kg, stability_of kg.1 kg.2)
      <$> pl.group_by batch_key (concat (all_stability_data batch_size status_logs)).
Proof.
  unfold analyze_employment_stability_batched.
  destruct (all_stability_data batch_size status_logs) as [|f fs] eqn:Hall; [done|].
  rewrite <- Hall. simpl. apply filter_all.
  intros row (kg & -> & [Hk Hg]%elem_of_group_by)%list_elem_of_fmap.
  simpl. rewrite Hg, filter_pool. apply mean_is_Some.
  - rewrite <- filter_pool. intros Hnil%fmap_nil_inv. revert Hnil.
    by apply group_not_nil.
  - intros x (s & -> & Hs)%list_elem_of_fmap. by eapply group_partials_rate.
Qed.

(** A row of the final stability frame is the combination of the
    per-batch aggregates of a key of the data, and every key of the data
    has its row. *)
Lemma stability_rows (batch_size : Z) (status_logs : list StatusLog) row :
  0 < batch_size →
  row ∈ pl.rows (analyze_employment_stability_batched batch_size status_logs) ↔
  ∃ k, k ∈ stability_key <$> status_logs ∧
       row = stability_of k (group_partials k batch_size status_logs).
Proof.
  intros Hsize. rewrite stability_rows_pool, list_elem_of_fmap. split.
  - intros (kg & -> & [Hk Hg]%elem_of_group_by). exists kg.1.
    rewrite pool_keys in Hk by done. split; [done|].
    by rewrite Hg, filter_pool.
  - intros (k & Hk & ->).
    exists (k, filter (λ s, batch_key s = k)
                 (concat (all_stability_data batch_size status_logs))).
    split; [by rewrite filter_pool|].
    apply elem_of_group_by. split; [|done]. by apply pool_keys.
Qed.

End Stability.

(** ** Groups without a balance, groups without a month *)

Section StabilityGroups.
Import EmploymentProcessor.

Lemma group_partials_in `{!pl.Casts} k batch_size status_logs s :
  s ∈ group_partials k batch_size status_logs →
  ∃ b, b ∈ batch_logs status_logs batch_size ∧
       s = batch_stability_of k (filter (λ r, stability_key r = k) b).
Proof.
  unfold group_partials. rewrite list_elem_of_omap. intros (b & Hb & Hs).
  exists b. split; [done|].
  destruct (filter _ b) as [|r g]; [done|]. by injection Hs as <-.
Qed.

(** C6, as the code has it. For a positive batch size, a (participantId,
    month) group of the data all of whose availableBalance observations
    are absent is kept in the final stability frame: its row carries the
    key, a non-null employment_rate and a null avg_balance. *)
Theorem null_balance_group_kept `{!pl.Casts} (batch_size : Z)
    (status_logs : list StatusLog) (k : option Z * option string) :
  0 < batch_size →
  k ∈ stability_key <$> status_logs →
  (∀ r, r ∈ status_logs → stability_key r = k → availableBalance r = None) →
  ∃ row,
    row ∈ pl.rows (analyze_employment_stability_batched batch_size status_logs)
    ∧ (Stability.participantId row, Stability.month row) = k
    ∧ is_Some (Stability.employment_rate row)
    ∧ Stability.avg_balance row = None.
Proof.
  intros Hsize Hk Hnull.
  exists (stability_of k (group_partials k batch_size status_logs)).
  split_and!.
  - apply stability_rows; eauto.
  - by destruct k.
  - simpl. apply mean_is_Some.
    + rewrite <- filter_pool. intros Hnil%fmap_nil_inv. revert Hnil.
      apply group_not_nil. by apply pool_keys.
    + intros x (s & -> & Hs)%list_elem_of_fmap. by eapply group_partials_rate.
  - simpl. apply mean_all_null.
    intros x (s & -> & (b & Hb & ->)%group_partials_in)%list_elem_of_fmap.
    simpl. apply mean_all_null.
    intros y (r & -> & [Hr Hin]%list_elem_of_filter)%list_elem_of_fmap.
    apply Hnull; [|done].
    rewrite <- (batch_logs_concat status_logs batch_size Hsize).
    apply elem_of_concat. eauto.
Qed.

Lemma null_balance_group_kept_witness :
  ∃ row,
    row ∈ pl.rows (_analyze_employment_stability (H := PolarsModel.casts)
                     Sample.no_balance)
    ∧ (Stability.participantId row, Stability.month row) = Sample.march
    ∧ is_Some (Stability.employment_rate row)
    ∧ Stability.avg_balance row = None.
Proof.
  apply (null_balance_group_kept (H := PolarsModel.casts)).
  - reflexivity.
  - vm_compute. apply elem_of_cons. by left.
  - intros r Hr _. vm_compute in Hr.
    repeat (apply elem_of_cons in Hr as [->|Hr]; [reflexivity|]).
    by apply not_elem_of_nil in Hr.
Defined.

(** C6, as stated, fails: every balance of the March group of
    [Sample.no_balance] is absent and the group is a row of the result. *)
Lemma null_balance_group_not_dropped :
  (∀ r, r ∈ Sample.no_balance → availableBalance r = None)
  ∧ ¬ (∀ row,
         row ∈ pl.rows (_analyze_employment_stability (H := PolarsModel.casts)
                          Sample.no_balance) →
         (Stability.participantId row, Stability.month row) ≠ Sample.march).
Proof.
  split.
  - intros r Hr. vm_compute in Hr.
    repeat (apply elem_of_cons in Hr as [->|Hr]; [reflexivity|]).
    by apply not_elem_of_nil in Hr.
  - intros Hdrop.
    assert (Hrows : pl.rows (_analyze_employment_stability (H := PolarsModel.casts)
                               Sample.no_balance)
              = [{| Stability.participantId := Some 1;
                    Stability.month := Some "2022-03";
                    Stability.employment_rate := Some (1 # 2)%Q;
                    Stability.job_changes := 2;
                    Stability.avg_balance := None;
                    Stability.stability_score := Some (1 # 2)%Q |}])
      by (vm_compute; reflexivity).
    eapply Hdrop; [rewrite Hrows; apply elem_of_cons; by left|reflexivity].
Qed.

End StabilityGroups.

Section AbsentMonth.
Context `{!pl.Casts}.
Import EmploymentProcessor.

Lemma stability_key_absent (r : StatusLog) (p : option Z) :
  stability_key r = (p, None) ↔ participantId r = p ∧ timestamp r = None.
Proof.
  unfold stability_key, month_of. destruct (timestamp r); simpl.
  - split; [intros [=]|intros [_ [=]]].
  - split; [by intros [= ->]|by intros [-> _]].
Qed.

Lemma filter_absent (p : option Z) (b : list StatusLog) :
  filter (λ r, stability_key r = (p, None)) b = absent_rows p b.
Proof. apply list_filter_iff. intros r. apply stability_key_absent. Qed.

Lemma group_partials_absent (p : option Z) batch_size status_logs :
  group_partials (p, None) batch_size status_logs =
    absent_partials p batch_size status_logs.
Proof.
  unfold group_partials, absent_partials.
  induction (batch_logs status_logs batch_size) as [|b bs IH]; [done|].
  csimpl. by rewrite IH, filter_absent.
Qed.

(** A frame that fits in one batch is that batch. *)
Lemma batch_logs_single {A} (status_logs : list A) (batch_size : Z) :
  0 < Py.len status_logs <= batch_size →
  batch_logs status_logs batch_size = [status_logs].
Proof.
  intros [Hpos Hle]. unfold batch_logs.
  assert (batches (Py.len status_logs) batch_size = [(0, Py.len status_logs)])
    as ->.
  { apply list_eq. intros [|k]; rewrite batches_lookup by lia.
    - rewrite decide_True by lia. simpl. do 2 f_equal. lia.
    - rewrite decide_False by nia. done. }
  simpl. unfold pl.slice, Py.len. rewrite Z.sub_0_r, Nat2Z.id. simpl.
  by rewrite firstn_all.
Qed.

Lemma mean_mean (col : list (option Q)) : pl.mean [pl.mean col] = pl.mean col.
Proof.
  unfold pl.mean at 2 3. destruct (pl.drop_nulls col) as [|v vs]; [done|].
  unfold pl.mean, pl.drop_nulls. simpl. f_equal.
  rewrite <- (Qcanon.Qred_involutive (_ / inject_Z (Py.len (v :: vs)))) at 2.
  apply Qred_complete. unfold Py.len. simpl length.
  change (inject_Z (Z.of_nat 1)) with 1%Q.
  generalize ((v + pl.Qsum vs) / inject_Z (Z.of_nat (S (length vs))))%Q.
  intros x. rewrite Qred_correct. unfold Qdiv.
  rewrite Qplus_0_r. change (/ 1)%Q with 1%Q. apply Qmult_1_r.
Qed.

End AbsentMonth.

(** ** The turnover analysis *)

Section Turnover.
Context `{!pl.Casts}.
Import EmploymentProcessor.

Lemma min_le_max (col : list (option Z)) s e :
  pl.min col = Some s → pl.max col = Some e → s <= e.
Proof.
  unfold pl.min, pl.max. destruct (pl.drop_nulls col) as [|v vs]; [done|].
  intros [= <-] [= <-].
  assert (foldr Z.min v vs <= v ∧ v <= foldr Z.max v vs) as [??]; [|lia].
  induction vs as [|x vs [IH1 IH2]]; simpl; lia.
Qed.

(** What the filter on [tenure_days] leaves in a batch frame. *)
Lemma turnover_batch_tenure (lookup : gmap Z Z) (b : list StatusLog) g rec :
  turnover_batch lookup b = Some g → rec ∈ g →
  ∃ s e d, Tenure.start_date rec = Some s ∧ Tenure.end_date rec = Some e
           ∧ s <= e ∧ Tenure.tenure_days rec = Some d ∧ 0 <= d
           ∧ d = (e - s) `quot` us_per_day.
Proof.
  unfold turnover_batch. repeat case_decide; try done.
  intros [= <-] [Hd (kg & -> & _)%list_elem_of_fmap]%list_elem_of_filter.
  revert Hd. simpl.
  destruct (pl.max _) as [e|] eqn:He; [|done].
  destruct (pl.min _) as [s|] eqn:Hs; [|done]. simpl.
  intros [= Hd%bool_decide_eq_true]. exists s, e, ((e - s) `quot` us_per_day).
  split_and!; try done; [by eapply min_le_max|lia].
Qed.

Lemma all_turnover_data_tenure batch_size status_logs jobs g rec :
  g ∈ all_turnover_data batch_size status_logs jobs → rec ∈ g →
  ∃ s e d, Tenure.start_date rec = Some s ∧ Tenure.end_date rec = Some e
           ∧ s <= e ∧ Tenure.tenure_days rec = Some d ∧ 0 <= d
           ∧ d = (e - s) `quot` us_per_day.
Proof.
  unfold all_turnover_data. rewrite list_elem_of_omap.
  intros (b & _ & Hb) Hrec. by eapply turnover_batch_tenure.
Qed.

(** A row of the final turnover frame aggregates a non-empty group. *)
Lemma turnover_rows batch_size status_logs jobs row :
  row ∈ pl.rows (calculate_turnover_rates_batched batch_size status_logs jobs) →
  ∃ k g, g ≠ [] ∧ row = turnover_of k g.
Proof.
  unfold calculate_turnover_rates_batched.
  destruct (all_turnover_data _ _ _) as [|f fs];
    [by intros ?%not_elem_of_nil|]. simpl pl.rows.
  intros (kg & -> & [Hk ->]%elem_of_group_by)%list_elem_of_fmap.
  eexists _, _. split; [|done]. by apply group_not_nil.
Qed.

Lemma short_tenure_count_bounds (g : list Tenure.row) :
  0 <= pl.sum ((λ t, d ← Tenure.tenure_days t;
                     Some (pl.of_bool (bool_decide (d <= 30)))) <$> g)
    <= Py.len g.
Proof.
  unfold pl.sum, pl.drop_nulls, Py.len.
  induction g as [|t g IH]; [simpl; lia|].
  rewrite length_cons, Nat2Z.inj_succ. csimpl.
  destruct (Tenure.tenure_days t) as [d|]; csimpl; [|lia].
  unfold pl.of_bool in IH |- *. case_bool_decide; lia.
Qed.

(** C9. Every row of the final turnover frame counts at least one hire,
    so the division that defines its turnover rate is by a non-zero
    number, and the rate lies between 0 and 1; every tenure record that
    contributes to the frame has a start not after its end and a
    non-negative number of whole days. *)
Theorem turnover_rate_bounds (batch_size : Z) (status_logs : list StatusLog)
    (jobs : list Job) :
  (∀ row,
     row ∈ pl.rows (calculate_turnover_rates_batched batch_size status_logs jobs) →
     Turnover.new_hires row >= 1
     ∧ Turnover.new_hires row ≠ 0
     ∧ (0 <= Turnover.turnover_rate row <= 1)%Q)
  ∧ (∀ g rec,
       g ∈ all_turnover_data batch_size status_logs jobs → rec ∈ g →
       ∃ s e d, Tenure.start_date rec = Some s ∧ Tenure.end_date rec = Some e
                ∧ s <= e ∧ Tenure.tenure_days rec = Some d ∧ d >= 0).
Proof.
  split.
  - intros row (k & g & Hg & ->)%turnover_rows.
    assert (Hlen : 1 <= Py.len g).
    { destruct g; [done|]. unfold Py.len. simpl. lia. }
    pose proof (short_tenure_count_bounds g) as [Hlo Hhi].
    simpl. split_and!; [lia|lia|..]; rewrite Qred_correct.
    + apply Qle_shift_div_l.
      * change 0%Q with (inject_Z 0). rewrite <- Zlt_Qlt. lia.
      * rewrite Qmult_0_l. change 0%Q with (inject_Z 0). by rewrite <- Zle_Qle.
    + apply Qle_shift_div_r.
      * change 0%Q with (inject_Z 0). rewrite <- Zlt_Qlt. lia.
      * rewrite Qmult_1_l. by rewrite <- Zle_Qle.
  - intros g rec Hg Hrec.
    destruct (all_turnover_data_tenure _ _ _ _ _ Hg Hrec)
      as (s & e & d & ? & ? & ? & ? & ? & _).
    exists s, e, d. split_and!; try done. lia.
Qed.

End Turnover.

Lemma turnover_rate_bounds_witness :
  ∃ row,
    row ∈ pl.rows (EmploymentProcessor._calculate_turnover_rates
                     (H := PolarsModel.casts) Sample.same_job Sample.jobs)
    ∧ Turnover.new_hires row >= 1
    ∧ (0 <= Turnover.turnover_rate row <= 1)%Q.
Proof.
  eexists. split; [vm_compute; apply elem_of_cons; left; reflexivity|].
  edestruct (turnover_rate_bounds (H := PolarsModel.casts)
               EmploymentProcessor.batch_size Sample.same_job Sample.jobs)
    as [Hrows _].
  edestruct Hrows as (Hn & _ & Hr);
    [vm_compute; apply elem_of_cons; left; reflexivity|].
  split; [exact Hn|exact Hr].
Defined.

(** ** The loader: absent identifiers *)

Section Absence.
Context `{!pl.Casts}.
Import DataLoader.


(** On String columns the clean-up returns when the frame has the
    columns it names, and the frame it returns has the same columns and
    one cleaned row for every record. *)
Lemma with_columns_strings (df : Csv) :
  cleaned_columns ⊆ header df →
  with_columns (Strings df)
  = Py.Ok {| log_columns := header df; log_rows := clean_types (raw_rows df) |}.
Proof.
  intros Hsub. unfold with_columns.
  destruct (filter _ cleaned_columns) as [|c l] eqn:Hf; [done|].
  assert (Hc : c ∈ filter (λ c, c ∉ header df) cleaned_columns)
    by (rewrite Hf; apply list_elem_of_here).
  apply list_elem_of_filter in Hc as [Hnot Hin]. destruct Hnot. by apply Hsub.
Qed.

End Absence.




(** ** The empty result frames *)

Section EmptyFrames.
Context `{!pl.Casts}.
Import EmploymentProcessor.

(** C7 (defect). On a status log without rows no
    batch is processed and both methods return an empty frame; the empty
    turnover frame has the five columns of the turnover table, and the
    empty stability frame has five columns, without [stability_score],
    which the frame of a non-empty run has. *)
Theorem empty_frames_columns (jobs : list Job) :
  _calculate_turnover_rates [] jobs =
    {| pl.columns := ["month"; "employerId"; "new_hires"; "avg_tenure_days";
                      "turnover_rate"];
       pl.rows := [] |}
  ∧ _analyze_employment_stability [] =
      {| pl.columns := ["participantId"; "month"; "employment_rate";
                        "job_changes"; "avg_balance"];
         pl.rows := [] |}
  ∧ pl.columns (_analyze_employment_stability [])
    ≠ ["participantId"; "month"; "employment_rate"; "job_changes";
       "avg_balance"; "stability_score"]
  ∧ pl.columns (_analyze_employment_stability (H := PolarsModel.casts)
                  Sample.same_job)
    = ["participantId"; "month"; "employment_rate"; "job_changes";
       "avg_balance"; "stability_score"].
Proof. split_and!; [reflexivity|reflexivity|discriminate|reflexivity]. Qed.

End EmptyFrames.

(** ** The store *)

Section Store.
Import Main.
Variable raises : Statement → Store → option Py.Exception.

Lemma effect_tables (s : Statement) (db : Store) :
  tables (effect s db) = tables db ∪ list_to_set (created [s]).
Proof.
  destruct s; simpl; by rewrite ?(right_id_L ∅ (∪)).
Qed.


Lemma foldl_effect_tables (stmts : list Statement) (db : Store) :
  tables (foldl (λ db s, effect s db) db stmts)
  = tables db ∪ list_to_set (created stmts).
Proof.
  revert db. induction stmts as [|s stmts IH]; intros db.
  - simpl. by rewrite (right_id_L ∅ (∪)).
  - cbn [foldl]. rewrite IH, effect_tables.
    replace (created (s :: stmts)) with (created [s] ++ created stmts)
      by (by destruct s).
    by rewrite list_to_set_app_L, (assoc_L (∪)).
Qed.

(** What a completed method has created. *)
Lemma completed_tables (m : Method) (db : Store) :
  tables (completed m db) = tables db ∪ list_to_set (created (statements m)).
Proof. apply foldl_effect_tables. Qed.


(** A method that does not raise has run all its statements. *)
Lemma execute_completed (stmts : list Statement) (db : Store) :
  (execute raises stmts db).2 = Py.Ok () →
  execute raises stmts db = (foldl (λ db s, effect s db) db stmts, Py.Ok ()).
Proof.
  revert db. induction stmts as [|s stmts IH]; intros db; simpl; [done|].
  destruct (raises s db); [done|]. apply IH.
Qed.

Lemma call_completed (m : Method) (db : Store) :
  (call raises m db).2 = Py.Ok () → call raises m db = (completed m db, Py.Ok ()).
Proof. apply execute_completed. Qed.

(** A method without a [CREATE TABLE] leaves the tables as they are. *)
Lemma execute_tables (stmts : list Statement) (db : Store) :
  created stmts = [] → tables (execute raises stmts db).1 = tables db.
Proof.
  revert db. induction stmts as [|s stmts IH]; intros db Hc; simpl; [done|].
  destruct (raises s db); [done|].
  destruct s; try discriminate Hc; by rewrite IH.
Qed.

Lemma call_init_tables (db : Store) :
  tables (call raises Init db).1 = tables db.
Proof. by apply execute_tables. Qed.




End Store.

Section Run.
Context `{!pl.Casts}.
Variable BusinessProcessor_process : RawData → Py.Result unit.
Variable FinancialProcessor_process : RawData → Py.Result unit.
Variable EmploymentProcessor_process : RawData → Py.Result unit.
Variable raises : Main.Statement → Main.Store → option Py.Exception.
Variable fs : FileSystem.
Variable input_path : Path.

Let main := Main.main BusinessProcessor_process FinancialProcessor_process
              EmploymentProcessor_process raises fs input_path.


(** When the loader raises, the run ends there: the store has the
    schemas of the set-up at most and no new table, and the exit status
    is 1. *)
Lemma main_load_raises (db0 : Main.Store) e :
  DataLoader.load_all_data fs input_path = Py.Raise e →
  main db0 = ((Main.call raises Main.Init db0).1, Main.SysExit 1).
Proof.
  intros Hload. unfold main, Main.main, Main.try_block, Main.and_then.
  destruct (Main.call raises Main.Init db0) as [db [[]|e']]; [|done].
  by rewrite Hload.
Qed.

(** When the set-up, the loader, the business processor and the saving
    of its tables complete and the financial processor raises, the run
    ends with the business tables saved. *)
Lemma main_financial_raises (db0 : Main.Store) raw_data :
  (Main.call raises Main.Init db0).2 = Py.Ok () →
  DataLoader.load_all_data fs input_path = Py.Ok raw_data →
  BusinessProcessor_process raw_data = Py.Ok () →
  (Main.call raises Main.SaveBusinessData (Main.DuckDBManager db0)).2 = Py.Ok () →
  (∃ e, FinancialProcessor_process raw_data = Py.Raise e) →
  main db0 = (Main.save_business_data (Main.DuckDBManager db0), Main.SysExit 1).
Proof.
  intros Hinit Hload Hb Hsave [e Hf].
  unfold main, Main.main, Main.try_block, Main.and_then, Main.compute.
  rewrite (call_completed _ _ _ Hinit), Hload, Hb.
  fold (Main.DuckDBManager db0).
  by rewrite (call_completed _ _ _ Hsave), Hf.
Qed.

End Run.

(** ** Missing sources *)

Section MissingSources.
Context `{!pl.Casts}.
Import DataLoader.

Lemma load_participant_status_logs_raises (fs : FileSystem) (input_path : Path) :
  no_status_logs fs input_path →
  load_participant_status_logs fs input_path
  = Py.Raise (Py.FileNotFoundError "No participant status logs found").
Proof. unfold no_status_logs, load_participant_status_logs. by intros ->. Qed.

Lemma load_all_data_raises (fs : FileSystem) (input_path : Path) :
  no_status_logs fs input_path
  ∨ (∃ p, p ∈ journal_paths input_path ∧ fs !! p = None) →
  ∃ e, load_all_data fs input_path = Py.Raise e.
Proof.
  intros Hmiss. unfold load_all_data.
  destruct (load_participant_status_logs fs input_path) as [df|e] eqn:Hl;
    [|simpl; eauto].
  destruct Hmiss as [Hno|(p & Hp & Hnone)].
  { by rewrite load_participant_status_logs_raises in Hl. }
  unfold load_financial_journal, load_checkin_journal, load_travel_journal,
    load_social_network, read_csv.
  unfold journal_paths in Hp. simpl in Hp.
  repeat (apply elem_of_cons in Hp as [->|Hp];
          [repeat (first [rewrite Hnone | destruct (fs !! _) as [[?|?]|]];
                   simpl); eauto|]).
  by apply not_elem_of_nil in Hp.
Qed.

(** The loop of [load_attributes_data], from any dictionary. *)
Lemma load_attributes_raise (fs : FileSystem) (dir : Path)
    (l : list (string * string)) e :
  foldl (λ acc nf, attributes ← acc; load_attribute fs dir attributes nf)
        (Py.Raise e) l = Py.Raise e.
Proof. induction l as [|x l IH]; [done|]. exact IH. Qed.

Lemma load_attribute_cases (fs : FileSystem) (dir : Path)
    (m : gmap string Csv) (nf : string * string) :
  match fs !! (dir ++ [nf.2]) with
  | None => load_attribute fs dir m nf = Py.Ok (<[nf.1 := empty_frame]> m)
  | Some (Py.Ok df) => load_attribute fs dir m nf = Py.Ok (<[nf.1 := df]> m)
  | Some (Py.Raise e) => load_attribute fs dir m nf = Py.Raise e
  end.
Proof.
  unfold load_attribute, read_csv.
  by destruct (fs !! (dir ++ [nf.2])) as [[df|e]|].
Qed.

Lemma load_attributes_fold (fs : FileSystem) (dir : Path)
    (l : list (string * string)) (m m' : gmap string Csv) :
  NoDup l.*1 →
  foldl (λ acc nf, attributes ← acc; load_attribute fs dir attributes nf)
        (Py.Ok m) l = Py.Ok m' →
  (∀ name, name ∉ l.*1 → m' !! name = m !! name)
  ∧ ∀ nf, nf ∈ l →
      (fs !! (dir ++ [nf.2]) = None ∧ m' !! nf.1 = Some empty_frame)
      ∨ ∃ df, fs !! (dir ++ [nf.2]) = Some (Py.Ok df) ∧ m' !! nf.1 = Some df.
Proof.
  revert m. induction l as [|x l IH]; intros m Hnd Hfold.
  { injection Hfold as <-. split; [done|]. by intros nf ?%not_elem_of_nil. }
  rewrite fmap_cons in Hnd. apply NoDup_cons in Hnd as [Hx Hnd].
  cbn [foldl] in Hfold. simpl in Hfold.
  pose proof (load_attribute_cases fs dir m x) as Hcase.
  destruct (fs !! (dir ++ [x.2])) as [[df|e]|] eqn:Hfs; rewrite Hcase in Hfold.
  - destruct (IH _ Hnd Hfold) as [Hother Hin]. split.
    + intros name [Hne Hname]%not_elem_of_cons.
      by rewrite Hother, lookup_insert_ne.
    + intros nf [->|Hnf]%elem_of_cons; [|by apply Hin].
      right. exists df. split; [done|]. by rewrite Hother, lookup_insert_eq.
  - by rewrite load_attributes_raise in Hfold.
  - destruct (IH _ Hnd Hfold) as [Hother Hin]. split.
    + intros name [Hne Hname]%not_elem_of_cons.
      by rewrite Hother, lookup_insert_ne.
    + intros nf [->|Hnf]%elem_of_cons; [|by apply Hin].
      left. split; [done|]. by rewrite Hother, lookup_insert_eq.
Qed.

Lemma load_attributes_total (fs : FileSystem) (dir : Path)
    (l : list (string * string)) (m : gmap string Csv) :
  (∀ nf e, nf ∈ l → fs !! (dir ++ [nf.2]) ≠ Some (Py.Raise e)) →
  ∃ m', foldl (λ acc nf, attributes ← acc; load_attribute fs dir attributes nf)
              (Py.Ok m) l = Py.Ok m'.
Proof.
  revert m. induction l as [|x l IH]; intros m Hread; [by exists m|].
  cbn [foldl]. simpl.
  pose proof (load_attribute_cases fs dir m x) as Hcase.
  destruct (fs !! (dir ++ [x.2])) as [[df|e]|] eqn:Hfs; rewrite Hcase.
  - apply IH. intros nf e Hnf. apply Hread. by right.
  - destruct (Hread x e); [by left|done].
  - apply IH. intros nf e Hnf. apply Hread. by right.
Qed.

Lemma attribute_files_NoDup : NoDup attribute_files.*1.
Proof. apply (bool_decide_unpack _). by vm_compute. Qed.

(** Every attribute name is stored when the load returns: with the
    frame of its file when the file exists, with the empty frame when
    it does not. *)
Lemma load_attributes_data_lookup (fs : FileSystem) (input_path : Path)
    attributes nf :
  load_attributes_data fs input_path = Py.Ok attributes →
  nf ∈ attribute_files →
  (fs !! (datasets_path input_path ++ ["Attributes"; nf.2]) = None
   ∧ attributes !! nf.1 = Some empty_frame)
  ∨ ∃ df, fs !! (datasets_path input_path ++ ["Attributes"; nf.2])
          = Some (Py.Ok df)
          ∧ attributes !! nf.1 = Some df.
Proof.
  unfold load_attributes_data. intros Hload Hnf.
  destruct (load_attributes_fold _ _ _ _ _ attribute_files_NoDup Hload)
    as [_ Hin].
  specialize (Hin nf Hnf). by rewrite <- (assoc_L (++)) in Hin.
Qed.

(** The frames of a container that the loader returned. *)
Lemma load_all_data_inv (fs : FileSystem) (input_path : Path) raw_data :
  load_all_data fs input_path = Py.Ok raw_data →
  ∃ attributes,
    load_participant_status_logs fs input_path
      = Py.Ok (participant_status_logs raw_data)
    ∧ load_financial_journal fs input_path = Py.Ok (financial_journal raw_data)
    ∧ load_checkin_journal fs input_path = Py.Ok (checkin_journal raw_data)
    ∧ load_travel_journal fs input_path = Py.Ok (travel_journal raw_data)
    ∧ load_social_network fs input_path = Py.Ok (social_network raw_data)
    ∧ load_attributes_data fs input_path = Py.Ok attributes
    ∧ raw_data = {|
        participant_status_logs := participant_status_logs raw_data;
        financial_journal := financial_journal raw_data;
        checkin_journal := checkin_journal raw_data;
        travel_journal := travel_journal raw_data;
        social_network := social_network raw_data;
        participants := getitem attributes "participants";
        jobs := getitem attributes "jobs";
        employers := getitem attributes "employers";
        apartments := getitem attributes "apartments";
        buildings := getitem attributes "buildings";
        restaurants := getitem attributes "restaurants";
        pubs := getitem attributes "pubs";
        schools := getitem attributes "schools" |}.
Proof.
  unfold load_all_data.
  destruct (load_participant_status_logs fs input_path) as [logs|]; [|done].
  destruct (load_financial_journal fs input_path) as [fj|]; [|done].
  destruct (load_checkin_journal fs input_path) as [cj|]; [|done].
  destruct (load_travel_journal fs input_path) as [tj|]; [|done].
  destruct (load_social_network fs input_path) as [sn|]; [|done].
  destruct (load_attributes_data fs input_path) as [attributes|]; [|done].
  simpl. intros [= <-]. by exists attributes.
Qed.

(** Without [Jobs.csv] the wage analysis of the financial processor
    joins the status logs with a frame that has no [jobId] column. *)
Lemma financial_processor_needs_jobs (raw_data : RawData) :
  header (jobs raw_data) = [] →
  ∃ e, FinancialProcessor.process raw_data = Py.Raise e.
Proof.
  intros Hjobs. unfold FinancialProcessor.process.
  destruct (FinancialProcessor._calculate_participant_trajectories raw_data)
    as [?|e]; [|simpl; eauto]. simpl.
  destruct (FinancialProcessor._create_financial_groups raw_data)
    as [[]|e]; [|simpl; eauto]. simpl.
  assert (∃ e, FinancialProcessor._analyze_wage_patterns raw_data = Py.Raise e)
    as [e ->]; [|simpl; eauto].
  unfold FinancialProcessor._analyze_wage_patterns.
  destruct (pl.col _ ["jobId"]) as [[]|e] eqn:Hcol; [|simpl; eauto]. simpl.
  unfold pl.join. rewrite Hcol, Hjobs. simpl. eauto.
Qed.

(** C8, as the code has it. When no file matches the participant status
    log pattern or one of the four journal files does not exist, the
    loader raises; the run then exits with status 1, has created no
    table and is the same whatever the processors are, none of them
    being run. A missing attribute file raises nothing in the loader,
    which stores the empty frame for it. Without [Jobs.csv] the run
    fails later: once the set-up, the business processor and the saving
    of its tables have completed, the financial processor raises on the
    empty [jobs] frame, and the run exits with status 1 with the
    business tables saved. *)
Theorem missing_logs_or_journal_aborts
    (BusinessProcessor_process FinancialProcessor_process
       EmploymentProcessor_process : RawData → Py.Result unit)
    (raises : Main.Statement → Main.Store → option Py.Exception)
    (fs : FileSystem) (input_path : Path) (db0 : Main.Store) :
  (no_status_logs fs input_path
   ∨ (∃ p, p ∈ journal_paths input_path ∧ fs !! p = None) →
   (∃ e, load_all_data fs input_path = Py.Raise e)
   ∧ (Main.main BusinessProcessor_process FinancialProcessor_process
        EmploymentProcessor_process raises fs input_path db0).2
     = Main.SysExit 1
   ∧ Main.tables
       (Main.main BusinessProcessor_process FinancialProcessor_process
          EmploymentProcessor_process raises fs input_path db0).1
     = Main.tables db0
   ∧ ∀ B F E : RawData → Py.Result unit,
       Main.main B F E raises fs input_path db0
       = Main.main BusinessProcessor_process FinancialProcessor_process
           EmploymentProcessor_process raises fs input_path db0)
  ∧ (no_status_logs fs input_path →
     load_all_data fs input_path
     = Py.Raise (Py.FileNotFoundError "No participant status logs found"))
  ∧ (∀ nf, nf ∈ attribute_files →
       fs !! (datasets_path input_path ++ ["Attributes"; nf.2]) = None →
       ((∀ nf' e, nf' ∈ attribute_files →
           fs !! (datasets_path input_path ++ ["Attributes"; nf'.2])
           ≠ Some (Py.Raise e)) →
        ∃ attributes, load_attributes_data fs input_path = Py.Ok attributes)
       ∧ ∀ attributes,
           load_attributes_data fs input_path = Py.Ok attributes →
           attributes !! nf.1 = Some empty_frame)
  ∧ (∀ raw_data,
       fs !! (datasets_path input_path ++ ["Attributes"; "Jobs.csv"]) = None →
       load_all_data fs input_path = Py.Ok raw_data →
       BusinessProcessor_process raw_data = Py.Ok () →
       (Main.call raises Main.Init db0).2 = Py.Ok () →
       (Main.call raises Main.SaveBusinessData (Main.DuckDBManager db0)).2
       = Py.Ok () →
       jobs raw_data = empty_frame
       ∧ Main.main BusinessProcessor_process FinancialProcessor.process
           EmploymentProcessor_process raises fs input_path db0
         = (Main.save_business_data (Main.DuckDBManager db0), Main.SysExit 1)
       ∧ ∀ name,
           name ∈ ["business.trends"; "business.venue_performance";
                   "business.customer_patterns"; "business.revenue_indicators"] →
           name ∈ Main.tables (Main.save_business_data (Main.DuckDBManager db0))).
Proof.
  split_and!.
  - intros Hmiss. destruct (load_all_data_raises _ _ Hmiss) as [e Hraise].
    split_and!; [eauto|by rewrite (main_load_raises _ _ _ _ _ _ _ e)| |].
    + rewrite (main_load_raises _ _ _ _ _ _ _ e) by done.
      apply call_init_tables.
    + intros B F E. by rewrite !(main_load_raises _ _ _ _ _ _ _ e).
  - intros Hno. unfold load_all_data.
    by rewrite load_participant_status_logs_raises.
  - intros nf Hnf Hnone. split.
    + intros Hread. apply load_attributes_total. intros nf' e Hnf'.
      rewrite <- (assoc_L (++)). by apply Hread.
    + intros attributes Hload.
      destruct (load_attributes_data_lookup _ _ _ _ Hload Hnf)
        as [[_ ?]|(df & Hdf & _)]; [done|]. by rewrite Hnone in Hdf.
  - intros raw_data Hnone Hload Hb Hinit Hsave.
    assert (Hjobs : jobs raw_data = empty_frame).
    { destruct (load_all_data_inv _ _ _ Hload)
        as (attributes & _ & _ & _ & _ & _ & Hattr & ->). simpl.
      destruct (load_attributes_data_lookup _ _ _ ("jobs", "Jobs.csv") Hattr)
        as [[_ Hl]|(df & Hdf & _)].
      - unfold attribute_files. in_list.
      - unfold getitem. simpl in Hl. by rewrite Hl.
      - simpl in Hdf. by rewrite Hnone in Hdf. }
    split_and!; [done| |].
    + apply (main_financial_raises _ _ _ _ _ _ _ raw_data); try done.
      apply financial_processor_needs_jobs. by rewrite Hjobs.
    + intros name Hname. unfold Main.save_business_data.
      rewrite completed_tables. apply elem_of_union_r, elem_of_list_to_set.
      exact Hname.
Qed.

End MissingSources.

Lemma missing_logs_or_journal_aborts_witness :
  no_status_logs Sample.fs_without_logs Sample.input_path
  ∧ Sample.fs_without_jobs !! Sample.jobs_path = None
  ∧ (∀ (B F E : RawData → Py.Result unit) raises db0,
       (Main.main (H := PolarsModel.casts) B F E raises
          Sample.fs_without_logs Sample.input_path db0).2 = Main.SysExit 1
       ∧ Main.tables
           (Main.main (H := PolarsModel.casts) B F E raises
              Sample.fs_without_logs Sample.input_path db0).1
         = Main.tables db0)
  ∧ ∀ E,
      Main.main (H := PolarsModel.casts) BusinessProcessor.process
        FinancialProcessor.process E Sample.no_fault
        Sample.fs_without_jobs Sample.input_path Sample.new_store
      = (Main.save_business_data (Main.DuckDBManager Sample.new_store),
         Main.SysExit 1).
Proof.
  assert (Hno : no_status_logs Sample.fs_without_logs Sample.input_path)
    by (vm_compute; reflexivity).
  assert (Hjobs : Sample.fs_without_jobs !! Sample.jobs_path = None)
    by (vm_compute; reflexivity).
  split_and!; [exact Hno|exact Hjobs| |].
  - intros B F E raises db0.
    destruct (missing_logs_or_journal_aborts (H := PolarsModel.casts) B F E
                raises Sample.fs_without_logs Sample.input_path db0)
      as (Habort & _).
    destruct Habort as (_ & Hexit & Htables & _); [by left|]. by split.
  - intros E.
    destruct (missing_logs_or_journal_aborts (H := PolarsModel.casts)
                BusinessProcessor.process FinancialProcessor.process E
                Sample.no_fault Sample.fs_without_jobs Sample.input_path
                Sample.new_store) as (_ & _ & _ & Hpartial).
    edestruct Hpartial as (_ & Hmain & _); [exact Hjobs| | | | |exact Hmain];
      vm_compute; reflexivity.
Defined.

(** C8, as stated, fails: [Jobs.csv] is a required input that does not
    exist in [Sample.fs_without_jobs]. The loader raises nothing and
    returns with an empty [jobs] frame; the business processor runs and
    its four tables are saved; the financial processor then raises, and
    the run exits with status 1, leaving these tables in a store that
    had none. *)
Lemma missing_jobs_file_leaves_partial_results :
  missing_source Sample.fs_without_jobs Sample.input_path
  ∧ (∃ raw_data,
       DataLoader.load_all_data (H := PolarsModel.casts)
         Sample.fs_without_jobs Sample.input_path = Py.Ok raw_data
       ∧ jobs raw_data = empty_frame
       ∧ BusinessProcessor.process raw_data = Py.Ok ()
       ∧ FinancialProcessor.process raw_data
         = Py.Raise (Py.ColumnNotFoundError "jobId"))
  ∧ ∀ E,
      let run :=
        Main.main (H := PolarsModel.casts) BusinessProcessor.process
          FinancialProcessor.process E Sample.no_fault
          Sample.fs_without_jobs Sample.input_path Sample.new_store in
      run.2 = Main.SysExit 1
      ∧ Main.tables Sample.new_store = ∅
      ∧ Main.tables run.1
        = {["business.trends"; "business.venue_performance";
            "business.customer_patterns"; "business.revenue_indicators"]}
      ∧ Main.tables run.1 ≠ Main.tables Sample.new_store.
Proof.
  split_and!.
  - right. exists Sample.jobs_path. split; [|vm_compute; reflexivity].
    unfold journal_paths, attribute_paths. simpl. in_list.
  - eexists. split_and!; vm_compute; reflexivity.
  - intros E run.
    assert (Hrun : run = (Main.save_business_data
                            (Main.DuckDBManager Sample.new_store),
                          Main.SysExit 1)) by (vm_compute; reflexivity).
    rewrite Hrun. cbn [fst snd]. split_and!; [done|done|vm_compute; reflexivity|].
    intros Heq. assert (Hin : "business.trends" ∈ Main.tables Sample.new_store).
    { rewrite <- Heq. unfold Main.save_business_data.
      rewrite completed_tables. apply elem_of_union_r, elem_of_list_to_set.
      simpl. in_list. }
    by apply not_elem_of_empty in Hin.
Qed.

(** ** A status log of two batches *)

Section TwoBatches.
Context `{!pl.Casts}.
Import EmploymentProcessor.

(** A frame made of a full batch and of a shorter non-empty rest is cut
    into these two. *)
Lemma batch_logs_two {A} (t1 t2 : list A) (batch_size : Z) :
  Py.len t1 = batch_size → 0 < Py.len t2 <= batch_size →
  batch_logs (t1 ++ t2) batch_size = [t1; t2].
Proof.
  unfold Py.len. intros Hl1 Hl2. unfold batch_logs, Py.len.
  rewrite length_app, Nat2Z.inj_add.
  assert (batches (Z.of_nat (length t1) + Z.of_nat (length t2)) batch_size
          = [(0, batch_size); (batch_size, batch_size + Z.of_nat (length t2))])
    as ->.
  { apply list_eq. intros [|[|k]]; rewrite batches_lookup by lia.
    - rewrite decide_True by lia. simpl. do 2 f_equal. lia.
    - rewrite decide_True by lia. simpl. do 2 f_equal; lia.
    - rewrite decide_False by nia. done. }
  rewrite !fmap_cons, fmap_nil. unfold pl.slice. cbn [fst snd].
  rewrite Z.sub_0_r. change (Z.to_nat 0) with 0%nat. rewrite drop_0.
  rewrite take_app_length' by lia.
  rewrite drop_app_length' by lia.
  replace (batch_size + Z.of_nat (length t2) - batch_size)
    with (Z.of_nat (length t2)) by lia.
  by rewrite Nat2Z.id, firstn_all.
Qed.

Lemma group_partials_two (k : option Z * option string) (t1 t2 : list StatusLog)
    (batch_size : Z) :
  Py.len t1 = batch_size → 0 < Py.len t2 <= batch_size →
  (∀ r, r ∈ t1 ++ t2 → stability_key r = k) →
  group_partials k batch_size (t1 ++ t2) =
    [batch_stability_of k t1; batch_stability_of k t2].
Proof.
  intros Hl1 Hl2 Hkey. unfold group_partials.
  rewrite batch_logs_two by done. csimpl.
  rewrite !filter_all by (intros; apply Hkey, elem_of_app; auto).
  destruct t1; [unfold Py.len in *; simpl in *; lia|].
  destruct t2; [unfold Py.len in *; simpl in *; lia|]. done.
Qed.

(** The final stability frame of such a log when all its rows share one
    key: the one row that combines the two batch aggregates. *)
Lemma stability_rows_two (k : option Z * option string) (t1 t2 : list StatusLog)
    (batch_size : Z) row :
  Py.len t1 = batch_size → 0 < Py.len t2 <= batch_size →
  (∀ r, r ∈ t1 ++ t2 → stability_key r = k) →
  row ∈ pl.rows (analyze_employment_stability_batched batch_size (t1 ++ t2)) ↔
  row = stability_of k [batch_stability_of k t1; batch_stability_of k t2].
Proof.
  intros Hl1 Hl2 Hkey. rewrite stability_rows by lia. split.
  - intros (k' & (r & -> & Hr)%list_elem_of_fmap & ->).
    rewrite (Hkey r Hr). by rewrite group_partials_two.
  - intros ->. exists k. rewrite group_partials_two by done. split; [|done].
    destruct t2 as [|r t2]; [unfold Py.len in *; simpl in *; lia|].
    rewrite <- (Hkey r) by (apply elem_of_app; right; in_list).
    apply list_elem_of_fmap_2, elem_of_app. right. in_list.
Qed.

Lemma remove_dups_replicate `{EqDecision A} (n : nat) (x : A) :
  remove_dups (replicate (S n) x) = [x].
Proof.
  induction n as [|n IH]; [done|].
  rewrite replicate_S. simpl remove_dups.
  destruct (decide_rel _ _ _) as [_|Hn]; [exact IH|].
  destruct Hn. apply list_elem_of_here.
Qed.

Lemma n_unique_replicate `{EqDecision A} (n : nat) (x : option A) :
  (0 < n)%nat → pl.n_unique (replicate n x) = 1.
Proof.
  destruct n; [lia|]. intros _. unfold pl.n_unique.
  by rewrite remove_dups_replicate.
Qed.

Lemma drop_nulls_replicate {A} (n : nat) (x : A) :
  pl.drop_nulls (replicate n (Some x)) = replicate n x.
Proof.
  unfold pl.drop_nulls. induction n as [|n IH]; [done|]. csimpl. by rewrite IH.
Qed.

Lemma Qsum_replicate (n : nat) (q : Q) :
  (pl.Qsum (replicate n q) == inject_Z (Z.of_nat n) * q)%Q.
Proof.
  induction n as [|n IH]; [simpl; ring|].
  rewrite replicate_S. simpl pl.Qsum. rewrite IH, Nat2Z.inj_succ.
  unfold Z.succ. rewrite inject_Z_plus. ring.
Qed.

End TwoBatches.

Section TwoBatchGroups.
Context `{!pl.Casts}.
Import EmploymentProcessor.

Lemma len_replicate {A} (n : nat) (x : A) : Py.len (replicate n x) = Z.of_nat n.
Proof. unfold Py.len. by rewrite length_replicate. Qed.

Lemma key_replicate_app (n : nat) (r r' : StatusLog) :
  stability_key r' = stability_key r →
  ∀ x, x ∈ replicate n r ++ [r'] → stability_key x = stability_key r.
Proof.
  intros Hk x [Hx%elem_of_replicate_inv|Hx%list_elem_of_singleton]%elem_of_app;
    by subst.
Qed.

(** A full batch of one row followed by the same row once more: the
    re-aggregation adds the two per-batch distinct counts. *)
Lemma same_row_two_batches (n : nat) (r : StatusLog) (j : Z) :
  (0 < n)%nat → jobId r = Some j →
  let status_logs := replicate n r ++ [r] in
  let result := analyze_employment_stability_batched (Z.of_nat n) status_logs in
  (∃ row, row ∈ pl.rows result)
  ∧ (∀ row, row ∈ pl.rows result →
       (Stability.participantId row, Stability.month row) = stability_key r
       ∧ Stability.job_changes row = 2)
  ∧ SinglePass.distinct_jobs (stability_key r) status_logs = 1.
Proof.
  intros Hn Hj status_logs result.
  assert (Hrows : ∀ row, row ∈ pl.rows result ↔
            row = stability_of (stability_key r)
                    [batch_stability_of (stability_key r) (replicate n r);
                     batch_stability_of (stability_key r) [r]]).
  { intros row. apply stability_rows_two.
    - apply len_replicate.
    - unfold Py.len. simpl. lia.
    - by apply key_replicate_app. }
  split_and!.
  - eexists. by apply Hrows.
  - intros row ->%Hrows. split; [by destruct (stability_key r)|].
    unfold stability_of, batch_stability_of, pl.sum. simpl.
    rewrite fmap_replicate, n_unique_replicate by done. reflexivity.
  - unfold SinglePass.distinct_jobs, SinglePass.group_rows.
    rewrite filter_all by (by apply key_replicate_app).
    subst status_logs. rewrite <- replicate_S_end, fmap_replicate, Hj.
    by rewrite drop_nulls_replicate, remove_dups_replicate.
Qed.

Lemma mean_replicate_one (n : nat) :
  (0 < n)%nat → pl.mean (replicate n (Some 1%Q)) = Some 1%Q.
Proof.
  intros Hn. unfold pl.mean. rewrite drop_nulls_replicate.
  destruct n as [|m]; [lia|]. rewrite replicate_S. f_equal.
  transitivity (Qred 1); [|reflexivity]. apply Qred_complete.
  rewrite <- replicate_S, Qsum_replicate, len_replicate. field.
  change 0%Q with (inject_Z 0). rewrite inject_Z_injective. lia.
Qed.

Lemma drop_nulls_app {A} (c1 c2 : list (option A)) :
  pl.drop_nulls (c1 ++ c2) = pl.drop_nulls c1 ++ pl.drop_nulls c2.
Proof. apply omap_app. Qed.

Lemma mean_replicate_one_zero (n : nat) :
  (1 < n)%nat → pl.mean (replicate n (Some 1%Q) ++ [Some 0%Q]) ≠ Some (1 # 2)%Q.
Proof.
  intros Hn. unfold pl.mean.
  rewrite drop_nulls_app, drop_nulls_replicate.
  change (pl.drop_nulls [Some 0%Q]) with [0%Q].
  destruct n as [|m]; [lia|]. rewrite replicate_S. simpl app.
  intros [= Hred]. change (1 # 2)%Q with (Qred (1 # 2)) in Hred.
  apply Qred_eq_iff in Hred. revert Hred.
  rewrite app_comm_cons, <- replicate_S.
  assert (pl.Qsum (replicate (S m) 1%Q ++ [0%Q]) == inject_Z (Z.of_nat (S m)))%Q
    as ->.
  { generalize (S m). intros k. induction k as [|k IH]; [done|].
    rewrite replicate_S. simpl app. simpl pl.Qsum. rewrite IH.
    rewrite Nat2Z.inj_succ. unfold Z.succ. rewrite inject_Z_plus. ring. }
  unfold Py.len. rewrite length_app, length_replicate. simpl length.
  intros Heq.
  assert (inject_Z (Z.of_nat (S m))
          == (1 # 2) * inject_Z (Z.of_nat (S m + 1)))%Q as Hz.
  { rewrite <- Heq. field.
    change 0%Q with (inject_Z 0). rewrite inject_Z_injective. lia. }
  unfold Qeq in Hz. simpl in Hz. lia.
Qed.

(** A full batch of employed rows followed by one row without a job:
    the re-aggregation averages the two per-batch rates. *)
Lemma lost_job_two_batches (n : nat) (r r' : StatusLog) :
  (1 < n)%nat → is_employed r = true → is_employed r' = false →
  stability_key r' = stability_key r →
  let status_logs := replicate n r ++ [r'] in
  let result := analyze_employment_stability_batched (Z.of_nat n) status_logs in
  (∃ row, row ∈ pl.rows result)
  ∧ (∀ row, row ∈ pl.rows result →
       (Stability.participantId row, Stability.month row) = stability_key r
       ∧ Stability.employment_rate row = Some (1 # 2)%Q)
  ∧ SinglePass.employment_rate (stability_key r) status_logs ≠ Some (1 # 2)%Q.
Proof.
  intros Hn Hr Hr' Hk status_logs result.
  assert (Hrows : ∀ row, row ∈ pl.rows result ↔
            row = stability_of (stability_key r)
                    [batch_stability_of (stability_key r) (replicate n r);
                     batch_stability_of (stability_key r) [r']]).
  { intros row. apply stability_rows_two.
    - apply len_replicate.
    - unfold Py.len. simpl. lia.
    - by apply key_replicate_app. }
  split_and!.
  - eexists. by apply Hrows.
  - intros row ->%Hrows. split; [by destruct (stability_key r)|].
    unfold stability_of, batch_stability_of. simpl.
    rewrite fmap_replicate, Hr, Hr'.
    change (Some (inject_Z (pl.of_bool true))) with (Some 1%Q).
    rewrite mean_replicate_one by lia. reflexivity.
  - unfold SinglePass.employment_rate, SinglePass.group_rows.
    rewrite filter_all by (by apply key_replicate_app).
    subst status_logs. rewrite fmap_app, fmap_replicate, Hr. simpl. rewrite Hr'.
    by apply mean_replicate_one_zero.
Qed.

(** The single pass over one row repeated. *)
Lemma single_pass_replicate (n : nat) (r : StatusLog) row :
  row ∈ SinglePass.stability (replicate (S n) r) →
  (Stability.participantId row, Stability.month row) = stability_key r
  ∧ Stability.job_changes row = 1.
Proof.
  unfold SinglePass.stability.
  intros (kg & -> & [Hk _]%elem_of_group_by)%list_elem_of_fmap.
  rewrite fmap_replicate in Hk. apply elem_of_replicate_inv in Hk.
  rewrite Hk. split; [by destruct (stability_key r)|].
  cbn [Stability.job_changes]. unfold SinglePass.group_rows.
  rewrite filter_all by (by intros x ->%elem_of_replicate_inv).
  rewrite fmap_replicate. apply n_unique_replicate. lia.
Qed.

End TwoBatchGroups.

(** ** Results that depend on the batch boundaries *)

Section Divergences.
Import EmploymentProcessor.

Lemma employed_key :
  stability_key (H := PolarsModel.casts) Sample.employed = Sample.march.
Proof. vm_compute. reflexivity. Qed.

Lemma unemployed_key :
  stability_key (H := PolarsModel.casts) Sample.unemployed = Sample.march.
Proof. vm_compute. reflexivity. Qed.

Lemma batch_size_nat : Z.of_nat (Z.to_nat batch_size) = batch_size.
Proof. apply Z2Nat.id. unfold batch_size. lia. Qed.

Lemma batch_size_gt_1 : (1 < Z.to_nat batch_size)%nat.
Proof. unfold batch_size. lia. Qed.

(** C3 (defect). With the batch size of the
    source, a status log of 5,000,001 identical rows of participant 1 in
    March 2022 at job 7 gives the result row job_changes = 2, while one
    job identifier is observed for that participant and month; the same
    happens with three such rows cut in batches of two. *)
Theorem job_changes_counted_once_per_batch :
  (let status_logs := Sample.batch_and_one Sample.employed Sample.employed in
   let result := _analyze_employment_stability (H := PolarsModel.casts) status_logs in
   (∃ row, row ∈ pl.rows result)
   ∧ (∀ row, row ∈ pl.rows result →
        (Stability.participantId row, Stability.month row) = Sample.march
        ∧ Stability.job_changes row = 2)
   ∧ SinglePass.distinct_jobs (H := PolarsModel.casts) Sample.march status_logs
     = 1)
  ∧ pl.rows (analyze_employment_stability_batched (H := PolarsModel.casts)
               2 Sample.same_job)
    = [{| Stability.participantId := Some 1;
          Stability.month := Some "2022-03";
          Stability.employment_rate := Some 1%Q;
          Stability.job_changes := 2;
          Stability.avg_balance := Some (75 # 2)%Q;
          Stability.stability_score := Some 1%Q |}]
  ∧ SinglePass.distinct_jobs (H := PolarsModel.casts) Sample.march Sample.same_job
    = 1.
Proof.
  split; [|split; vm_compute; reflexivity].
  intros status_logs result. subst status_logs result.
  unfold _analyze_employment_stability, Sample.batch_and_one.
  set (n := Z.to_nat batch_size). rewrite <- batch_size_nat. fold n.
  rewrite <- employed_key.
  apply (same_row_two_batches (H := PolarsModel.casts) n _ 7).
  - pose proof batch_size_gt_1. lia.
  - reflexivity.
Qed.

(** C2 (defect). With the batch size of the
    source, 5,000,000 rows of participant 1 in March 2022 at a job
    followed by one row of the same month without a job give the
    employment_rate 1/2, the unweighted average of the per-batch rates 1
    and 0, which differs from the rate over all the rows; three such
    rows cut in batches of two give the rate 1/2 and the balance 75/2
    where the means over the rows are 2/3 and 30. *)
Theorem means_averaged_without_weights :
  (let status_logs := Sample.batch_and_one Sample.employed Sample.unemployed in
   let result := _analyze_employment_stability (H := PolarsModel.casts) status_logs in
   (∃ row, row ∈ pl.rows result)
   ∧ (∀ row, row ∈ pl.rows result →
        (Stability.participantId row, Stability.month row) = Sample.march
        ∧ Stability.employment_rate row = Some (1 # 2)%Q)
   ∧ SinglePass.employment_rate (H := PolarsModel.casts) Sample.march status_logs
     ≠ Some (1 # 2)%Q)
  ∧ pl.rows (analyze_employment_stability_batched (H := PolarsModel.casts)
               2 Sample.lost_job)
    = [{| Stability.participantId := Some 1;
          Stability.month := Some "2022-03";
          Stability.employment_rate := Some (1 # 2)%Q;
          Stability.job_changes := 2;
          Stability.avg_balance := Some (75 # 2)%Q;
          Stability.stability_score := Some (1 # 2)%Q |}]
  ∧ SinglePass.employment_rate (H := PolarsModel.casts) Sample.march Sample.lost_job
    = Some (2 # 3)%Q
  ∧ SinglePass.avg_balance (H := PolarsModel.casts) Sample.march Sample.lost_job
    = Some 30%Q.
Proof.
  split; [|split_and!; vm_compute; reflexivity].
  intros status_logs result. subst status_logs result.
  unfold _analyze_employment_stability, Sample.batch_and_one.
  set (n := Z.to_nat batch_size). rewrite <- batch_size_nat. fold n.
  rewrite <- employed_key.
  apply (lost_job_two_batches (H := PolarsModel.casts) n).
  - apply batch_size_gt_1.
  - reflexivity.
  - reflexivity.
  - by rewrite employed_key, unemployed_key.
Qed.

(** C1 (defect). With the batch size of the
    source and 5,000,001 identical rows, the batched stability frame has
    job_changes = 2 where the single pass has 1; with three rows of one
    participant at one job, batches of two rows and one batch of three
    rows give different stability and turnover frames, the latter equal
    to those of the single pass. *)
Theorem batching_changes_results :
  (let status_logs := Sample.batch_and_one Sample.employed Sample.employed in
   (∃ row, row ∈ pl.rows (_analyze_employment_stability (H := PolarsModel.casts)
                            status_logs))
   ∧ (∀ row,
        row ∈ pl.rows (_analyze_employment_stability (H := PolarsModel.casts)
                         status_logs) →
        Stability.job_changes row = 2)
   ∧ (∀ row, row ∈ SinglePass.stability (H := PolarsModel.casts) status_logs →
        Stability.job_changes row = 1))
  ∧ (Stability.job_changes
       <$> pl.rows (analyze_employment_stability_batched (H := PolarsModel.casts)
                      2 Sample.same_job)) = [2]
  ∧ (Stability.job_changes
       <$> pl.rows (analyze_employment_stability_batched (H := PolarsModel.casts)
                      3 Sample.same_job)) = [1]
  ∧ pl.rows (analyze_employment_stability_batched (H := PolarsModel.casts)
               3 Sample.same_job)
    = SinglePass.stability (H := PolarsModel.casts) Sample.same_job
  ∧ (Turnover.new_hires
       <$> pl.rows (calculate_turnover_rates_batched (H := PolarsModel.casts)
                      2 Sample.same_job Sample.jobs)) = [2]
  ∧ (Turnover.new_hires
       <$> pl.rows (calculate_turnover_rates_batched (H := PolarsModel.casts)
                      3 Sample.same_job Sample.jobs)) = [1]
  ∧ pl.rows (calculate_turnover_rates_batched (H := PolarsModel.casts)
               3 Sample.same_job Sample.jobs)
    = SinglePass.turnover (H := PolarsModel.casts) Sample.same_job Sample.jobs.
Proof.
  split; [|split_and!; vm_compute; reflexivity].
  intros status_logs. subst status_logs.
  unfold _analyze_employment_stability, Sample.batch_and_one.
  set (n := Z.to_nat batch_size). rewrite <- batch_size_nat. fold n.
  destruct (same_row_two_batches (H := PolarsModel.casts) n Sample.employed 7)
    as (Hex & Hall & _); [pose proof batch_size_gt_1; lia|reflexivity|].
  split_and!.
  - exact Hex.
  - intros row Hrow. by apply Hall.
  - intros row Hrow. rewrite <- replicate_S_end in Hrow.
    by apply single_pass_replicate in Hrow as [_ ?].
Qed.

Lemma undated_key :
  stability_key (H := PolarsModel.casts) Sample.undated = (Some 1, None).
Proof. vm_compute. reflexivity. Qed.

(** C10 (defect). A row whose timestamp does not parse is kept with a
    null timestamp and falls in the group of its participant and the
    null month. With the batch size of the source, 5,000,001 such rows
    of participant 1, all at job 7, give that group job_changes = 2,
    while the rows of the group hold one job identifier. Three such rows
    cut in batches of two give job_changes = 2 and avg_balance = 75/2
    where the aggregates over the three rows are 1 and 30, and, when the
    last row has no job, employment_rate = 1/2 where the rate over the
    three rows is 2/3. *)
Theorem absent_month_metrics_depend_on_batches :
  (timestamp Sample.undated = None ∧ participantId Sample.undated = Some 1
   ∧ jobId Sample.undated = Some 7)
  ∧ (let status_logs := Sample.batch_and_one Sample.undated Sample.undated in
     let result :=
       _analyze_employment_stability (H := PolarsModel.casts) status_logs in
     absent_rows (Some 1) status_logs = status_logs
     ∧ (∃ row, row ∈ pl.rows result)
     ∧ (∀ row, row ∈ pl.rows result →
          (Stability.participantId row, Stability.month row) = (Some 1, None)
          ∧ Stability.job_changes row = 2)
     ∧ pl.n_unique (jobId <$> absent_rows (Some 1) status_logs) = 1)
  ∧ (absent_rows (Some 1) Sample.undated_same_job = Sample.undated_same_job
     ∧ pl.rows (analyze_employment_stability_batched (H := PolarsModel.casts)
                  2 Sample.undated_same_job)
       = [{| Stability.participantId := Some 1;
             Stability.month := None;
             Stability.employment_rate := Some 1%Q;
             Stability.job_changes := 2;
             Stability.avg_balance := Some (75 # 2)%Q;
             Stability.stability_score := Some 1%Q |}]
     ∧ pl.n_unique (jobId <$> absent_rows (Some 1) Sample.undated_same_job) = 1
     ∧ pl.mean (availableBalance <$> absent_rows (Some 1) Sample.undated_same_job)
       = Some 30%Q)
  ∧ (absent_rows (Some 1) Sample.undated_lost_job = Sample.undated_lost_job
     ∧ (Stability.employment_rate
          <$> pl.rows (analyze_employment_stability_batched
                         (H := PolarsModel.casts) 2 Sample.undated_lost_job))
       = [Some (1 # 2)%Q]
     ∧ pl.mean ((λ r, Some (inject_Z (pl.of_bool (is_employed r))))
                  <$> absent_rows (Some 1) Sample.undated_lost_job)
       = Some (2 # 3)%Q).
Proof.
  split; [by vm_compute|].
  split; [|split; split_and!; vm_compute; reflexivity].
  intros status_logs result. subst status_logs result.
  unfold _analyze_employment_stability, Sample.batch_and_one.
  set (n := Z.to_nat batch_size). rewrite <- batch_size_nat. fold n.
  assert (Hn : (1 < n)%nat) by apply batch_size_gt_1. clearbody n.
  assert (Hall : absent_rows (Some 1) (replicate n Sample.undated ++ [Sample.undated])
                 = replicate n Sample.undated ++ [Sample.undated]).
  { apply filter_all. rewrite <- replicate_S_end.
    by intros x ->%elem_of_replicate_inv. }
  rewrite Hall, <- undated_key.
  destruct (same_row_two_batches (H := PolarsModel.casts) n Sample.undated 7)
    as (Hex & Hrows & _); [lia|reflexivity|].
  split_and!; [reflexivity|exact Hex|exact Hrows|].
  rewrite <- replicate_S_end, fmap_replicate. apply n_unique_replicate. lia.
Qed.

End Divergences.

(** * Further properties of the sources *)

(** ** The batches as data *)

Section BatchFrames.
Import EmploymentProcessor.

Lemma batch_logs_in {A} (status_logs : list A) (batch_size : Z) b :
  0 < batch_size → b ∈ batch_logs status_logs batch_size →
  ∃ k : nat,
    Z.of_nat k * batch_size < Py.len status_logs
    ∧ b = pl.slice status_logs (Z.of_nat k * batch_size)
            (Z.min (Z.of_nat k * batch_size + batch_size) (Py.len status_logs)
             - Z.of_nat k * batch_size).
Proof.
  intros Hsize. unfold batch_logs.
  intros (p & -> & (k & Hk)%list_elem_of_lookup)%list_elem_of_fmap.
  rewrite batches_lookup in Hk by done. case_decide; [|done].
  injection Hk as <-. by exists k.
Qed.

(** X1. For a positive batch size the batches of the loop, put end to
    end, are the status log, and every batch holds at least one row and
    at most [batch_size] rows. *)
Theorem batch_logs_partition {A} (status_logs : list A) (batch_size : Z) :
  0 < batch_size →
  concat (batch_logs status_logs batch_size) = status_logs
  ∧ ∀ b, b ∈ batch_logs status_logs batch_size → 0 < Py.len b <= batch_size.
Proof.
  intros Hsize. split; [by apply batch_logs_concat|].
  intros b (k & Hk & ->)%batch_logs_in; [|done].
  unfold pl.slice, Py.len in *. rewrite length_take, length_drop. lia.
Qed.

Lemma batch_logs_partition_witness :
  batch_logs [1; 2; 3; 4; 5] 2 = [[1; 2]; [3; 4]; [5]]
  ∧ concat (batch_logs [1; 2; 3; 4; 5] 2) = [1; 2; 3; 4; 5].
Proof.
  split; [reflexivity|]. by apply (batch_logs_partition [1; 2; 3; 4; 5] 2).
Defined.

Lemma batch_logs_subset {A} (status_logs : list A) (batch_size : Z) b x :
  b ∈ batch_logs status_logs batch_size → x ∈ b → x ∈ status_logs.
Proof.
  unfold batch_logs, pl.slice.
  intros (p & -> & _)%list_elem_of_fmap Hx.
  by eapply subseteq_drop, subseteq_take.
Qed.

Lemma filter_none {A} (P : A → Prop) `{∀ x, Decision (P x)} (l : list A) :
  (∀ x, x ∈ l → ¬ P x) → filter P l = [].
Proof.
  induction l as [|x l IH]; intros Hall; [done|].
  rewrite filter_cons, decide_False by (apply Hall; in_list).
  apply IH. intros; apply Hall; by apply list_elem_of_further.
Qed.

End BatchFrames.

(** ** The stability frame *)

Section StabilityFrame.
Context `{!pl.Casts}.
Import EmploymentProcessor.

Lemma stability_of_key k g : stability_row_key (stability_of k g) = k.
Proof. by destruct k. Qed.

Lemma group_by_keys `{EqDecision K} {A} (key : A → K) (t : list A) :
  (pl.group_by key t).*1 = remove_dups (key <$> t).
Proof.
  unfold pl.group_by. rewrite <- list_fmap_compose. apply list_fmap_id.
Qed.

Lemma stability_frame_keys (batch_size : Z) (status_logs : list StatusLog) :
  stability_row_key
    <$> pl.rows (analyze_employment_stability_batched batch_size status_logs)
  = remove_dups
      (batch_key <$> concat (all_stability_data batch_size status_logs)).
Proof.
  rewrite stability_rows_pool, <- group_by_keys, <- list_fmap_compose.
  apply list_fmap_ext. intros _ [k g] _. apply stability_of_key.
Qed.

(** X2. For a positive batch size the final stability frame has exactly
    one row for every (participantId, month) key of the status log, and
    no row for any other key: which keys appear does not depend on how
    the log is cut in batches. *)
Theorem stability_one_row_per_key (batch_size : Z) (status_logs : list StatusLog) :
  0 < batch_size →
  let keys :=
    stability_row_key
      <$> pl.rows (analyze_employment_stability_batched batch_size status_logs) in
  NoDup keys ∧ ∀ k, k ∈ keys ↔ k ∈ stability_key <$> status_logs.
Proof.
  intros Hsize keys. subst keys. rewrite stability_frame_keys.
  split; [apply NoDup_remove_dups|].
  intros k. rewrite elem_of_remove_dups. by apply pool_keys.
Qed.

End StabilityFrame.

Lemma stability_one_row_per_key_witness :
  stability_row_key
    <$> pl.rows (EmploymentProcessor.analyze_employment_stability_batched
                   (H := PolarsModel.casts) 2 Sample.lost_job)
  = [Sample.march]
  ∧ NoDup (stability_row_key
             <$> pl.rows (EmploymentProcessor.analyze_employment_stability_batched
                            (H := PolarsModel.casts) 2 Sample.lost_job)).
Proof.
  split; [vm_compute; reflexivity|].
  by apply (stability_one_row_per_key (H := PolarsModel.casts) 2 Sample.lost_job).
Defined.

Section StabilityValues.
Context `{!pl.Casts}.
Import EmploymentProcessor.

Lemma elem_of_drop_nulls {A} (col : list (option A)) (x : A) :
  x ∈ pl.drop_nulls col ↔ Some x ∈ col.
Proof.
  unfold pl.drop_nulls. rewrite list_elem_of_omap. split.
  - intros (o & Ho & Hid). simpl in Hid. by subst.
  - intros Hx. by exists (Some x).
Qed.

Lemma Qsum_bounds (l : list Q) (lo hi : Q) :
  (∀ q, q ∈ l → (lo <= q <= hi)%Q) →
  (inject_Z (Py.len l) * lo <= pl.Qsum l <= inject_Z (Py.len l) * hi)%Q.
Proof.
  unfold Py.len. induction l as [|x l IH]; intros Hall.
  - simpl. split; rewrite Qmult_0_l; apply Qle_refl.
  - destruct (Hall x) as [Hlo Hhi]; [in_list|].
    destruct IH as [IHlo IHhi];
      [intros; apply Hall; by apply list_elem_of_further|].
    rewrite length_cons, Nat2Z.inj_succ. unfold Z.succ.
    rewrite inject_Z_plus. simpl pl.Qsum. split.
    + setoid_replace ((inject_Z (Z.of_nat (length l)) + inject_Z 1) * lo)%Q
        with (lo + inject_Z (Z.of_nat (length l)) * lo)%Q
        using relation Qeq by ring.
      by apply Qplus_le_compat.
    + setoid_replace ((inject_Z (Z.of_nat (length l)) + inject_Z 1) * hi)%Q
        with (hi + inject_Z (Z.of_nat (length l)) * hi)%Q
        using relation Qeq by ring.
      by apply Qplus_le_compat.
Qed.

(** A mean lies between any two bounds of the values it averages. *)
Lemma mean_bounds (col : list (option Q)) (lo hi m : Q) :
  (∀ q, Some q ∈ col → (lo <= q <= hi)%Q) →
  pl.mean col = Some m → (lo <= m <= hi)%Q.
Proof.
  intros Hall. unfold pl.mean.
  destruct (pl.drop_nulls col) as [|v vs] eqn:Hd; [done|]. intros [= <-].
  destruct (Qsum_bounds (v :: vs) lo hi) as [Hlo Hhi].
  { intros q Hq. apply Hall, elem_of_drop_nulls. by rewrite Hd. }
  assert (0 < inject_Z (Py.len (v :: vs)))%Q as Hpos.
  { change 0%Q with (inject_Z 0). rewrite <- Zlt_Qlt.
    unfold Py.len. simpl. lia. }
  rewrite Qred_correct. split.
  - apply Qle_shift_div_l; [done|]. by rewrite Qmult_comm.
  - apply Qle_shift_div_r; [done|]. by rewrite Qmult_comm.
Qed.

Lemma n_unique_pos `{EqDecision A} (col : list (option A)) :
  col ≠ [] → 1 <= pl.n_unique col.
Proof.
  intros Hne. unfold pl.n_unique, Py.len.
  destruct (remove_dups col) as [|x l] eqn:Hr; [|simpl; lia].
  destruct col as [|y col]; [done|].
  assert (y ∈ remove_dups (y :: col)) as Hy
    by (apply elem_of_remove_dups; in_list).
  rewrite Hr in Hy. by apply not_elem_of_nil in Hy.
Qed.

Lemma sum_lower (col : list Z) (lo : Z) :
  (∀ x, x ∈ col → lo <= x) →
  Py.len col * lo <= pl.sum (Some <$> col).
Proof.
  unfold pl.sum, pl.drop_nulls, Py.len.
  induction col as [|x col IH]; intros Hall; [simpl; lia|].
  rewrite length_cons, Nat2Z.inj_succ. csimpl.
  specialize (Hall x ltac:(in_list)) as Hx.
  specialize (IH ltac:(intros; apply Hall; by apply list_elem_of_further)).
  lia.
Qed.

(** What the pool of per-batch rows holds: aggregates of non-empty
    groups. *)
Lemma pool_elem (batch_size : Z) (status_logs : list StatusLog) s :
  s ∈ concat (all_stability_data batch_size status_logs) →
  ∃ k g, g ≠ [] ∧ s = batch_stability_of k g.
Proof.
  rewrite all_stability_data_concat.
  intros (l & (b & -> & _)%list_elem_of_fmap & Hs)%elem_of_concat.
  rewrite batch_stability_groups in Hs.
  apply list_elem_of_fmap in Hs as (kg & -> & [Hk Hg]%elem_of_group_by).
  exists kg.1, kg.2. split; [|done]. rewrite Hg. by apply group_not_nil.
Qed.

Lemma batch_rate_bounds k (g : list StatusLog) q :
  BatchStability.employment_rate (batch_stability_of k g) = Some q →
  (0 <= q <= 1)%Q.
Proof.
  simpl. apply mean_bounds.
  intros x (r & [= ->] & _)%list_elem_of_fmap.
  unfold pl.of_bool. by destruct (is_employed r).
Qed.

(** X3. Every row of the final stability frame has an employment_rate
    that is not null and lies between 0 and 1, a stability_score equal
    to it, and a job_changes count of at least 1. *)
Theorem stability_row_ranges (batch_size : Z) (status_logs : list StatusLog) row :
  row ∈ pl.rows (analyze_employment_stability_batched batch_size status_logs) →
  (∃ q, Stability.employment_rate row = Some q ∧ (0 <= q <= 1)%Q)
  ∧ Stability.stability_score row = Stability.employment_rate row
  ∧ 1 <= Stability.job_changes row.
Proof.
  rewrite stability_rows_pool.
  intros (kg & -> & [Hk Hg]%elem_of_group_by)%list_elem_of_fmap.
  assert (Hne : kg.2 ≠ []) by (rewrite Hg; by apply group_not_nil).
  assert (Hin : ∀ s, s ∈ kg.2 → ∃ k g, g ≠ [] ∧ s = batch_stability_of k g).
  { intros s Hs. rewrite Hg in Hs. apply list_elem_of_filter in Hs as [_ Hs].
    by eapply pool_elem. }
  split_and!; [|done|].
  - destruct (mean_is_Some (BatchStability.employment_rate <$> kg.2)) as [q Hq].
    + by intros ?%fmap_nil_inv.
    + intros x (s & -> & (k & g & Hgne & ->)%Hin)%list_elem_of_fmap.
      by apply batch_employment_rate_is_Some.
    + exists q. split; [exact Hq|]. eapply mean_bounds; [|exact Hq].
      intros x (s & Hx & (k & g & Hgne & ->)%Hin)%list_elem_of_fmap.
      by eapply batch_rate_bounds.
  - simpl. rewrite (list_fmap_compose BatchStability.job_changes Some).
    etransitivity; [|apply (sum_lower _ 1)].
    + unfold Py.len. rewrite length_fmap. destruct kg.2; [done|]. simpl. lia.
    + intros x (s & -> & (k & g & Hgne & ->)%Hin)%list_elem_of_fmap.
      simpl. apply n_unique_pos. by intros ?%fmap_nil_inv.
Qed.

End StabilityValues.

Lemma stability_row_ranges_witness :
  ∃ row,
    row ∈ pl.rows (EmploymentProcessor.analyze_employment_stability_batched
                     (H := PolarsModel.casts) 2 Sample.lost_job)
    ∧ Stability.employment_rate row = Some (1 # 2)%Q
    ∧ Stability.stability_score row = Stability.employment_rate row
    ∧ 1 <= Stability.job_changes row.
Proof.
  eexists. split; [vm_compute; apply list_elem_of_here|].
  split; [reflexivity|].
  eapply (stability_row_ranges (H := PolarsModel.casts) 2 Sample.lost_job).
  vm_compute. apply list_elem_of_here.
Defined.

Section StabilityOneBatch.
Context `{!pl.Casts}.
Import EmploymentProcessor.

Lemma stability_of_singleton k (g : list StatusLog) :
  stability_of k [batch_stability_of k g]
  = with_stability_score (batch_stability_of k g).
Proof.
  destruct k as [p m]. unfold stability_of, with_stability_score. simpl.
  rewrite !mean_mean. f_equal. unfold pl.sum. simpl. lia.
Qed.

(** X4. When the status log fits in one batch the re-aggregation changes
    nothing: the final stability frame holds the rows of the per-batch
    aggregation of the whole log, each with its stability_score. *)
Theorem stability_single_batch (batch_size : Z) (status_logs : list StatusLog) row :
  0 < batch_size → Py.len status_logs <= batch_size →
  row ∈ pl.rows (analyze_employment_stability_batched batch_size status_logs) ↔
  row ∈ with_stability_score <$> batch_stability status_logs.
Proof.
  intros Hsize Hlen. rewrite stability_rows by done.
  rewrite batch_stability_groups, <- list_fmap_compose, list_elem_of_fmap.
  destruct status_logs as [|r0 t].
  { split; [by intros (k & ?%not_elem_of_nil & _)|].
    by intros (kg & _ & ?%not_elem_of_nil). }
  assert (Hpart : ∀ k, k ∈ stability_key <$> r0 :: t →
            group_partials k batch_size (r0 :: t)
            = [batch_stability_of k (filter (λ r, stability_key r = k) (r0 :: t))]).
  { intros k Hk. unfold group_partials.
    rewrite batch_logs_single by (unfold Py.len in *; simpl in *; lia).
    csimpl. pose proof (group_not_nil stability_key (r0 :: t) k Hk) as Hne.
    by destruct (filter _ (r0 :: t)). }
  split.
  - intros (k & Hk & ->). rewrite Hpart by done.
    exists (k, filter (λ r, stability_key r = k) (r0 :: t)).
    split; [apply stability_of_singleton|]. by apply elem_of_group_by.
  - intros (kg & -> & [Hk Hg]%elem_of_group_by). exists kg.1.
    split; [done|]. rewrite Hpart by done. simpl.
    by rewrite stability_of_singleton, Hg.
Qed.

End StabilityOneBatch.

Lemma stability_single_batch_witness :
  pl.rows (EmploymentProcessor._analyze_employment_stability
             (H := PolarsModel.casts) Sample.lost_job)
  = with_stability_score
      <$> EmploymentProcessor.batch_stability (H := PolarsModel.casts)
            Sample.lost_job
  ∧ ∀ row,
      row ∈ pl.rows (EmploymentProcessor._analyze_employment_stability
                       (H := PolarsModel.casts) Sample.lost_job) ↔
      row ∈ with_stability_score
              <$> EmploymentProcessor.batch_stability (H := PolarsModel.casts)
                    Sample.lost_job.
Proof.
  split; [vm_compute; reflexivity|]. intros row.
  apply (stability_single_batch (H := PolarsModel.casts)); [reflexivity|].
  vm_compute. discriminate.
Defined.

Section JobChanges.
Context `{!pl.Casts}.
Import EmploymentProcessor.

Lemma n_unique_le_len `{EqDecision A} (col : list (option A)) :
  pl.n_unique col <= Py.len col.
Proof.
  unfold pl.n_unique, Py.len. apply inj_le, submseteq_length, NoDup_submseteq.
  - apply NoDup_remove_dups.
  - intros x. by rewrite elem_of_remove_dups.
Qed.

Lemma n_unique_app `{EqDecision A} (c1 c2 : list (option A)) :
  pl.n_unique (c1 ++ c2) <= pl.n_unique c1 + pl.n_unique c2.
Proof.
  unfold pl.n_unique, Py.len. rewrite <- Nat2Z.inj_add, <- length_app.
  apply inj_le, submseteq_length, NoDup_submseteq.
  - apply NoDup_remove_dups.
  - intros x. rewrite elem_of_app, !elem_of_remove_dups. apply elem_of_app.
Qed.

Lemma partials_job_changes (k : option Z * option string)
    (bl : list (list StatusLog)) :
  let parts :=
    omap (λ b, match filter (λ r, stability_key r = k) b with
               | [] => None
               | g => Some (batch_stability_of k g)
               end) bl in
  let group := filter (λ r, stability_key r = k) (concat bl) in
  pl.n_unique (jobId <$> group)
  <= pl.sum ((λ s, Some (BatchStability.job_changes s)) <$> parts)
  <= Py.len group.
Proof.
  induction bl as [|b bl IH]; [by vm_compute|].
  cbv zeta in *. rewrite concat_cons, filter_app, fmap_app. csimpl.
  pose proof (n_unique_app (jobId <$> filter (λ r, stability_key r = k) b)
                (jobId <$> filter (λ r, stability_key r = k) (concat bl))) as Happ.
  pose proof (n_unique_le_len (jobId <$> filter (λ r, stability_key r = k) b))
    as Hle.
  revert Happ Hle. unfold Py.len in *. rewrite length_app, !length_fmap.
  destruct (filter (λ r, stability_key r = k) b) as [|r g] eqn:Hg.
  - intros _ _. simpl. exact IH.
  - intros Happ Hle. unfold pl.sum in *. csimpl in *.
    rewrite Nat2Z.inj_succ, Nat2Z.inj_add.
    rewrite Nat2Z.inj_succ in Hle. lia.
Qed.

(** X5. For a positive batch size the job_changes of the row of a key
    lies between the number of distinct jobId values of the rows of
    that key in the whole status log (null counting as one value) and
    the number of these rows: batching can only raise the count. *)
Theorem job_changes_bounds (batch_size : Z) (status_logs : list StatusLog) row :
  0 < batch_size →
  row ∈ pl.rows (analyze_employment_stability_batched batch_size status_logs) →
  let group :=
    filter (λ r, stability_key r = stability_row_key row) status_logs in
  pl.n_unique (jobId <$> group) <= Stability.job_changes row <= Py.len group.
Proof.
  intros Hsize (k & Hk & ->)%stability_rows; [|done]. intros group.
  subst group. rewrite stability_of_key.
  pose proof (partials_job_changes k (batch_logs status_logs batch_size)) as Hb.
  cbv zeta in Hb. by rewrite batch_logs_concat in Hb.
Qed.

End JobChanges.

Lemma job_changes_bounds_witness :
  ∃ row,
    row ∈ pl.rows (EmploymentProcessor.analyze_employment_stability_batched
                     (H := PolarsModel.casts) 2 Sample.same_job)
    ∧ 1 <= Stability.job_changes row <= 3.
Proof.
  eexists. split; [vm_compute; apply list_elem_of_here|].
  match goal with
  | |- _ <= Stability.job_changes ?r <= _ =>
      assert (Hin : r ∈ pl.rows
                (EmploymentProcessor.analyze_employment_stability_batched
                   (H := PolarsModel.casts) 2 Sample.same_job))
        by (vm_compute; apply list_elem_of_here);
      pose proof (job_changes_bounds (H := PolarsModel.casts) 2
                    Sample.same_job r eq_refl Hin) as Hb
  end.
  vm_compute in Hb. vm_compute. exact Hb.
Defined.

Section StabilityNonEmpty.
Context `{!pl.Casts}.
Import EmploymentProcessor.

(** X6. For a positive batch size the final stability frame is empty
    exactly when the status log is, and for a status log with at least
    one row it has the six columns that end with stability_score. *)
Theorem stability_frame_nonempty (batch_size : Z) (status_logs : list StatusLog) :
  0 < batch_size →
  let result := analyze_employment_stability_batched batch_size status_logs in
  (pl.rows result = [] ↔ status_logs = [])
  ∧ (status_logs ≠ [] →
     pl.columns result = ["participantId"; "month"; "employment_rate";
                          "job_changes"; "avg_balance"; "stability_score"]).
Proof.
  intros Hsize result.
  assert (Hrow : ∀ r, r ∈ status_logs → ∃ row, row ∈ pl.rows result).
  { intros r Hr. eexists. apply stability_rows; [done|].
    exists (stability_key r). split; [|done]. by apply list_elem_of_fmap_2. }
  split.
  - split.
    + intros Hnil. destruct status_logs as [|r t]; [done|].
      destruct (Hrow r) as [row Hin]; [in_list|].
      rewrite Hnil in Hin. by apply not_elem_of_nil in Hin.
    + intros Ht. destruct (pl.rows result) as [|row rows] eqn:Hrows; [done|].
      assert (row ∈ pl.rows result) as Hin by (rewrite Hrows; in_list).
      apply stability_rows in Hin as (k & Hk & _); [|done].
      rewrite Ht in Hk. by apply not_elem_of_nil in Hk.
  - intros Hne. destruct status_logs as [|r t]; [done|].
    destruct (Hrow r) as [row Hin]; [in_list|]. revert Hin. subst result.
    unfold analyze_employment_stability_batched.
    destruct (all_stability_data _ _); [by intros ?%not_elem_of_nil|done].
Qed.

End StabilityNonEmpty.

Lemma stability_frame_nonempty_witness :
  Sample.lost_job ≠ []
  ∧ pl.columns (EmploymentProcessor._analyze_employment_stability
                  (H := PolarsModel.casts) Sample.lost_job)
    = ["participantId"; "month"; "employment_rate"; "job_changes";
       "avg_balance"; "stability_score"].
Proof.
  assert (Hne : Sample.lost_job ≠ []) by (vm_compute; discriminate).
  split; [exact Hne|].
  by apply (stability_frame_nonempty (H := PolarsModel.casts)
              EmploymentProcessor.batch_size Sample.lost_job).
Defined.

(** ** The jobs lookup *)

Section JobsLookup.
Import EmploymentProcessor.

Lemma jobs_lookup_snoc (jobs : list Job) (j : Job) :
  jobs_lookup (jobs ++ [j]) = <[job_jobId j := job_employerId j]> (jobs_lookup jobs).
Proof. unfold jobs_lookup. by rewrite foldl_app. Qed.

Lemma jobs_lookup_last (jobs : list Job) (k : Z) :
  jobs_lookup jobs !! k
  = job_employerId <$> last (filter (λ j, job_jobId j = k) jobs).
Proof.
  induction jobs as [|j jobs IH] using rev_ind; [done|].
  rewrite jobs_lookup_snoc, filter_app, filter_cons, filter_nil.
  destruct (decide (job_jobId j = k)) as [<-|Hne].
  - by rewrite lookup_insert_eq, last_snoc.
  - by rewrite lookup_insert_ne, app_nil_r.
Qed.

(** X7. The jobs lookup maps a jobId to the employerId of the last row
    of the jobs frame with that jobId, and has no entry for a jobId
    that no row carries. *)
Theorem jobs_lookup_last_row (jobs : list Job) (k : Z) :
  jobs_lookup jobs !! k
  = job_employerId <$> last (filter (λ j, job_jobId j = k) jobs)
  ∧ (jobs_lookup jobs !! k = None ↔ ∀ j, j ∈ jobs → job_jobId j ≠ k).
Proof.
  split; [apply jobs_lookup_last|]. rewrite jobs_lookup_last.
  rewrite fmap_None, last_None. split.
  - intros Hnil j Hj Hk.
    assert (j ∈ filter (λ j, job_jobId j = k) jobs) as Hin
      by (by apply list_elem_of_filter).
    rewrite Hnil in Hin. by apply not_elem_of_nil in Hin.
  - intros Hall. apply filter_none. intros j Hj Hk. by eapply Hall.
Qed.

Lemma jobs_lookup_Some (jobs : list Job) (k e : Z) :
  jobs_lookup jobs !! k = Some e →
  ∃ j, j ∈ jobs ∧ job_jobId j = k ∧ job_employerId j = e.
Proof.
  rewrite jobs_lookup_last.
  destruct (last _) as [j|] eqn:Hlast; [|done]. intros [= <-].
  apply last_Some_elem_of, list_elem_of_filter in Hlast as [Hk Hj]. eauto.
Qed.

End JobsLookup.

(** ** The turnover frames *)

Section TurnoverFrames.
Context `{!pl.Casts}.
Import EmploymentProcessor.

(** X8. When no row of the status log has a jobId that the jobs lookup
    resolves (in particular when no row has a jobId, or the jobs frame
    is empty), every batch is skipped and the result is the empty
    turnover frame with its five columns. *)
Theorem turnover_empty_without_resolved_jobs (batch_size : Z)
    (status_logs : list StatusLog) (jobs : list Job) :
  (∀ r, r ∈ status_logs → jobId r ≫= (jobs_lookup jobs !!.) = None) →
  calculate_turnover_rates_batched batch_size status_logs jobs
  = {| pl.columns := ["month"; "employerId"; "new_hires"; "avg_tenure_days";
                      "turnover_rate"];
       pl.rows := [] |}.
Proof.
  intros Hnone. unfold calculate_turnover_rates_batched.
  assert (all_turnover_data batch_size status_logs jobs = []) as ->; [|done].
  unfold all_turnover_data.
  assert (Hb : ∀ b, b ∈ batch_logs status_logs batch_size →
            turnover_batch (jobs_lookup jobs) b = None).
  { intros b Hb. unfold turnover_batch.
    case_decide; [done|]. rewrite decide_True; [done|].
    rewrite filter_fmap, filter_none; [done|].
    intros x Hx. simpl. unfold pl.unique in Hx.
    rewrite elem_of_remove_dups in Hx.
    apply list_elem_of_fmap in Hx as (r & -> & Hr).
    apply list_elem_of_filter in Hr as [_ Hr]. simpl.
    rewrite (Hnone r); [by intros [? [=]]|]. by eapply batch_logs_subset. }
  induction (batch_logs status_logs batch_size) as [|b bl IH]; [done|].
  csimpl. rewrite (Hb b) by in_list.
  apply IH. intros; apply Hb; by apply list_elem_of_further.
Qed.

End TurnoverFrames.

Lemma turnover_empty_without_resolved_jobs_witness :
  EmploymentProcessor._calculate_turnover_rates (H := PolarsModel.casts)
    Sample.same_job []
  = {| pl.columns := ["month"; "employerId"; "new_hires"; "avg_tenure_days";
                      "turnover_rate"];
       pl.rows := [] |}.
Proof.
  apply (turnover_empty_without_resolved_jobs (H := PolarsModel.casts)).
  intros r _. by destruct (jobId r).
Defined.

Section TenureRecords.
Context `{!pl.Casts}.
Import EmploymentProcessor.

Lemma min_attained (col : list (option Z)) s :
  pl.min col = Some s → Some s ∈ col ∧ ∀ x, Some x ∈ col → s <= x.
Proof.
  unfold pl.min. destruct (pl.drop_nulls col) as [|v vs] eqn:Hd; [done|].
  intros [= <-].
  assert (foldr Z.min v vs ∈ v :: vs ∧ ∀ x, x ∈ v :: vs → foldr Z.min v vs <= x)
    as [Hin Hle].
  { clear Hd. induction vs as [|y vs [IHin IHle]]; simpl.
    - split; [in_list|]. by intros x ->%list_elem_of_singleton.
    - split.
      + destruct (Z.min_spec y (foldr Z.min v vs)) as [[_ ->]|[_ ->]].
        * apply list_elem_of_further, list_elem_of_here.
        * apply elem_of_cons in IHin as [->|?]; [in_list|].
          by do 2 apply list_elem_of_further.
      + intros x [->|[->|Hx]%elem_of_cons]%elem_of_cons.
        * specialize (IHle v ltac:(in_list)). lia.
        * lia.
        * specialize (IHle x ltac:(by apply list_elem_of_further)). lia. }
  rewrite <- Hd in Hin, Hle. split.
  - by apply elem_of_drop_nulls.
  - intros x Hx. by apply Hle, elem_of_drop_nulls.
Qed.

Lemma max_attained (col : list (option Z)) e :
  pl.max col = Some e → Some e ∈ col ∧ ∀ x, Some x ∈ col → x <= e.
Proof.
  unfold pl.max. destruct (pl.drop_nulls col) as [|v vs] eqn:Hd; [done|].
  intros [= <-].
  assert (foldr Z.max v vs ∈ v :: vs ∧ ∀ x, x ∈ v :: vs → x <= foldr Z.max v vs)
    as [Hin Hle].
  { clear Hd. induction vs as [|y vs [IHin IHle]]; simpl.
    - split; [in_list|]. by intros x ->%list_elem_of_singleton.
    - split.
      + destruct (Z.max_spec y (foldr Z.max v vs)) as [[_ ->]|[_ ->]].
        * apply elem_of_cons in IHin as [->|?]; [in_list|].
          by do 2 apply list_elem_of_further.
        * apply list_elem_of_further, list_elem_of_here.
      + intros x [->|[->|Hx]%elem_of_cons]%elem_of_cons.
        * specialize (IHle v ltac:(in_list)). lia.
        * lia.
        * specialize (IHle x ltac:(by apply list_elem_of_further)). lia. }
  rewrite <- Hd in Hin, Hle. split.
  - by apply elem_of_drop_nulls.
  - intros x Hx. by apply Hle, elem_of_drop_nulls.
Qed.

Lemma tenure_of_key k g : tenure_key (tenure_of k g) = k.
Proof. by destruct k as [[??]?]. Qed.

(** The employment periods of a batch: the distinct observations with a
    jobId that the lookup resolves. *)
Lemma employment_period_in (lookup : gmap Z Z) (b : list StatusLog)
    (x : option Z * option Z * option Z * option Z) :
  x ∈ filter (λ r, is_Some r.2)
        ((λ r, (r, r.2 ≫= (lookup !!.)))
           <$> pl.unique ((λ r, (participantId r, timestamp r, jobId r))
                            <$> filter (λ r, is_Some (jobId r)) b)) ↔
  ∃ r j e, r ∈ b ∧ jobId r = Some j ∧ lookup !! j = Some e
           ∧ x = (participantId r, timestamp r, Some j, Some e).
Proof.
  rewrite list_elem_of_filter, list_elem_of_fmap. unfold pl.unique. split.
  - intros [[e He] (y & -> & Hy)]. rewrite elem_of_remove_dups in Hy.
    apply list_elem_of_fmap in Hy as (r & -> & [[j Hj] Hr]%list_elem_of_filter).
    simpl in *. rewrite Hj in He |- *. simpl in *. exists r, j, e.
    by rewrite He.
  - intros (r & j & e & Hr & Hj & He & ->). split; [by eexists|].
    exists (participantId r, timestamp r, Some j). simpl. rewrite He.
    split; [done|]. rewrite elem_of_remove_dups, list_elem_of_fmap.
    exists r. rewrite Hj. split; [done|]. apply list_elem_of_filter.
    by rewrite Hj.
Qed.

Lemma turnover_batch_frame (lookup : gmap Z Z) (b : list StatusLog)
    (g : list Tenure.row) :
  turnover_batch lookup b = Some g →
  g ≠ []
  ∧ NoDup (tenure_key <$> g)
  ∧ ∀ rec, rec ∈ g →
      ∃ j e s f,
        Tenure.jobId rec = Some j ∧ Tenure.employerId rec = Some e
        ∧ lookup !! j = Some e
        ∧ Tenure.start_date rec = Some s ∧ Tenure.end_date rec = Some f
        ∧ Tenure.start_month rec = Some (pl.strftime_Ym s)
        ∧ Tenure.tenure_days rec = Some ((f - s) `quot` us_per_day)
        ∧ (∃ r, r ∈ b ∧ participantId r = Tenure.participantId rec
                ∧ jobId r = Some j ∧ timestamp r = Some s)
        ∧ (∃ r, r ∈ b ∧ participantId r = Tenure.participantId rec
                ∧ jobId r = Some j ∧ timestamp r = Some f)
        ∧ ∀ r ts, r ∈ b → participantId r = Tenure.participantId rec →
            jobId r = Some j → timestamp r = Some ts → s <= ts <= f.
Proof.
  unfold turnover_batch. repeat case_decide; try done.
  set (periods := filter _ (_ <$> pl.unique _)) in *.
  intros [= <-]. split_and!.
  - intros Hnil.
    match goal with Hlen : Py.len _ > 0 |- _ => rewrite Hnil in Hlen; done end.
  - rewrite filter_fmap, <- list_fmap_compose.
    rewrite (list_fmap_ext _ fst)
      by (intros _ [k grp] _; apply tenure_of_key).
    eapply sublist_NoDup; [|apply fmap_sublist, sublist_filter].
    rewrite group_by_keys. apply NoDup_remove_dups.
  - intros rec [Hd (kg & -> & [Hk Hg]%elem_of_group_by)%list_elem_of_fmap]
             %list_elem_of_filter.
    apply list_elem_of_fmap in Hk as (x & Hkx & Hx).
    pose proof Hx as Hx'.
    apply employment_period_in in Hx' as (r0 & j & e & Hr0 & Hj0 & He0 & ->).
    simpl in Hkx. destruct kg as [k grp]. simpl in Hkx, Hg. subst k.
    revert Hd. simpl.
    destruct (pl.max _) as [f|] eqn:Hmax; [|done].
    destruct (pl.min _) as [s|] eqn:Hmin; [|done]. intros _.
    apply min_attained in Hmin as [Hsin Hsle].
    apply max_attained in Hmax as [Hfin Hfle].
    assert (Hgrp : ∀ x, x ∈ grp ↔
              ∃ r, r ∈ b ∧ participantId r = participantId r0
                   ∧ jobId r = Some j
                   ∧ x = (participantId r, timestamp r, Some j, Some e)).
    { intros x. rewrite Hg, list_elem_of_filter.
      unfold periods. rewrite employment_period_in. split.
      - intros [Hkey (r & j' & e' & Hr & Hj & He & ->)]. simpl in Hkey.
        injection Hkey as Hp -> ->. exists r. by rewrite Hp.
      - intros (r & Hr & Hp & Hj & ->). simpl. rewrite Hp. split; [done|].
        exists r, j, e. by rewrite Hp. }
    exists j, e, s, f. split_and!; try done.
    + apply list_elem_of_fmap in Hsin as (x & Hs & (r & ? & ? & ? & ->)%Hgrp).
      simpl in Hs. eauto.
    + apply list_elem_of_fmap in Hfin as (x & Hf & (r & ? & ? & ? & ->)%Hgrp).
      simpl in Hf. eauto.
    + intros r ts Hr Hp Hj Hts.
      assert ((participantId r, timestamp r, Some j, Some e) ∈ grp) as Hin
        by (apply Hgrp; eauto).
      split; [apply Hsle|apply Hfle]; rewrite <- Hts;
        apply (list_elem_of_fmap_2 (λ r, r.1.1.2) _ _ Hin).
Qed.

(** X9. A tenure frame appended by a batch is not empty and has one
    record per (participantId, jobId, employerId). In every record the
    jobId is not null, the employerId is what the jobs lookup gives for
    it, the start and end dates are the earliest and the latest
    timestamp observed in the batch for that participant at that job,
    the start month is the month of the start date and the tenure is
    the whole number of days between the two dates. *)
Theorem batch_tenure_records (lookup : gmap Z Z) (b : list StatusLog)
    (g : list Tenure.row) :
  turnover_batch lookup b = Some g →
  g ≠ []
  ∧ NoDup (tenure_key <$> g)
  ∧ ∀ rec, rec ∈ g →
      ∃ j e s f,
        Tenure.jobId rec = Some j ∧ Tenure.employerId rec = Some e
        ∧ lookup !! j = Some e
        ∧ Tenure.start_date rec = Some s ∧ Tenure.end_date rec = Some f
        ∧ Tenure.start_month rec = Some (pl.strftime_Ym s)
        ∧ Tenure.tenure_days rec = Some ((f - s) `quot` us_per_day)
        ∧ (∃ r, r ∈ b ∧ participantId r = Tenure.participantId rec
                ∧ jobId r = Some j ∧ timestamp r = Some s)
        ∧ (∃ r, r ∈ b ∧ participantId r = Tenure.participantId rec
                ∧ jobId r = Some j ∧ timestamp r = Some f)
        ∧ ∀ r ts, r ∈ b → participantId r = Tenure.participantId rec →
            jobId r = Some j → timestamp r = Some ts → s <= ts <= f.
Proof. apply turnover_batch_frame. Qed.

End TenureRecords.

Lemma batch_tenure_records_witness :
  ∃ g,
    EmploymentProcessor.turnover_batch (H := PolarsModel.casts)
      (EmploymentProcessor.jobs_lookup Sample.jobs) Sample.same_job = Some g
    ∧ g ≠ [] ∧ NoDup (tenure_key <$> g).
Proof.
  eexists. split; [vm_compute; reflexivity|].
  edestruct (batch_tenure_records (H := PolarsModel.casts)
               (EmploymentProcessor.jobs_lookup Sample.jobs) Sample.same_job)
    as (Hne & Hnd & _); [vm_compute; reflexivity|].
  split; [exact Hne|exact Hnd].
Defined.

Section TurnoverRows.
Context `{!pl.Casts}.
Import EmploymentProcessor.

Lemma turnover_rows_pool (batch_size : Z) (status_logs : list StatusLog)
    (jobs : list Job) :
  pl.rows (calculate_turnover_rates_batched batch_size status_logs jobs)
  = (λ kg, turnover_of kg.1 kg.2)
      <$> pl.group_by (λ t, (Tenure.start_month t, Tenure.employerId t))
            (concat (all_turnover_data batch_size status_logs jobs)).
Proof.
  unfold calculate_turnover_rates_batched.
  by destruct (all_turnover_data batch_size status_logs jobs).
Qed.

Lemma turnover_pool_record (batch_size : Z) (status_logs : list StatusLog)
    (jobs : list Job) rec :
  rec ∈ concat (all_turnover_data batch_size status_logs jobs) →
  ∃ j e s f,
    Tenure.jobId rec = Some j ∧ Tenure.employerId rec = Some e
    ∧ jobs_lookup jobs !! j = Some e
    ∧ Tenure.start_month rec = Some (pl.strftime_Ym s)
    ∧ Tenure.tenure_days rec = Some ((f - s) `quot` us_per_day)
    ∧ s <= f.
Proof.
  intros (g & Hg & Hrec)%elem_of_concat. unfold all_turnover_data in Hg.
  apply list_elem_of_omap in Hg as (b & _ & Hb).
  destruct (turnover_batch_frame _ _ _ Hb) as (_ & _ & Hall).
  destruct (Hall rec Hrec)
    as (j & e & s & f & ? & ? & ? & ? & ? & ? & ? & (r & ? & ? & ? & Hts) & _ & Hle).
  exists j, e, s, f. split_and!; try done. by eapply Hle.
Qed.

Lemma turnover_of_key k g : turnover_row_key (turnover_of k g) = k.
Proof. by destruct k. Qed.

Lemma Qsum_nonneg (l : list Q) :
  (∀ q, q ∈ l → (0 <= q)%Q) → (0 <= pl.Qsum l)%Q.
Proof.
  induction l as [|x l IH]; intros Hall; [apply Qle_refl|]. simpl.
  change 0%Q with (0 + 0)%Q. apply Qplus_le_compat.
  - apply Hall. in_list.
  - apply IH. intros; apply Hall; by apply list_elem_of_further.
Qed.

Lemma mean_nonneg (col : list (option Q)) (m : Q) :
  (∀ q, Some q ∈ col → (0 <= q)%Q) → pl.mean col = Some m → (0 <= m)%Q.
Proof.
  intros Hall. unfold pl.mean.
  destruct (pl.drop_nulls col) as [|v vs] eqn:Hd; [done|]. intros [= <-].
  rewrite Qred_correct. apply Qle_shift_div_l.
  - change 0%Q with (inject_Z 0). rewrite <- Zlt_Qlt. unfold Py.len. simpl. lia.
  - rewrite Qmult_0_l. apply (Qsum_nonneg (v :: vs)). intros q Hq.
    apply Hall, elem_of_drop_nulls. by rewrite Hd.
Qed.

(** X10. Every row of the final turnover frame has a month that is not
    null and is the month of a start date, an employerId that is not
    null and is the employer of a row of the jobs frame, and a mean
    tenure that is not null and not negative. *)
Theorem turnover_row_fields (batch_size : Z) (status_logs : list StatusLog)
    (jobs : list Job) row :
  row ∈ pl.rows (calculate_turnover_rates_batched batch_size status_logs jobs) →
  (∃ s, Turnover.month row = Some (pl.strftime_Ym s))
  ∧ (∃ job, job ∈ jobs ∧ Turnover.employerId row = Some (job_employerId job))
  ∧ (∃ q, Turnover.avg_tenure_days row = Some q ∧ (0 <= q)%Q).
Proof.
  rewrite turnover_rows_pool.
  intros (kg & -> & [Hk Hg]%elem_of_group_by)%list_elem_of_fmap.
  apply list_elem_of_fmap in Hk as (rec & Hkey & Hrec).
  destruct (turnover_pool_record _ _ _ _ Hrec)
    as (j & e & s & f & _ & He & Hj & Hm & _ & _).
  split_and!.
  - exists s. simpl. by rewrite Hkey.
  - apply jobs_lookup_Some in Hj as (job & ? & _ & <-).
    exists job. split; [done|]. simpl. by rewrite Hkey.
  - assert (Hcol : ∀ x, x ∈ (λ t, inject_Z <$> Tenure.tenure_days t) <$> kg.2 →
              ∃ d, x = Some (inject_Z d) ∧ 0 <= d).
    { intros x (t & -> & Ht)%list_elem_of_fmap. rewrite Hg in Ht.
      apply list_elem_of_filter in Ht as [_ Ht].
      destruct (turnover_pool_record _ _ _ _ Ht)
        as (_ & _ & s' & f' & _ & _ & _ & _ & -> & Hle).
      eexists. split; [done|]. apply Z.quot_pos; [lia|done]. }
    destruct (mean_is_Some ((λ t, inject_Z <$> Tenure.tenure_days t) <$> kg.2))
      as [q Hq].
    + intros Hnil%fmap_nil_inv. revert Hnil. rewrite Hg.
      apply group_not_nil. rewrite Hkey.
      apply (list_elem_of_fmap_2
               (λ t, (Tenure.start_month t, Tenure.employerId t)) _ _ Hrec).
    + intros x (d & -> & _)%Hcol. eauto.
    + exists q. split; [exact Hq|]. eapply mean_nonneg; [|exact Hq].
      intros x (d & [= ->] & Hd)%Hcol.
      change 0%Q with (inject_Z 0). by rewrite <- Zle_Qle.
Qed.

Lemma group_sizes `{EqDecision K} {A} (key : A → K) (t : list A) (ks : list K) :
  NoDup ks →
  foldr Z.add 0 ((λ k, Py.len (filter (λ r, key r = k) t)) <$> ks)
  = Py.len (filter (λ r, key r ∈ ks) t).
Proof.
  unfold Py.len. induction 1 as [|k ks Hk Hnd IH].
  - rewrite filter_none; [done|]. intros x _ Hx. by apply not_elem_of_nil in Hx.
  - rewrite fmap_cons. cbn [foldr]. rewrite IH, <- Nat2Z.inj_add. f_equal.
    clear IH. induction t as [|r t IHt]; [by rewrite !filter_nil|].
    rewrite !filter_cons. destruct (decide (key r = k)) as [Hrk|Hrk].
    + rewrite (decide_True (P := key r ∈ k :: ks)) by (rewrite Hrk; in_list).
      rewrite (decide_False (P := key r ∈ ks)) by (by rewrite Hrk).
      simpl. by rewrite IHt.
    + destruct (decide (key r ∈ ks)) as [Hin|Hout].
      * rewrite (decide_True (P := key r ∈ k :: ks))
          by (by apply list_elem_of_further).
        simpl. rewrite <- IHt. lia.
      * rewrite (decide_False (P := key r ∈ k :: ks))
          by (by intros [?|?]%elem_of_cons).
        done.
Qed.

(** X11. The final turnover frame has one row per (month, employerId),
    and the new_hires of its rows add up to the number of tenure records
    of all the batches: a participant whose time at a job spans several
    batches is counted once per batch. *)
Theorem turnover_rows_partition (batch_size : Z) (status_logs : list StatusLog)
    (jobs : list Job) :
  let rows :=
    pl.rows (calculate_turnover_rates_batched batch_size status_logs jobs) in
  NoDup (turnover_row_key <$> rows)
  ∧ foldr Z.add 0 (Turnover.new_hires <$> rows)
    = Py.len (concat (all_turnover_data batch_size status_logs jobs)).
Proof.
  intros rows. subst rows. rewrite turnover_rows_pool.
  set (pool := concat _). set (key := λ t, (Tenure.start_month t, Tenure.employerId t)).
  split.
  - rewrite <- list_fmap_compose.
    rewrite (list_fmap_ext _ fst) by (intros _ [k g] _; apply turnover_of_key).
    rewrite group_by_keys. apply NoDup_remove_dups.
  - unfold pl.group_by. rewrite <- !list_fmap_compose.
    rewrite (list_fmap_ext _ (λ k, Py.len (filter (λ r, key r = k) pool)))
      by done.
    rewrite group_sizes by apply NoDup_remove_dups.
    rewrite filter_all; [done|].
    intros r Hr. rewrite elem_of_remove_dups. by apply list_elem_of_fmap_2.
Qed.

End TurnoverRows.

Lemma turnover_row_fields_witness :
  ∃ row,
    row ∈ pl.rows (EmploymentProcessor.calculate_turnover_rates_batched
                     (H := PolarsModel.casts) 2 Sample.same_job Sample.jobs)
    ∧ Turnover.month row = Some "2022-03"
    ∧ ∃ job, job ∈ Sample.jobs
             ∧ Turnover.employerId row = Some (job_employerId job).
Proof.
  eexists. split; [vm_compute; apply list_elem_of_here|].
  split; [reflexivity|].
  eapply (turnover_row_fields (H := PolarsModel.casts) 2 Sample.same_job
            Sample.jobs).
  vm_compute. apply list_elem_of_here.
Defined.

Lemma turnover_rows_partition_witness :
  Turnover.new_hires
    <$> pl.rows (EmploymentProcessor.calculate_turnover_rates_batched
                   (H := PolarsModel.casts) 2 Sample.same_job Sample.jobs) = [2]
  ∧ Py.len (concat (EmploymentProcessor.all_turnover_data
                      (H := PolarsModel.casts) 2 Sample.same_job Sample.jobs)) = 2
  ∧ NoDup (turnover_row_key
             <$> pl.rows (EmploymentProcessor.calculate_turnover_rates_batched
                            (H := PolarsModel.casts) 2 Sample.same_job Sample.jobs)).
Proof.
  split; [vm_compute; reflexivity|]. split; [vm_compute; reflexivity|].
  apply (turnover_rows_partition (H := PolarsModel.casts) 2 Sample.same_job
           Sample.jobs).
Defined.

(** ** The loader: which files are read *)

Section Glob.

Lemma string_app_cons (a : ascii) (s1 s2 : string) :
  String a s1 +:+ s2 = String a (s1 +:+ s2).
Proof. reflexivity. Qed.

Lemma string_app_assoc (s1 s2 s3 : string) :
  (s1 +:+ s2) +:+ s3 = s1 +:+ s2 +:+ s3.
Proof.
  induction s1 as [|a s1 IH]; [done|]. rewrite !string_app_cons. by f_equal.
Qed.

Lemma string_app_nil_r (s : string) : s +:+ EmptyString = s.
Proof.
  induction s as [|a s IH]; [done|]. rewrite string_app_cons. by f_equal.
Qed.

Lemma string_prefix_app (s1 s2 : string) :
  String.prefix s1 s2 = true ↔ ∃ r, s2 = s1 +:+ r.
Proof.
  revert s2. induction s1 as [|a s1 IH]; intros s2.
  - split; [by exists s2|by destruct s2].
  - destruct s2 as [|b s2]; simpl; [split; [done|by intros [? [=]]]|].
    destruct (ascii_dec a b) as [->|Hne].
    + rewrite IH. split; intros [r Hr]; exists r.
      * rewrite string_app_cons. by rewrite Hr.
      * rewrite string_app_cons in Hr. by injection Hr.
    + split; [done|]. intros [r Hr]. rewrite string_app_cons in Hr.
      injection Hr as ? _. done.
Qed.

Lemma string_rev_app_spec (s1 s2 : string) :
  String.rev_app s1 s2 = String.rev s1 +:+ s2.
Proof.
  unfold String.rev. revert s2. induction s1 as [|a s1 IH]; intros s2; [done|].
  simpl. rewrite IH, (IH (String a EmptyString)).
  by rewrite string_app_assoc.
Qed.

Lemma string_rev_app (s1 s2 : string) :
  String.rev (s1 +:+ s2) = String.rev s2 +:+ String.rev s1.
Proof.
  induction s1 as [|a s1 IH].
  - by rewrite string_app_nil_r.
  - rewrite string_app_cons. unfold String.rev at 1 3. simpl.
    rewrite !string_rev_app_spec, IH. by rewrite string_app_assoc.
Qed.

Lemma string_rev_involutive (s : string) : String.rev (String.rev s) = s.
Proof.
  induction s as [|a s IH]; [done|].
  unfold String.rev at 2. simpl. rewrite string_rev_app_spec, string_rev_app.
  by rewrite IH.
Qed.

Lemma fnmatch_spec (pre suf name : string) :
  DataLoader.fnmatch pre suf name = true ↔
  (∃ r, name = pre +:+ r) ∧ (∃ f, name = f +:+ suf).
Proof.
  unfold DataLoader.fnmatch. rewrite andb_true_iff, !string_prefix_app.
  split; intros [Hpre [x Hx]]; (split; [done|]).
  - exists (String.rev x).
    by rewrite <- (string_rev_involutive name), Hx, string_rev_app,
      string_rev_involutive.
  - exists (String.rev x). by rewrite Hx, string_rev_app.
Qed.

(** X12. The glob of the loader returns exactly the files of the given
    directory itself whose name starts with the prefix and ends with the
    suffix of the pattern, each once and with its content. *)
Theorem glob_matches (fs : FileSystem) (dir : Path) (pre suf : string)
    (p : Path) (f : File) :
  NoDup (DataLoader.glob fs dir pre suf).*1
  ∧ ((p, f) ∈ DataLoader.glob fs dir pre suf ↔
     fs !! p = Some f
     ∧ ∃ name, p = dir ++ [name]
               ∧ (∃ r, name = pre +:+ r) ∧ (∃ front, name = front +:+ suf)).
Proof.
  unfold DataLoader.glob. split.
  - eapply sublist_NoDup; [apply (NoDup_fst_map_to_list fs)|].
    apply fmap_sublist, sublist_filter.
  - rewrite list_elem_of_filter, elem_of_map_to_list. simpl.
    split.
    + intros [Hm Hf]. split; [done|].
      destruct (reverse p) as [|name rdir] eqn:Hrev; [done|].
      apply andb_true_iff in Hm as [Hdir%bool_decide_eq_true Hn%fnmatch_spec].
      exists name. split; [|done].
      rewrite <- (reverse_involutive p), Hrev, reverse_cons. by rewrite Hdir.
    + intros [Hf (name & -> & Hn%fnmatch_spec)]. split; [|done].
      rewrite reverse_app. simpl.
      by rewrite Hn, reverse_involutive, bool_decide_eq_true_2.
Qed.

End Glob.

(** ** The loader: what is loaded *)

Section Loading.
Context `{!pl.Casts}.
Import DataLoader.

Lemma collect_Ok (files : list File) (dfs : list Csv) :
  collect files = Py.Ok dfs ↔ files = Py.Ok <$> dfs.
Proof.
  revert dfs. induction files as [|[df|e] files IH]; intros dfs; simpl.
  - split; [by intros [= <-]|]. by destruct dfs.
  - destruct (collect files) as [rest|e] eqn:Hc; simpl.
    + split.
      * intros [= <-]. rewrite fmap_cons. f_equal. by apply IH.
      * destruct dfs as [|d dfs]; [done|]. rewrite fmap_cons.
        intros [= -> Hf]. apply IH in Hf. by injection Hf as ->.
    + split; [done|]. destruct dfs as [|d dfs]; [done|]. rewrite fmap_cons.
      intros [= -> Hf]. by apply IH in Hf.
  - split; [done|]. by destruct dfs.
Qed.

Lemma vertical_relaxed_Ok (dfs : list Csv) (combined_df : Csv) :
  vertical_relaxed dfs = Py.Ok combined_df ↔
  ∃ df rest, dfs = df :: rest
    ∧ Forall (λ d, header d = header df) rest
    ∧ combined_df = {| header := header df; records := dfs ≫= records |}.
Proof.
  unfold vertical_relaxed. destruct dfs as [|df rest].
  { split; [done|]. by intros (? & ? & ? & _). }
  destruct (decide _) as [Hall|Hnot].
  - split.
    + intros [= <-]. exists df, rest. by apply Forall_cons in Hall as [_ ?].
    + intros (? & ? & [= <- <-] & _ & ->). done.
  - split; [done|]. intros (? & ? & [= <- <-] & Hall & _).
    destruct Hnot. by apply Forall_cons.
Qed.

Lemma raw_rows_stacked (h : list string) (dfs : list Csv) :
  Forall (λ d, header d = h) dfs →
  raw_rows {| header := h; records := dfs ≫= records |} = dfs ≫= raw_rows.
Proof.
  unfold raw_rows. simpl. induction 1 as [|d dfs Hd _ IH]; [done|].
  rewrite !bind_cons, fmap_app, IH. by rewrite Hd.
Qed.

Lemma with_columns_strings_inv (df : Csv) (frame : LogFrame) :
  with_columns (Strings df) = Py.Ok frame →
  cleaned_columns ⊆ header df
  ∧ frame = {| log_columns := header df;
               log_rows := clean_types (raw_rows df) |}.
Proof.
  unfold with_columns.
  destruct (filter _ cleaned_columns) as [|c l] eqn:Hf; [|done].
  intros [= <-]. split; [|done]. intros c Hc.
  destruct (decide (c ∈ header df)) as [|Hnot]; [done|].
  assert (c ∈ filter (λ c, c ∉ header df) cleaned_columns) as Hin
    by (by apply list_elem_of_filter).
  rewrite Hf in Hin. by apply not_elem_of_nil in Hin.
Qed.

(** X13. The participant status logs load raises FileNotFoundError when
    no file matches the pattern. It returns exactly when at least one
    file matches, the reader accepts every matched file, all of them
    have the same columns and these include the seven that the clean-up
    names; the frame it returns has these columns and one cleaned row
    for every record of every matched file, in the order of the
    files. *)
Theorem load_participant_status_logs_rows (fs : FileSystem) (input_path : Path) :
  let log_files :=
    glob fs (datasets_path input_path ++ ["Activity Logs"])
         "ParticipantStatusLogs" ".csv" in
  (log_files = [] →
   load_participant_status_logs fs input_path
   = Py.Raise (Py.FileNotFoundError "No participant status logs found"))
  ∧ ∀ frame,
      load_participant_status_logs fs input_path = Py.Ok frame ↔
      ∃ df dfs,
        snd <$> log_files = Py.Ok <$> df :: dfs
        ∧ Forall (λ d, header d = header df) dfs
        ∧ cleaned_columns ⊆ header df
        ∧ frame = {| log_columns := header df;
                     log_rows := clean_row <$> ((df :: dfs) ≫= raw_rows) |}.
Proof.
  intros log_files. unfold load_participant_status_logs. fold log_files.
  split; [by intros ->|]. intros frame.
  destruct log_files as [|pf l] eqn:Hfiles.
  { split; [done|]. by intros (? & ? & ? & _). }
  generalize (snd <$> pf :: l). intros files. split.
  - destruct (collect files) as [dfs|e] eqn:Hc; [|done]. simpl.
    destruct (vertical_relaxed dfs) as [combined_df|e] eqn:Hv; [|done]. simpl.
    apply collect_Ok in Hc.
    apply vertical_relaxed_Ok in Hv as (df & rest & -> & Hall & ->).
    intros (Hsub & ->)%with_columns_strings_inv. simpl in Hsub.
    exists df, rest. split_and!; [done|done|done|]. simpl. f_equal.
    unfold clean_types. f_equal.
    apply (raw_rows_stacked (header df) (df :: rest)). by apply Forall_cons.
  - intros (df & dfs & -> & Hall & Hsub & ->).
    assert (collect (Py.Ok <$> df :: dfs) = Py.Ok (df :: dfs)) as ->
      by (by apply collect_Ok).
    change (Py.Ok (df :: dfs) ≫= vertical_relaxed)
      with (vertical_relaxed (df :: dfs)).
    assert (vertical_relaxed (df :: dfs)
            = Py.Ok {| header := header df; records := (df :: dfs) ≫= records |})
      as -> by (apply vertical_relaxed_Ok; eauto).
    match goal with
    | |- Py.Ok ?x ≫= ?f = _ => change (Py.Ok x ≫= f) with (f x)
    end.
    cbv beta. rewrite with_columns_strings by done. cbn [header].
    do 2 f_equal. unfold clean_types. f_equal.
    apply (raw_rows_stacked (header df) (df :: dfs)). by apply Forall_cons.
Qed.

Lemma load_attributes_data_Ok_iff (fs : FileSystem) (input_path : Path) :
  (∃ attributes, load_attributes_data fs input_path = Py.Ok attributes) ↔
  ∀ nf e, nf ∈ attribute_files →
    fs !! (datasets_path input_path ++ ["Attributes"; nf.2]) ≠ Some (Py.Raise e).
Proof.
  split.
  - intros [attributes Hload] nf e Hnf Hfs.
    destruct (load_attributes_data_lookup _ _ _ _ Hload Hnf)
      as [[Hnone _]|(df & Hdf & _)]; by rewrite Hfs in *.
  - intros Hread. apply load_attributes_total. intros nf e Hnf.
    rewrite <- (assoc_L (++)). by apply Hread.
Qed.

(** X14. The attribute load returns exactly when the reader accepts
    every attribute file that exists; a file that does not exist raises
    nothing. The dictionary it returns has exactly the eight attribute
    names, each with the frame of its file, or with the empty frame when
    the file does not exist. *)
Theorem load_attributes_data_keys (fs : FileSystem) (input_path : Path) :
  ((∃ attributes, load_attributes_data fs input_path = Py.Ok attributes) ↔
   ∀ nf e, nf ∈ attribute_files →
     fs !! (datasets_path input_path ++ ["Attributes"; nf.2]) ≠ Some (Py.Raise e))
  ∧ ∀ attributes name,
      load_attributes_data fs input_path = Py.Ok attributes →
      match attributes !! name with
      | Some df =>
          ∃ filename, (name, filename) ∈ attribute_files
            ∧ let file := fs !! (datasets_path input_path
                                   ++ ["Attributes"; filename]) in
              file = Some (Py.Ok df) ∨ (file = None ∧ df = empty_frame)
      | None => name ∉ attribute_files.*1
      end.
Proof.
  split; [apply load_attributes_data_Ok_iff|].
  intros attributes name Hload.
  destruct (decide (name ∈ attribute_files.*1)) as [Hin|Hout].
  - apply list_elem_of_fmap in Hin as ([n f] & -> & Hnf).
    destruct (load_attributes_data_lookup _ _ _ _ Hload Hnf)
      as [[Hnone ->]|(df & Hdf & ->)]; exists f; simpl; eauto.
  - unfold load_attributes_data in Hload.
    destruct (load_attributes_fold _ _ _ _ _ attribute_files_NoDup Hload)
      as [Hother _].
    by rewrite Hother, lookup_empty.
Qed.

(** X15. The full load returns exactly when the participant status logs
    load returns, the four journal files exist and the reader accepts
    them, and the reader accepts every attribute file that exists. The
    container it returns holds the frame of the status logs, the frame
    of each journal file, and for each attribute table the frame of its
    file or the empty frame when the file does not exist. *)
Theorem load_all_data_contents (fs : FileSystem) (input_path : Path) :
  ((∃ raw_data, load_all_data fs input_path = Py.Ok raw_data) ↔
   (∃ logs, load_participant_status_logs fs input_path = Py.Ok logs)
   ∧ (∀ p, p ∈ journal_paths input_path → ∃ df, fs !! p = Some (Py.Ok df))
   ∧ ∀ nf e, nf ∈ attribute_files →
       fs !! (datasets_path input_path ++ ["Attributes"; nf.2])
       ≠ Some (Py.Raise e))
  ∧ ∀ raw_data, load_all_data fs input_path = Py.Ok raw_data →
      let journal f := fs !! (datasets_path input_path ++ ["Journals"; f]) in
      let attribute f df :=
        let file := fs !! (datasets_path input_path ++ ["Attributes"; f]) in
        file = Some (Py.Ok df) ∨ (file = None ∧ df = empty_frame) in
      load_participant_status_logs fs input_path
        = Py.Ok (participant_status_logs raw_data)
      ∧ journal "FinancialJournal.csv" = Some (Py.Ok (financial_journal raw_data))
      ∧ journal "CheckinJournal.csv" = Some (Py.Ok (checkin_journal raw_data))
      ∧ journal "TravelJournal.csv" = Some (Py.Ok (travel_journal raw_data))
      ∧ journal "SocialNetwork.csv" = Some (Py.Ok (social_network raw_data))
      ∧ attribute "Participants.csv" (participants raw_data)
      ∧ attribute "Jobs.csv" (jobs raw_data)
      ∧ attribute "Employers.csv" (employers raw_data)
      ∧ attribute "Apartments.csv" (apartments raw_data)
      ∧ attribute "Buildings.csv" (buildings raw_data)
      ∧ attribute "Restaurants.csv" (restaurants raw_data)
      ∧ attribute "Pubs.csv" (pubs raw_data)
      ∧ attribute "Schools.csv" (schools raw_data).
Proof.
  assert (Hread : ∀ p df, read_csv fs p = Py.Ok df ↔ fs !! p = Some (Py.Ok df)).
  { intros p df. unfold read_csv. destruct (fs !! p) as [[?|?]|]; naive_solver. }
  split.
  - split.
    + intros [raw_data Hok].
      destruct (load_all_data_inv _ _ _ Hok)
        as (attributes & Hl & Hf & Hc & Ht & Hs & Ha & _).
      split_and!; [eauto| |].
      * intros p Hp. unfold journal_paths in Hp. simpl in Hp.
        repeat (apply elem_of_cons in Hp as [->|Hp];
                [eexists; apply Hread; eassumption|]).
        by apply not_elem_of_nil in Hp.
      * apply load_attributes_data_Ok_iff. eauto.
    + intros ([logs Hl] & Hj & Ha). unfold load_all_data. rewrite Hl. simpl.
      unfold load_financial_journal, load_checkin_journal, load_travel_journal,
        load_social_network.
      destruct (Hj (datasets_path input_path ++ ["Journals"; "FinancialJournal.csv"]))
        as [? ->%Hread]; [unfold journal_paths; simpl; in_list|]. simpl.
      destruct (Hj (datasets_path input_path ++ ["Journals"; "CheckinJournal.csv"]))
        as [? ->%Hread]; [unfold journal_paths; simpl; in_list|]. simpl.
      destruct (Hj (datasets_path input_path ++ ["Journals"; "TravelJournal.csv"]))
        as [? ->%Hread]; [unfold journal_paths; simpl; in_list|]. simpl.
      destruct (Hj (datasets_path input_path ++ ["Journals"; "SocialNetwork.csv"]))
        as [? ->%Hread]; [unfold journal_paths; simpl; in_list|]. simpl.
      apply load_attributes_data_Ok_iff in Ha as [attributes ->]. simpl. eauto.
  - intros raw_data Hok journal attribute.
    destruct (load_all_data_inv _ _ _ Hok)
      as (attributes & Hl & Hf & Hc & Ht & Hs & Ha & Hraw).
    assert (Hattr : ∀ n f, (n, f) ∈ attribute_files →
              attribute f (getitem attributes n)).
    { intros n f Hnf. unfold attribute, getitem.
      destruct (load_attributes_data_lookup _ _ _ _ Ha Hnf)
        as [[Hfs Hlk]|(df & Hfs & Hlk)]; simpl in Hfs, Hlk |- *;
        rewrite Hlk; simpl; eauto. }
    rewrite Hraw. simpl.
    split_and!; try (by apply Hread); try done;
      apply Hattr; unfold attribute_files; in_list.
Qed.

End Loading.

Lemma load_participant_status_logs_rows_witness :
  (∃ frame,
     DataLoader.load_participant_status_logs (H := PolarsModel.casts)
       Sample.full_fs Sample.input_path = Py.Ok frame
     ∧ log_columns frame = header Sample.status_csv
     ∧ jobId <$> log_rows frame = [Some 7])
  ∧ ¬ ∃ frame,
        DataLoader.load_participant_status_logs (H := PolarsModel.casts)
          Sample.fs_without_jobId Sample.input_path = Py.Ok frame.
Proof.
  split.
  - eexists. split_and!; [vm_compute; reflexivity|reflexivity..].
  - intros [frame Hok].
    destruct (load_participant_status_logs_rows (H := PolarsModel.casts)
                Sample.fs_without_jobId Sample.input_path) as [_ Hiff].
    apply Hiff in Hok as (df & dfs & Hfiles & _ & Hsub & _).
    assert (Hglob : DataLoader.glob Sample.fs_without_jobId
                      (DataLoader.datasets_path Sample.input_path
                         ++ ["Activity Logs"]) "ParticipantStatusLogs" ".csv"
                    = [(Sample.logs_path, Py.Ok Sample.status_csv_without_jobId)])
      by (vm_compute; reflexivity).
    rewrite Hglob in Hfiles. injection Hfiles as <- _.
    assert (Hin : "jobId" ∈ header Sample.status_csv_without_jobId)
      by (apply Hsub; unfold DataLoader.cleaned_columns; in_list).
    simpl in Hin.
    repeat (apply elem_of_cons in Hin as [Hin|Hin]; [discriminate Hin|]).
    by apply not_elem_of_nil in Hin.
Defined.

Lemma load_attributes_data_keys_witness :
  (¬ ∃ attributes,
       DataLoader.load_attributes_data Sample.fs_with_empty_jobs
         Sample.input_path = Py.Ok attributes)
  ∧ ∃ attributes,
      DataLoader.load_attributes_data Sample.fs_without_jobs Sample.input_path
      = Py.Ok attributes
      ∧ attributes !! "jobs" = Some empty_frame
      ∧ attributes !! "employers" = Some Sample.employers_csv.
Proof.
  split.
  - destruct (load_attributes_data_keys Sample.fs_with_empty_jobs
                Sample.input_path) as [Hiff _].
    intros Hex. pose proof (proj1 Hiff Hex) as Hread.
    eapply (Hread ("jobs", "Jobs.csv"));
      [unfold DataLoader.attribute_files; in_list|vm_compute; reflexivity].
  - eexists. split_and!; vm_compute; reflexivity.
Defined.

Lemma load_all_data_contents_witness :
  ∃ raw_data,
    DataLoader.load_all_data (H := PolarsModel.casts) Sample.full_fs
      Sample.input_path = Py.Ok raw_data
    ∧ jobs raw_data = Sample.jobs_csv
    ∧ Py.len (log_rows (participant_status_logs raw_data)) = 1.
Proof.
  destruct (load_all_data_contents (H := PolarsModel.casts) Sample.full_fs
              Sample.input_path) as [_ Hc].
  eexists. split; [vm_compute; reflexivity|].
  match goal with
  | |- jobs ?r = _ ∧ _ =>
      destruct (Hc r) as (_ & _ & _ & _ & _ & _ & Hjobs & _);
        [vm_compute; reflexivity|]
  end.
  split; [|vm_compute; reflexivity].
  destruct Hjobs as [Hjobs|[Hnone _]]; [|by vm_compute in Hnone].
  assert (Hfile : Sample.full_fs
                    !! (DataLoader.datasets_path Sample.input_path
                          ++ ["Attributes"; "Jobs.csv"])
                  = Some (Py.Ok Sample.jobs_csv)) by (vm_compute; reflexivity).
  rewrite Hfile in Hjobs.
  exact (f_equal (λ file, match file with
                          | Some (Py.Ok df) => df
                          | _ => empty_frame
                          end) (eq_sym Hjobs)).
Defined.

(** ** The run and the store *)

Section RunOutcome.
Context `{!pl.Casts}.
Variable BusinessProcessor_process : RawData → Py.Result unit.
Variable FinancialProcessor_process : RawData → Py.Result unit.
Variable EmploymentProcessor_process : RawData → Py.Result unit.
Variable raises : Main.Statement → Main.Store → option Py.Exception.
Variable fs : FileSystem.
Variable input_path : Path.

Let main := Main.main BusinessProcessor_process FinancialProcessor_process
              EmploymentProcessor_process raises fs input_path.

Lemma and_then_Ok (a b : Main.Step) (db : Main.Store) :
  (Main.and_then a b db).2 = Py.Ok () ↔
  (a db).2 = Py.Ok () ∧ (b (a db).1).2 = Py.Ok ().
Proof.
  unfold Main.and_then. destruct (a db) as [db' [[]|e]]; simpl.
  - split; [by split|by intros [_ ?]].
  - split; [done|by intros [? _]].
Qed.

Lemma and_then_completed (m : Main.Method) (b : Main.Step) (db : Main.Store) :
  (Main.call raises m db).2 = Py.Ok () →
  Main.and_then (Main.call raises m) b db = b (Main.completed m db).
Proof.
  intros Hm. unfold Main.and_then. by rewrite (call_completed _ _ _ Hm).
Qed.

(** X16. The run either returns or exits with status 1, and it returns
    exactly when the set-up of the store, the loader, the three
    processors, the saving of their tables and the summaries all
    complete; the store then holds what these steps create. *)
Theorem main_exit_status (db0 : Main.Store) :
  let db1 := Main.DuckDBManager db0 in
  let db2 := Main.save_business_data db1 in
  let db3 := Main.save_financial_data db2 in
  let db4 := Main.save_employment_data db3 in
  ((main db0).2 = Main.Returned ∨ (main db0).2 = Main.SysExit 1)
  ∧ ((main db0).2 = Main.Returned ↔
     ∃ raw_data,
       (Main.call raises Main.Init db0).2 = Py.Ok ()
       ∧ DataLoader.load_all_data fs input_path = Py.Ok raw_data
       ∧ BusinessProcessor_process raw_data = Py.Ok ()
       ∧ (Main.call raises Main.SaveBusinessData db1).2 = Py.Ok ()
       ∧ FinancialProcessor_process raw_data = Py.Ok ()
       ∧ (Main.call raises Main.SaveFinancialData db2).2 = Py.Ok ()
       ∧ EmploymentProcessor_process raw_data = Py.Ok ()
       ∧ (Main.call raises Main.SaveEmploymentData db3).2 = Py.Ok ()
       ∧ (Main.call raises Main.GenerateSummaries db4).2 = Py.Ok ())
  ∧ ((main db0).2 = Main.Returned →
     (main db0).1 = Main.generate_summaries db4).
Proof.
  intros db1 db2 db3 db4.
  assert (Hret : (main db0).2 = Main.Returned ↔
            (Main.try_block BusinessProcessor_process FinancialProcessor_process
               EmploymentProcessor_process raises fs input_path db0).2
            = Py.Ok ()).
  { unfold main, Main.main. destruct (Main.try_block _ _ _ _ _ _ db0)
      as [db [[]|e]]; simpl; naive_solver. }
  assert (Hsteps :
    (Main.try_block BusinessProcessor_process FinancialProcessor_process
       EmploymentProcessor_process raises fs input_path db0).2 = Py.Ok () ↔
    ∃ raw_data,
      (Main.call raises Main.Init db0).2 = Py.Ok ()
      ∧ DataLoader.load_all_data fs input_path = Py.Ok raw_data
      ∧ BusinessProcessor_process raw_data = Py.Ok ()
      ∧ (Main.call raises Main.SaveBusinessData db1).2 = Py.Ok ()
      ∧ FinancialProcessor_process raw_data = Py.Ok ()
      ∧ (Main.call raises Main.SaveFinancialData db2).2 = Py.Ok ()
      ∧ EmploymentProcessor_process raw_data = Py.Ok ()
      ∧ (Main.call raises Main.SaveEmploymentData db3).2 = Py.Ok ()
      ∧ (Main.call raises Main.GenerateSummaries db4).2 = Py.Ok ()).
  { unfold Main.try_block. rewrite and_then_Ok. split.
    - intros [Hinit Hrest].
      rewrite (call_completed _ _ _ Hinit) in Hrest. cbn [fst] in Hrest.
      fold (Main.DuckDBManager db0) in Hrest. fold db1 in Hrest.
      destruct (DataLoader.load_all_data fs input_path) as [raw_data|e];
        [|done].
      exists raw_data.
      apply and_then_Ok in Hrest as [Hb Hrest]. cbn [Main.compute fst snd] in *.
      apply and_then_Ok in Hrest as [Hsb Hrest].
      rewrite (call_completed _ _ _ Hsb) in Hrest. cbn [fst] in Hrest.
      fold (Main.save_business_data db1) in Hrest. fold db2 in Hrest.
      apply and_then_Ok in Hrest as [Hf Hrest]. cbn [Main.compute fst snd] in *.
      apply and_then_Ok in Hrest as [Hsf Hrest].
      rewrite (call_completed _ _ _ Hsf) in Hrest. cbn [fst] in Hrest.
      fold (Main.save_financial_data db2) in Hrest. fold db3 in Hrest.
      apply and_then_Ok in Hrest as [He Hrest]. cbn [Main.compute fst snd] in *.
      apply and_then_Ok in Hrest as [Hse Hrest].
      rewrite (call_completed _ _ _ Hse) in Hrest. cbn [fst] in Hrest.
      fold (Main.save_employment_data db3) in Hrest. fold db4 in Hrest.
      by split_and!.
    - intros (raw_data & Hinit & -> & Hb & Hsb & Hf & Hsf & He & Hse & Hg).
      split; [done|]. rewrite (call_completed _ _ _ Hinit). cbn [fst].
      fold (Main.DuckDBManager db0). fold db1.
      rewrite !and_then_Ok. cbn [Main.compute fst snd].
      rewrite (call_completed _ _ _ Hsb). cbn [fst].
      fold (Main.save_business_data db1). fold db2.
      rewrite (call_completed _ _ _ Hsf). cbn [fst].
      fold (Main.save_financial_data db2). fold db3.
      rewrite (call_completed _ _ _ Hse). cbn [fst].
      fold (Main.save_employment_data db3). fold db4.
      by split_and!. }
  split_and!.
  - unfold main, Main.main. destruct (Main.try_block _ _ _ _ _ _ db0)
      as [db [[]|e]]; simpl; auto.
  - by rewrite Hret.
  - intros (raw_data & Hinit & Hload & Hb & Hsb & Hf & Hsf & He & Hse & Hg)
      %Hret%Hsteps.
    unfold main, Main.main, Main.try_block.
    rewrite (and_then_completed _ _ _ Hinit), Hload.
    fold (Main.DuckDBManager db0). fold db1.
    unfold Main.and_then at 1. unfold Main.compute at 1. rewrite Hb.
    rewrite (and_then_completed _ _ _ Hsb).
    fold (Main.save_business_data db1). fold db2.
    unfold Main.and_then at 1. unfold Main.compute at 1. rewrite Hf.
    rewrite (and_then_completed _ _ _ Hsf).
    fold (Main.save_financial_data db2). fold db3.
    unfold Main.and_then at 1. unfold Main.compute at 1. rewrite He.
    rewrite (and_then_completed _ _ _ Hse).
    fold (Main.save_employment_data db3). fold db4.
    by rewrite (call_completed _ _ _ Hg).
Qed.


End RunOutcome.

Lemma main_exit_status_witness :
  (Main.main (H := PolarsModel.casts) BusinessProcessor.process
     FinancialProcessor.process (λ _, Py.Ok ()) Sample.no_fault
     Sample.full_fs Sample.input_path Sample.new_store).2 = Main.Returned
  ∧ (Main.main (H := PolarsModel.casts) BusinessProcessor.process
       FinancialProcessor.process (λ _, Py.Ok ()) Sample.no_fault
       Sample.full_fs Sample.input_path Sample.new_store).1
    = Main.generate_summaries
        (Main.save_employment_data
           (Main.save_financial_data
              (Main.save_business_data (Main.DuckDBManager Sample.new_store)))).
Proof.
  destruct (main_exit_status (H := PolarsModel.casts) BusinessProcessor.process
              FinancialProcessor.process (λ _, Py.Ok ()) Sample.no_fault
              Sample.full_fs Sample.input_path Sample.new_store)
    as (_ & _ & Hstore).
  assert (Hret : (Main.main (H := PolarsModel.casts) BusinessProcessor.process
                    FinancialProcessor.process (λ _, Py.Ok ()) Sample.no_fault
                    Sample.full_fs Sample.input_path Sample.new_store).2
                 = Main.Returned) by (vm_compute; reflexivity).
  split; [exact Hret|exact (Hstore Hret)].
Defined.


(** ** The job flows *)

Section JobFlows.
Context `{!pl.Casts}.
Import EmploymentProcessor.

Lemma join_jobs_in (jobs : list Job) (r : StatusLog) x :
  x ∈ join_jobs jobs r →
  x.1 = r
  ∧ (x.2 = None
     ∨ ∃ j, j ∈ jobs ∧ jobId r = Some (job_jobId j)
            ∧ x.2 = Some (job_employerId j)).
Proof.
  unfold join_jobs.
  destruct (filter (λ j, Some (job_jobId j) = jobId r) jobs) as [|j0 js] eqn:Hf.
  - intros ->%list_elem_of_singleton. split; [done|by left].
  - intros (j & -> & Hj)%list_elem_of_fmap. split; [done|]. right.
    rewrite <- Hf in Hj. apply list_elem_of_filter in Hj as [Hid Hj]. eauto.
Qed.

Lemma joined_in (status_logs : list StatusLog) (jobs : list Job) x :
  x ∈ merge_sort history_le
        (filter (λ r, is_Some (jobId r)) status_logs ≫= join_jobs jobs) →
  x.1 ∈ status_logs
  ∧ ∀ e, x.2 = Some e →
      ∃ j, j ∈ jobs ∧ jobId x.1 = Some (job_jobId j) ∧ job_employerId j = e.
Proof.
  rewrite merge_sort_Permutation, list_elem_of_bind.
  intros (r & Hx & [_ Hr]%list_elem_of_filter).
  apply join_jobs_in in Hx as [-> Hx]. split; [done|].
  intros e He. destruct Hx as [Hx|(j & ? & ? & Hx)]; rewrite Hx in He; [done|].
  injection He as <-. eauto.
Qed.

Lemma shift_over_in (seen l : list (StatusLog * option Z)) h :
  h ∈ shift_over seen l →
  (History.log h, History.employerId h) ∈ l
  ∧ ∀ p, History.previous_employer h = Some p →
      ∃ y, y ∈ seen ++ l
           ∧ participantId y.1 = participantId (History.log h)
           ∧ y.2 = Some p.
Proof.
  revert seen. induction l as [|x l IH]; intros seen; simpl.
  { by intros ?%not_elem_of_nil. }
  intros [->|Hh]%elem_of_cons.
  - simpl. split; [destruct x; in_list|]. intros p Hp.
    destruct (last _) as [y|] eqn:Hlast; [|done]. simpl in Hp.
    apply last_Some_elem_of, list_elem_of_filter in Hlast as [Hpid Hy].
    exists y. split_and!; [|done|done]. apply elem_of_app. by left.
  - destruct (IH _ Hh) as [Hin Hprev]. split; [by apply list_elem_of_further|].
    intros p Hp. destruct (Hprev p Hp) as (y & Hy & ?).
    exists y. split; [|done]. by rewrite <- (assoc_L (++)) in Hy.
Qed.

Lemma is_transition_true (h : History.row) :
  is_transition h = Some true ↔
  ∃ e p, History.employerId h = Some e ∧ History.previous_employer h = Some p
         ∧ e ≠ p.
Proof.
  unfold is_transition.
  destruct (History.employerId h) as [e|], (History.previous_employer h) as [p|];
    simpl; try (split; [done|by intros (? & ? & ? & ? & ?)]).
  - case_bool_decide; simpl.
    + split; [eauto|done].
    + split; [done|]. intros (? & ? & [= <-] & [= <-] & ?). done.
Qed.

(** A transition row of the history: its two employers. *)
Lemma transition_in (status_logs : list StatusLog) (jobs : list Job) h :
  h ∈ filter (λ h, is_transition h = Some true)
        (employment_history status_logs jobs) →
  ∃ e p r r' j j',
    History.employerId h = Some e ∧ History.previous_employer h = Some p
    ∧ e ≠ p
    ∧ r ∈ status_logs ∧ r' ∈ status_logs
    ∧ participantId r = participantId r'
    ∧ j ∈ jobs ∧ j' ∈ jobs
    ∧ jobId r = Some (job_jobId j) ∧ jobId r' = Some (job_jobId j')
    ∧ job_employerId j = e ∧ job_employerId j' = p.
Proof.
  intros [(e & p & He & Hp & Hne)%is_transition_true Hh]%list_elem_of_filter.
  unfold employment_history in Hh.
  apply shift_over_in in Hh as [Hx Hprev].
  destruct (Hprev p Hp) as (y & Hy & Hpid & Hy2). simpl in Hy.
  apply joined_in in Hx as [Hr Hj]. apply joined_in in Hy as [Hr' Hj'].
  simpl in *. destruct (Hj e He) as (j & ? & ? & ?).
  destruct (Hj' p Hy2) as (j' & ? & ? & ?).
  exists e, p, (History.log h), y.1, j, j'. split_and!; done.
Qed.

(** X19. Every row of the job flows frame joins two different employers,
    neither null and each the employer of a row of the jobs frame; it
    counts at least one transition and between one and that many
    participants. *)
Theorem job_flow_rows (status_logs : list StatusLog) (jobs : list Job) row :
  row ∈ _calculate_job_flows status_logs jobs →
  (∃ e p j j',
     JobFlow.employerId row = Some e ∧ JobFlow.previous_employer row = Some p
     ∧ e ≠ p ∧ j ∈ jobs ∧ j' ∈ jobs
     ∧ job_employerId j = e ∧ job_employerId j' = p)
  ∧ 1 <= JobFlow.unique_participants row <= JobFlow.transition_count row.
Proof.
  unfold _calculate_job_flows.
  intros (kg & -> & [Hk Hg]%elem_of_group_by)%list_elem_of_fmap.
  apply list_elem_of_fmap in Hk as (h & Hkey & Hh).
  split.
  - apply transition_in in Hh
      as (e & p & _ & _ & j & j' & He & Hp & Hne & _ & _ & _ & ? & ? & _ & _ & ? & ?).
    exists e, p, j, j'. simpl. rewrite Hkey. simpl. split_and!; done.
  - simpl. split.
    + apply n_unique_pos. intros Hnil%fmap_nil_inv. revert Hnil. rewrite Hg.
      apply group_not_nil. rewrite Hkey. by apply list_elem_of_fmap_2.
    + etransitivity; [apply n_unique_le_len|].
      unfold Py.len. by rewrite length_fmap.
Qed.

(** X20. When every participant is only ever observed at jobs of one
    employer, the job flows frame is empty. *)
Theorem job_flows_empty_without_change (status_logs : list StatusLog)
    (jobs : list Job) :
  (∀ r r' j j',
     r ∈ status_logs → r' ∈ status_logs → j ∈ jobs → j' ∈ jobs →
     participantId r = participantId r' →
     jobId r = Some (job_jobId j) → jobId r' = Some (job_jobId j') →
     job_employerId j = job_employerId j') →
  _calculate_job_flows status_logs jobs = [].
Proof.
  intros Hsame. unfold _calculate_job_flows.
  rewrite filter_none; [done|]. intros h Hh Htr.
  assert (h ∈ filter (λ h, is_transition h = Some true)
                (employment_history status_logs jobs)) as Hin
    by (by apply list_elem_of_filter).
  apply transition_in in Hin
    as (e & p & r & r' & j & j' & _ & _ & Hne & ? & ? & ? & ? & ? & ? & ? & <- & <-).
  apply Hne. by apply (Hsame r r' j j').
Qed.

End JobFlows.

Lemma job_flow_rows_witness :
  ∃ row,
    row ∈ EmploymentProcessor._calculate_job_flows (H := PolarsModel.casts)
            Sample.job_change Sample.two_jobs
    ∧ JobFlow.previous_employer row = Some 379
    ∧ JobFlow.employerId row = Some 412
    ∧ 1 <= JobFlow.unique_participants row <= JobFlow.transition_count row.
Proof.
  eexists. split; [vm_compute; apply list_elem_of_here|].
  split; [reflexivity|]. split; [reflexivity|].
  eapply (job_flow_rows (H := PolarsModel.casts) Sample.job_change
            Sample.two_jobs).
  vm_compute. apply list_elem_of_here.
Defined.

Lemma job_flows_empty_without_change_witness :
  EmploymentProcessor._calculate_job_flows (H := PolarsModel.casts)
    Sample.same_job Sample.jobs = [].
Proof.
  apply (job_flows_empty_without_change (H := PolarsModel.casts)).
  intros r r' j j' _ _ Hj Hj' _ _ _.
  apply list_elem_of_singleton in Hj, Hj'. by subst.
Defined.

(** ** The mean balance of a stability row *)

Section AvgBalance.
Context `{!pl.Casts}.
Import EmploymentProcessor.

Lemma mean_None (col : list (option Q)) :
  pl.mean col = None ↔ ∀ x, x ∈ col → x = None.
Proof.
  split; [|apply mean_all_null].
  unfold pl.mean. destruct (pl.drop_nulls col) as [|v vs] eqn:Hd; [|done].
  intros _ [q|] Hq; [|done].
  apply elem_of_drop_nulls in Hq. rewrite Hd in Hq.
  by apply not_elem_of_nil in Hq.
Qed.

Lemma group_partials_rows k batch_size (status_logs : list StatusLog) :
  0 < batch_size →
  ∀ r, r ∈ filter (λ r, stability_key r = k) status_logs ↔
       ∃ b, b ∈ batch_logs status_logs batch_size
            ∧ r ∈ filter (λ r, stability_key r = k) b.
Proof.
  intros Hsize r.
  rewrite <- (batch_logs_concat status_logs batch_size Hsize) at 1.
  rewrite filter_concat, elem_of_concat. split.
  - intros (l & (b & -> & Hb)%list_elem_of_fmap & Hr). eauto.
  - intros (b & Hb & Hr). exists (filter (λ r, stability_key r = k) b).
    split; [|done]. by apply list_elem_of_fmap_2.
Qed.

(** X21. For a positive batch size the avg_balance of a stability row is
    null exactly when every availableBalance of the rows of its key is
    null. *)
Theorem avg_balance_null_iff (batch_size : Z) (status_logs : list StatusLog) row :
  0 < batch_size →
  row ∈ pl.rows (analyze_employment_stability_batched batch_size status_logs) →
  let group :=
    filter (λ r, stability_key r = stability_row_key row) status_logs in
  Stability.avg_balance row = None ↔
  ∀ r, r ∈ group → availableBalance r = None.
Proof.
  intros Hsize (k & Hk & ->)%stability_rows; [|done]. intros group.
  subst group. rewrite stability_of_key. simpl.
  rewrite mean_None. split.
  - intros Hall r (b & Hb & Hr)%(group_partials_rows k batch_size); [|done].
    assert (BatchStability.avg_balance
              (batch_stability_of k (filter (λ r, stability_key r = k) b))
            = None) as Hnone.
    { apply Hall, list_elem_of_fmap_2. unfold group_partials.
      apply list_elem_of_omap. exists b. split; [done|].
      destruct (filter _ b); [by apply not_elem_of_nil in Hr|done]. }
    simpl in Hnone. rewrite mean_None in Hnone.
    by apply Hnone, list_elem_of_fmap_2.
  - intros Hall x (s & -> & (b & Hb & ->)%group_partials_in)%list_elem_of_fmap.
    simpl. apply mean_None.
    intros y (r & -> & Hr)%list_elem_of_fmap. apply Hall.
    apply (group_partials_rows k batch_size); eauto.
Qed.

End AvgBalance.

Lemma avg_balance_null_iff_witness :
  ∃ row,
    row ∈ pl.rows (EmploymentProcessor.analyze_employment_stability_batched
                     (H := PolarsModel.casts) 2 Sample.no_balance)
    ∧ Stability.avg_balance row = None
    ∧ ∀ r, r ∈ Sample.no_balance → availableBalance r = None.
Proof.
  eexists. split; [vm_compute; apply list_elem_of_here|].
  split; [reflexivity|].
  apply (avg_balance_null_iff (H := PolarsModel.casts) 2 Sample.no_balance
           _ eq_refl ltac:(vm_compute; apply list_elem_of_here)).
  reflexivity.
Defined.

(** ** Rows without a timestamp *)

Section AbsentTimestamps.
Context `{!pl.Casts}.
Import EmploymentProcessor.

(** X22. The clean-up keeps every row, and a row whose timestamp does
    not parse gets a null timestamp, hence a null month. For a positive
    batch size and every participant with such a row, the final stability
    frame has a row keyed by that participant and the null month, which
    combines the per-batch aggregates computed over exactly the
    null-timestamp rows of the participant in each batch; when the data
    fit in one batch, its three metrics are the aggregates over exactly
    the null-timestamp rows of the participant. *)
Theorem absent_timestamp_rows_grouped (raw : list RawLog) (batch_size : Z)
    (p : option Z) :
  0 < batch_size →
  let status_logs := DataLoader.clean_types raw in
  (length status_logs = length raw
   ∧ ∀ i r, raw !! i = Some r →
       raw_timestamp r ≫= pl.str_to_datetime = None →
       ∃ r', status_logs !! i = Some r' ∧ timestamp r' = None
             ∧ stability_key r' = (participantId r', None))
  ∧ ((∃ r, r ∈ status_logs ∧ participantId r = p ∧ timestamp r = None) →
     ∃ row,
       row ∈ pl.rows (analyze_employment_stability_batched batch_size status_logs)
       ∧ Stability.participantId row = p
       ∧ Stability.month row = None
       ∧ row = stability_of (p, None) (absent_partials p batch_size status_logs)
       ∧ (Py.len status_logs <= batch_size →
          Stability.employment_rate row =
            pl.mean ((λ r, Some (inject_Z (pl.of_bool (is_employed r))))
                       <$> absent_rows p status_logs)
          ∧ Stability.job_changes row =
              pl.n_unique (jobId <$> absent_rows p status_logs)
          ∧ Stability.avg_balance row =
              pl.mean (availableBalance <$> absent_rows p status_logs))).
Proof.
  intros Hsize status_logs. split.
  - split; [apply length_fmap|].
    intros i r Hi Hts. exists (DataLoader.clean_row r).
    subst status_logs. unfold DataLoader.clean_types.
    rewrite list_lookup_fmap, Hi. split_and!; [done|exact Hts|].
    unfold stability_key, month_of. simpl. by rewrite Hts.
  - intros (r & Hr & Hp & Hts).
    assert (Hkey : stability_key r = (p, None)) by by apply stability_key_absent.
    exists (stability_of (p, None) (absent_partials p batch_size status_logs)).
    split_and!; try done.
    + apply stability_rows; [done|]. exists (p, None).
      split; [|by rewrite group_partials_absent].
      rewrite <- Hkey. by apply list_elem_of_fmap_2.
    + intros Hlen.
      assert (Hpos : 0 < Py.len status_logs).
      { destruct status_logs; [by apply not_elem_of_nil in Hr|].
        unfold Py.len. simpl. lia. }
      unfold absent_partials. rewrite batch_logs_single by lia. csimpl.
      assert (Hin : r ∈ absent_rows p status_logs)
        by (by apply list_elem_of_filter).
      destruct (absent_rows p status_logs) as [|r0 g] eqn:Hg;
        [by apply not_elem_of_nil in Hin|].
      split_and!.
      * exact (mean_mean _).
      * unfold stability_of, pl.sum. simpl. lia.
      * exact (mean_mean _).
Qed.

End AbsentTimestamps.

Lemma absent_timestamp_rows_grouped_witness :
  let status_logs :=
    DataLoader.clean_types (H := PolarsModel.casts) Sample.bad_timestamps in
  (∃ r, r ∈ status_logs ∧ participantId r = Some 1 ∧ timestamp r = None)
  ∧ ∃ row,
      row ∈ pl.rows (EmploymentProcessor._analyze_employment_stability
                       (H := PolarsModel.casts) status_logs)
      ∧ Stability.participantId row = Some 1
      ∧ Stability.month row = None
      ∧ Stability.employment_rate row = Some (1 # 2)%Q
      ∧ Stability.job_changes row = 2
      ∧ Stability.avg_balance row = Some 40%Q.
Proof.
  intros status_logs.
  assert (Hex : ∃ r, r ∈ status_logs ∧ participantId r = Some 1
                     ∧ timestamp r = None).
  { eexists. split; [|split]; [apply list_elem_of_lookup_2 with 1%nat| |];
      vm_compute; reflexivity. }
  split; [exact Hex|].
  destruct (absent_timestamp_rows_grouped (H := PolarsModel.casts)
              Sample.bad_timestamps EmploymentProcessor.batch_size (Some 1)
              eq_refl) as [_ Hgroup].
  destruct (Hgroup Hex) as (row & Hrow & Hp & Hm & _ & Hone).
  destruct Hone as (He & Hj & Hb); [vm_compute; discriminate|].
  exists row. rewrite He, Hj, Hb.
  split_and!; [done|done|done|vm_compute; reflexivity..].
Defined.
